(** * Silent Risk: verification of the task-orchestration core

    A shallow embedding of the Python services of the repository:

    - [SignatureVerifier]: backend/app/services/signature_verifier.py
    - [Backend]: backend/app/services/cache.py, redis_publisher.py,
      kafka_producer.py and the [analyze_wallet] endpoint of api/risk.py
    - [Worker]: worker/app/services/cache.py, kafka_producer.py,
      kafka_consumer.py and handlers/risk_analysis.py
    - [ConnectionManager]: websocket-service/app/core/connection_manager.py
    - [Progress], [Scenario]: the stage writes of the pipeline, and the
      concrete environments and inputs the examples run on

    Python integers are unbounded and are modelled by [Z]; [str] by
    [string], for ASCII text (see [Py.lower]); dictionaries whose insertion order is observable (JSON
    payloads) by association lists; the Redis key space and the two
    subscription dictionaries by [gmap]; Python sets by [gset].
    Coroutines are run to completion, one at a time: an [await] is a
    plain call in a state-and-exception monad. *)

From Stdlib Require Import ZArith String List Lia Bool Ascii.
From stdpp Require Import base gmap sets list strings pretty.

Local Open Scope Z_scope.
Local Open Scope string_scope.

(** ** Python values and exceptions *)

Module Py.

(** The exceptions the modelled code raises or catches.  [Exception]
    stands for any other exception class; its argument is [str(e)]. *)
Inductive exn : Type :=
| HTTPException (status_code : Z) (detail : string)
| KeyError (key : string)
| AttributeError (msg : string)
| Exception (msg : string).

(** [str(e)]. *)
Definition str_exn (e : exn) : string :=
  match e with
  | HTTPException c d => pretty c +:+ ": " +:+ d
  | KeyError k => "'" +:+ k +:+ "'"
  | AttributeError m => m
  | Exception m => m
  end.

(** Outcome of a call: a returned value or a raised exception. *)
Inductive result (A : Type) : Type :=
| Ok (a : A)
| Raise (e : exn).
Arguments Ok {A} a.
Arguments Raise {A} e.

Definition is_ok {A} (r : result A) : bool :=
  match r with Ok _ => true | Raise _ => false end.

(** JSON-like values: what [json.dumps] accepts and [json.loads]
    returns.  A [JObj] keeps the insertion order of a Python dict. *)
#[warnings="-register-all"]
Inductive json : Type :=
| JNull
| JBool (b : bool)
| JInt (z : Z)
| JStr (s : string)
| JList (l : list json)
| JObj (d : list (string * json)).

Definition dict : Type := list (string * json).

(** [d.get(k)]: the value of the first (only) binding of [k]. *)
Fixpoint dict_get (k : string) (d : dict) : option json :=
  match d with
  | [] => None
  | (k', v) :: d' => if String.eqb k k' then Some v else dict_get k d'
  end.

(** [d[k] = v]: overwrite in place, or append a new binding. *)
Fixpoint dict_set (k : string) (v : json) (d : dict) : dict :=
  match d with
  | [] => [(k, v)]
  | (k', v') :: d' =>
      if String.eqb k k' then (k, v) :: d' else (k', v') :: dict_set k v d'
  end.

(** Truth value of a Python object in a condition. *)
Definition truthy (j : json) : bool :=
  match j with
  | JNull => false
  | JBool b => b
  | JInt z => negb (z =? 0)%Z
  | JStr s => negb (String.eqb s "")
  | JList l => match l with [] => false | _ => true end
  | JObj d => match d with [] => false | _ => true end
  end.

(** [x if x is not None else None], for optional strings. *)
Definition opt_str (o : option string) : json :=
  match o with Some s => JStr s | None => JNull end.

(** [if message:] on an optional string. *)
Definition truthy_opt (o : option string) : bool :=
  match o with Some s => negb (String.eqb s "") | None => false end.

Definition lower_ascii (c : ascii) : ascii :=
  let n := nat_of_ascii c in
  if (65 <=? n)%nat && (n <=? 90)%nat then ascii_of_nat (n + 32) else c.

Definition upper_ascii (c : ascii) : ascii :=
  let n := nat_of_ascii c in
  if (97 <=? n)%nat && (n <=? 122)%nat then ascii_of_nat (n - 32) else c.

(** [s.lower()] on ASCII text: wallet addresses, commitments and
    signatures are hexadecimal text by their field patterns, and the
    message template is ASCII.  On text with other characters Python's
    [str.lower()] also maps letters outside ASCII, which this function
    leaves as they are; a statement about text that can hold such
    characters (the [message] field has no pattern) says [is_ascii] of
    it. *)
Fixpoint lower (s : string) : string :=
  match s with
  | EmptyString => EmptyString
  | String c s' => String (lower_ascii c) (lower s')
  end.

(** Text all of whose characters are ASCII. *)
Fixpoint is_ascii (s : string) : bool :=
  match s with
  | EmptyString => true
  | String c s' => (nat_of_ascii c <? 128)%nat && is_ascii s'
  end.

(** [s.capitalize()] on ASCII text. *)
Definition capitalize (s : string) : string :=
  match s with
  | EmptyString => EmptyString
  | String c s' => String (upper_ascii c) (lower s')
  end.

(** [sub in s]. *)
Fixpoint contains (sub s : string) : bool :=
  String.prefix sub s ||
  match s with
  | EmptyString => false
  | String _ s' => contains sub s'
  end.

End Py.
Import Py.

(** ** backend/app/services/signature_verifier.py *)

Module SignatureVerifier.

Definition MAX_SIGNATURE_AGE_SECONDS : Z := 300.
Definition HTTP_401_UNAUTHORIZED : Z := 401.

(** [MESSAGE_TEMPLATE.format(wallet=..., timestamp=...)]. *)
Definition MESSAGE_TEMPLATE (wallet : string) (timestamp : Z) : string :=
  "Silent Risk Analysis: " +:+ wallet +:+ " at " +:+ pretty timestamp.

(** [_verify_timestamp]; [current_time] is [int(time.time())]. *)
Definition _verify_timestamp (current_time timestamp : Z) : result unit :=
  let age := current_time - timestamp in
  if (age <? -60)%Z then
    Raise (HTTPException HTTP_401_UNAUTHORIZED
             "Timestamp is in the future. Please check your system clock.")
  else if (age >? MAX_SIGNATURE_AGE_SECONDS)%Z then
    Raise (HTTPException HTTP_401_UNAUTHORIZED
             ("Signature has expired. Please sign a new message. (Age: "
              +:+ pretty age +:+ "s, Max: "
              +:+ pretty MAX_SIGNATURE_AGE_SECONDS +:+ "s)"))
  else Ok tt.

Definition _verify_message_format
    (message wallet_address : string) (timestamp : Z) : result unit :=
  let expected := MESSAGE_TEMPLATE (lower wallet_address) timestamp in
  if negb (String.eqb (lower message) (lower expected)) then
    Raise (HTTPException HTTP_401_UNAUTHORIZED
             ("Invalid message format. Expected: "
              +:+ "'Silent Risk Analysis: {wallet} at {timestamp}' "
              +:+ "with your wallet address and current timestamp."))
  else Ok tt.

Section Recover.

(** [Account.recover_message(encode_defunct(text=message), signature)]
    of eth_account: the recovered address, or the exception it raises. *)
Variable recover_message : string -> string -> result string.

Definition _recover_signer (message signature : string) : result string :=
  match recover_message message signature with
  | Ok recovered => Ok recovered
  | Raise e =>
      Raise (HTTPException HTTP_401_UNAUTHORIZED
               ("Failed to recover signer from signature: " +:+ str_exn e))
  end.

Definition verify_ownership
    (current_time : Z) (wallet_address signature message : string)
    (timestamp : Z) : result bool :=
  match _verify_timestamp current_time timestamp with
  | Raise e => Raise e
  | Ok _ =>
      match _verify_message_format message wallet_address timestamp with
      | Raise e => Raise e
      | Ok _ =>
          match _recover_signer message signature with
          | Raise e => Raise e
          | Ok recovered_address =>
              if negb (String.eqb (lower recovered_address)
                         (lower wallet_address))
              then
                Raise (HTTPException HTTP_401_UNAUTHORIZED
                         ("Signature verification failed. The signature "
                          +:+ "does not match the wallet address."))
              else Ok true
          end
      end
  end.

End Recover.

Definition unauthorized {A} (r : result A) : Prop :=
  exists detail, r = Raise (HTTPException HTTP_401_UNAUTHORIZED detail).

End SignatureVerifier.

(** ** The outside world: Redis, Kafka, clock *)

Module Runtime.

(** Completed calls on the external services, in program order.
    [Commit] is a completed [consumer.commit()]; the call has no
    argument, and the entry is tagged with the record the consumer loop
    was at when it made the call.  What the call commits is
    [Worker.committed]. *)
Inductive effect : Type :=
| Setex (key : string) (ttl : Z) (value : json)
| Delete (key : string)
| Publish (channel : string) (message : json)
| Send (topic : string) (value : json) (key : string)
| Commit (topic : string) (partition offset : Z).

(** The state the services act on.  [store] is the Redis key space
    (each entry with the time at which it expires), [trace] the log of
    completed external calls, [drawn] the number of UUIDs generated so
    far and [running] the consumer's [_running] flag. *)
Record world : Type := World {
  store : gmap string (Z * json);
  clock : Z;
  trace : list effect;
  drawn : nat;
  running : bool
}.

Definition set_store (s : gmap string (Z * json)) (w : world) : world :=
  World s (clock w) (trace w) (drawn w) (running w).
Definition set_clock (c : Z) (w : world) : world :=
  World (store w) c (trace w) (drawn w) (running w).
Definition log (ev : effect) (w : world) : world :=
  World (store w) (clock w) (trace w ++ [ev]) (drawn w) (running w).
Definition set_drawn (n : nat) (w : world) : world :=
  World (store w) (clock w) (trace w) n (running w).
Definition set_running (b : bool) (w : world) : world :=
  World (store w) (clock w) (trace w) (drawn w) b.

Definition initial_world : world := World ∅ 0 [] 0 true.

(** What the code cannot decide: which external call raises (as a
    function of the call), and the values drawn from outside.  A
    connection that cannot be opened on first use ([start()]) shows as
    the command itself raising. *)
Record env : Type := Env {
  (* Redis commands: [Some e] when the call raises [e] *)
  setex_raises : string -> Z -> json -> option exn;
  get_raises : string -> option exn;
  delete_raises : string -> option exn;
  publish_raises : string -> json -> option exn;
  (* [RedisPublisher.start()] of the API tier *)
  publisher_start_raises : option exn;
  (* Kafka: [send_and_wait(topic, value, key)] and [commit()] *)
  send_raises : string -> json -> string -> option exn;
  commit_raises : string -> Z -> Z -> option exn;
  (* the n-th [uuid.uuid4()], and [isoformat()] of a time *)
  uuid : nat -> string;
  isoformat : Z -> string;
  (* [Account.recover_message] of eth_account *)
  recover_message : string -> string -> result string;
  (* [str(e)] of the pydantic [ValidationError] that
     [TaskResponse(result=cached)] raises for a [cached] that is not a
     dictionary *)
  validation_error : json -> string;
  (* [BlockchainIndexer.get_wallet_activity_summary(wallet, network)] *)
  indexer_summary : string -> string -> result dict;
  (* [RiskCalculator.calculate_comprehensive_risk(wallet, summary)] *)
  calculator_risk : string -> dict -> result dict;
  (* [secrets.token_bytes(32).hex()] drawn for a commitment *)
  token_hex : string -> string;
  (* [blockchain_writer.get_current_block()] *)
  current_block : result Z;
  VAULT_CONTRACT_ADDRESS : string
}.

(** State-and-exception monad: the state changes made before an
    exception is raised stay, as in Python. *)
Definition M (A : Type) : Type := world -> result A * world.

Definition ret {A} (a : A) : M A := fun w => (Ok a, w).
Definition raise {A} (e : exn) : M A := fun w => (Raise e, w).
Definition bind {A B} (m : M A) (k : A -> M B) : M B :=
  fun w =>
    match m w with
    | (Ok a, w') => k a w'
    | (Raise e, w') => (Raise e, w')
    end.
(** [try: m  except Exception as e: h e]. *)
Definition try_except {A} (m : M A) (h : exn -> M A) : M A :=
  fun w =>
    match m w with
    | (Ok a, w') => (Ok a, w')
    | (Raise e, w') => h e w'
    end.
Definition lift {A} (r : result A) : M A := fun w => (r, w).

Notation "'do' x <- m ;; k" := (bind m (fun x => k))
  (at level 10, x name, m at level 99, k at level 200).

Section Primitives.

Variable E : env.

(** [redis.setex(key, ttl, value)]. *)
Definition redis_setex (key : string) (ttl : Z) (value : json) : M unit :=
  fun w =>
    match setex_raises E key ttl value with
    | Some e => (Raise e, w)
    | None =>
        (Ok tt, set_store (<[key := (clock w + ttl, value)]> (store w))
                  (log (Setex key ttl value) w))
    end.

(** What [GET key] answers at the current time. *)
Definition live (key : string) (w : world) : option json :=
  match store w !! key with
  | Some (expiry, v) => if (clock w <? expiry)%Z then Some v else None
  | None => None
  end.

(** [redis.get(key)]. *)
Definition redis_get (key : string) : M (option json) :=
  fun w =>
    match get_raises E key with
    | Some e => (Raise e, w)
    | None => (Ok (live key w), w)
    end.

(** [redis.delete(key)]. *)
Definition redis_delete (key : string) : M unit :=
  fun w =>
    match delete_raises E key with
    | Some e => (Raise e, w)
    | None => (Ok tt, set_store (delete key (store w)) (log (Delete key) w))
    end.

(** [redis.publish(channel, message)]. *)
Definition redis_publish (channel : string) (message : json) : M unit :=
  fun w =>
    match publish_raises E channel message with
    | Some e => (Raise e, w)
    | None => (Ok tt, log (Publish channel message) w)
    end.

(** [producer.send_and_wait(topic, value=..., key=...)]. *)
Definition send_and_wait (topic : string) (value : json) (key : string)
  : M unit :=
  fun w =>
    match send_raises E topic value key with
    | Some e => (Raise e, w)
    | None => (Ok tt, log (Send topic value key) w)
    end.

(** [consumer.commit()], called while the record at
    [(topic, partition, offset)] is the last one fetched.  The call
    commits the position of every assigned partition, not this record
    alone: the entry it logs says when it was made, and
    [Worker.committed] says what it committed. *)
Definition consumer_commit (topic : string) (partition offset : Z)
  : M unit :=
  fun w =>
    match commit_raises E topic partition offset with
    | Some e => (Raise e, w)
    | None => (Ok tt, log (Commit topic partition offset) w)
    end.

(** [str(uuid.uuid4())]. *)
Definition uuid4 : M string :=
  fun w => (Ok (uuid E (drawn w)), set_drawn (S (drawn w)) w).

(** [datetime.utcnow().isoformat()]. *)
Definition utcnow_isoformat : M string :=
  fun w => (Ok (isoformat E (clock w)), w).

(** [int(time.time())]. *)
Definition time_time : M Z := fun w => (Ok (clock w), w).

End Primitives.

(** The status writes of a trace: the [Setex] calls on a
    [task:status:] key, as (status, progress) pairs. *)
Definition status_of_value (v : json) : option (json * json) :=
  match v with
  | JObj d =>
      match dict_get "status" d, dict_get "progress" d with
      | Some s, Some p => Some (s, p)
      | _, _ => None
      end
  | _ => None
  end.

Fixpoint status_writes (task_id : string) (t : list effect)
  : list (json * json) :=
  match t with
  | [] => []
  | Setex key _ v :: t' =>
      if String.eqb key ("task:status:" +:+ task_id) then
        match status_of_value v with
        | Some sp => sp :: status_writes task_id t'
        | None => status_writes task_id t'
        end
      else status_writes task_id t'
  | _ :: t' => status_writes task_id t'
  end.

(** The keys written by a trace. *)
Fixpoint written_keys (t : list effect) : list string :=
  match t with
  | [] => []
  | Setex key _ _ :: t' => key :: written_keys t'
  | _ :: t' => written_keys t'
  end.

(** The Kafka publishes of a trace. *)
Fixpoint sends (t : list effect) : list (string * json * string) :=
  match t with
  | [] => []
  | Send topic v k :: t' => (topic, v, k) :: sends t'
  | _ :: t' => sends t'
  end.

(** The completed [commit()] calls of a trace, each with the record at
    which it was made. *)
Fixpoint commits (t : list effect) : list (string * Z * Z) :=
  match t with
  | [] => []
  | Commit topic p o :: t' => (topic, p, o) :: commits t'
  | _ :: t' => commits t'
  end.

End Runtime.
Import Runtime.

(** ** The API tier: backend/app/services and backend/app/api/risk.py *)

Module Backend.

Inductive TaskStatus : Type := PENDING | PROCESSING | COMPLETED | FAILED.

(** backend/app/api/models.py *)
Record RiskAnalysisRequest : Type := {
  commitment : string;
  wallet_address : string;
  signature : string;
  message : string;
  timestamp : Z;
  force_refresh : bool
}.

Record TaskResponse : Type := {
  task_id : string;
  status : TaskStatus;
  progress : Z;
  result : option json;
  response_message : option string
}.

Definition PUBSUB_CHANNEL : string := "task_status_updates".
Definition KAFKA_TOPIC_RISK_REQUESTS : string := "risk-analysis-requests".
Definition ANALYSIS_CACHE_TTL : Z := 3600.
Definition HTTP_500_INTERNAL_SERVER_ERROR : Z := 500.

Section WithEnv.

Variable E : env.

(** *** redis_publisher.py *)

Definition publisher_start : M unit :=
  fun w =>
    match publisher_start_raises E with
    | Some e => (Raise e, w)
    | None => (Ok tt, w)
    end.

(** [RedisPublisher.publish_status_update] *)
Definition publish_status_update
    (task_id status : string) (progress : Z) (message : option string)
  : M unit :=
  do _ <- publisher_start ;;
  let update :=
    [("task_id", JStr task_id); ("status", JStr status);
     ("progress", JInt progress)] in
  let update :=
    if truthy_opt message
    then dict_set "message" (opt_str message) update else update in
  try_except
    (redis_publish E PUBSUB_CHANNEL (JObj update))
    (fun e => ret tt).

(** *** cache.py *)

(** [CacheService.set_task_status] *)
Definition set_task_status
    (task_id status : string) (progress : Z) (message : option string)
    (ttl : Z) : M unit :=
  let key := "task:status:" +:+ task_id in
  let status_data :=
    [("status", JStr status); ("progress", JInt progress)] in
  let status_data :=
    if truthy_opt message
    then dict_set "message" (opt_str message) status_data
    else status_data in
  do _ <- redis_setex E key ttl (JObj status_data) ;;
  try_except
    (publish_status_update task_id status progress message)
    (fun e => ret tt).

(** [CacheService.get_task_status] *)
Definition get_task_status (task_id : string) : M (option json) :=
  redis_get E ("task:status:" +:+ task_id).

(** [CacheService.set_task_result] *)
Definition set_task_result (task_id : string) (result : json) (ttl : Z)
  : M unit :=
  redis_setex E ("task:result:" +:+ task_id) ttl result.

(** [CacheService.get_task_result] *)
Definition get_task_result (task_id : string) : M (option json) :=
  redis_get E ("task:result:" +:+ task_id).

(** [CacheService.cache_wallet_analysis] *)
Definition cache_wallet_analysis
    (wallet_address : string) (analysis : json) (ttl : option Z)
  : M unit :=
  let ttl :=
    match ttl with None => ANALYSIS_CACHE_TTL | Some t => t end in
  let key := "analysis:wallet:" +:+ lower wallet_address in
  redis_setex E key ttl analysis.

(** [CacheService.link_task_to_commitment] *)
Definition link_task_to_commitment
    (task_id commitment : string) (ttl : Z) : M unit :=
  do _ <- redis_setex E ("task:commitment:" +:+ task_id) ttl
            (JStr commitment) ;;
  redis_setex E ("commitment:task:" +:+ commitment) ttl (JStr task_id).

(** [CacheService.get_cached_commitment_analysis] *)
Definition get_cached_commitment_analysis (commitment : string)
  : M (option json) :=
  redis_get E ("analysis:commitment:" +:+ commitment).

(** [CacheService.cache_commitment_analysis] *)
Definition cache_commitment_analysis
    (commitment : string) (analysis : json) (ttl : Z) : M unit :=
  redis_setex E ("analysis:commitment:" +:+ commitment) ttl analysis.

(** [CacheService.invalidate_wallet_analysis] *)
Definition invalidate_wallet_analysis (wallet_address : string) : M unit :=
  redis_delete E ("analysis:wallet:" +:+ lower wallet_address).

(** *** kafka_producer.py *)

(** [KafkaProducerService.publish_risk_analysis_request] *)
Definition publish_risk_analysis_request
    (commitment wallet_address : string) (force_refresh : bool)
  : M string :=
  do task_id <- uuid4 E ;;
  do now <- utcnow_isoformat E ;;
  let message :=
    [("task_id", JStr task_id);
     ("commitment", JStr commitment);
     ("wallet_address", JStr (lower wallet_address));
     ("force_refresh", JBool force_refresh);
     ("timestamp", JStr now);
     ("correlation_id", JStr task_id)] in
  try_except
    (do _ <- send_and_wait E KAFKA_TOPIC_RISK_REQUESTS (JObj message)
               commitment ;;
     ret task_id)
    (fun e => raise e).

(** *** api/risk.py *)

(** [signature_verifier.verify_ownership(...)] at the current time. *)
Definition verify_ownership (request : RiskAnalysisRequest) : M bool :=
  do now <- time_time ;;
  lift (SignatureVerifier.verify_ownership (recover_message E) now
          (wallet_address request) (signature request) (message request)
          (timestamp request)).

Definition cached_response (cached : json) : TaskResponse :=
  {| task_id := "cached"; status := COMPLETED; progress := 100;
     result := Some cached;
     response_message := Some "Returned from cache" |}.

(** [TaskResponse(task_id="cached", ..., result=cached, ...)]: the
    field [result] is declared [Optional[Dict[str, Any]]], so the
    constructor validates [cached] and raises [ValidationError] when it
    is not a dictionary (the keys of a parsed JSON object are
    strings). *)
Definition validated_cached_response (cached : json) : M TaskResponse :=
  match cached with
  | JObj _ => ret (cached_response cached)
  | _ => raise (Exception (validation_error E cached))
  end.

(** The cache check of [analyze_wallet]: the response of the early
    [return], if it is taken. *)
Definition check_cache (request : RiskAnalysisRequest)
  : M (option TaskResponse) :=
  if negb (force_refresh request) then
    do cached <- get_cached_commitment_analysis (commitment request) ;;
    match cached with
    | Some c =>
        if truthy c then
          do response <- validated_cached_response c ;;
          ret (Some response)
        else ret None
    | None => ret None
    end
  else ret None.

(** [analyze_wallet] *)
Definition analyze_wallet (request : RiskAnalysisRequest)
  : M TaskResponse :=
  try_except
    (do _ <- verify_ownership request ;;
     do hit <- check_cache request ;;
     match hit with
     | Some response => ret response
     | None =>
         do task_id <- publish_risk_analysis_request
                         (commitment request) (wallet_address request)
                         (force_refresh request) ;;
         do _ <- set_task_status task_id "pending" 0
                   (Some "Request submitted to analysis queue") 3600 ;;
         do _ <- link_task_to_commitment task_id (commitment request)
                   3600 ;;
         ret {| task_id := task_id; status := PENDING; progress := 0;
                result := None;
                response_message :=
                  Some ("Analysis request submitted successfully. "
                        +:+ "Use task_id to poll for results.") |}
     end)
    (fun e =>
       match e with
       | HTTPException _ _ => raise e
       | _ => raise (HTTPException HTTP_500_INTERNAL_SERVER_ERROR
                       ("Internal server error: " +:+ str_exn e))
       end).

End WithEnv.

End Backend.

(** ** The worker tier: worker/app/services and worker/app/handlers *)

Module Worker.

Definition REDIS_PUBSUB_CHANNEL : string := "task_status_updates".
Definition KAFKA_TOPIC_RISK_RESULTS : string := "risk-analysis-results".

(** passport_service.py *)
Record PassportClaimData : Type := {
  pcd_commitment : string;
  pcd_secret : string;
  pcd_nullifier : string;
  pcd_wallet_address : string;
  pcd_encrypted_score : string;
  pcd_vault_address : string;
  pcd_block_height : Z;
  pcd_tx_hash : option string
}.

(** [asdict(claim_data)] *)
Definition asdict (c : PassportClaimData) : dict :=
  [("commitment", JStr (pcd_commitment c));
   ("secret", JStr (pcd_secret c));
   ("nullifier", JStr (pcd_nullifier c));
   ("wallet_address", JStr (pcd_wallet_address c));
   ("encrypted_score", JStr (pcd_encrypted_score c));
   ("vault_address", JStr (pcd_vault_address c));
   ("block_height", JInt (pcd_block_height c));
   ("tx_hash", opt_str (pcd_tx_hash c))].

(** The payload of a risk-analysis request, as the API tier's
    [publish_risk_analysis_request] builds it. *)
Record RiskMessage : Type := {
  task_id : string;
  commitment : string;
  wallet_address : string;
  force_refresh : bool
}.

Section WithEnv.

Variable E : env.

(** *** cache.py *)

(** [CacheService.update_task_status] *)
Definition update_task_status
    (task_id status : string) (progress : Z) (message : option string)
  : M unit :=
  let key := "task:status:" +:+ task_id in
  let value :=
    JObj [("status", JStr status); ("progress", JInt progress);
          ("message", opt_str message)] in
  do _ <- redis_setex E key 3600 value ;;
  let pubsub_message :=
    JObj [("task_id", JStr task_id); ("status", JStr status);
          ("progress", JInt progress);
          ("message",
           if truthy_opt message then opt_str message
           else JStr (capitalize status +:+ " (" +:+ pretty progress
                      +:+ "%)"))] in
  redis_publish E REDIS_PUBSUB_CHANNEL pubsub_message.

(** [CacheService.store_task_result] *)
Definition store_task_result (task_id : string) (result : json) : M unit :=
  redis_setex E ("task:result:" +:+ task_id) 3600 result.

(** [CacheService.cache_commitment_analysis] *)
Definition cache_commitment_analysis
    (commitment : string) (analysis : json) (ttl : Z) : M unit :=
  redis_setex E ("analysis:commitment:" +:+ commitment) ttl analysis.

(** *** kafka_producer.py *)

(** [KafkaProducerService.publish_risk_analysis_result] *)
Definition publish_risk_analysis_result
    (task_id status : string) (result : option dict)
    (error : option string) : M unit :=
  do now <- utcnow_isoformat E ;;
  let message :=
    [("task_id", JStr task_id);
     ("status", JStr status);
     ("result", match result with Some r => JObj r | None => JNull end);
     ("error", opt_str error);
     ("processed_at", JStr now)] in
  try_except
    (send_and_wait E KAFKA_TOPIC_RISK_RESULTS (JObj message) task_id)
    (fun e => raise e).

(** *** passport_service.py *)

(** [PassportService._cache_claim_data]; the stored text
    [str(asdict(claim_data))] is kept as the dictionary itself. *)
Definition _cache_claim_data
    (wallet_address : string) (claim_data : PassportClaimData) : M unit :=
  let cache_key := "passport:claim:" +:+ lower wallet_address in
  redis_setex E cache_key 86400 (JObj (asdict claim_data)).

(** [PassportService.create_passport] *)
Definition create_passport
    (commitment wallet_address : string) (risk_score : json)
  : M PassportClaimData :=
  try_except
    (let nullifier := token_hex E commitment in
     do block_height <- lift (current_block E) ;;
     let claim_data :=
       {| pcd_commitment := commitment;
          pcd_secret := "";
          pcd_nullifier := nullifier;
          pcd_wallet_address := wallet_address;
          pcd_encrypted_score := "";
          pcd_vault_address := VAULT_CONTRACT_ADDRESS E;
          pcd_block_height := block_height;
          pcd_tx_hash := None |} in
     do _ <- _cache_claim_data wallet_address claim_data ;;
     ret claim_data)
    (fun e => raise e).

(** *** handlers/risk_analysis.py *)

(** The [passport] entry of a successful passport stage. *)
Definition passport_ready (passport_data : PassportClaimData)
    (risk_score : json) : json :=
  JObj [("commitment", JStr (pcd_commitment passport_data));
        ("nullifier_hash", JStr (pcd_nullifier passport_data));
        ("vault_address", JStr (pcd_vault_address passport_data));
        ("block_height", JInt (pcd_block_height passport_data));
        ("risk_score", risk_score);
        ("tx_hash", opt_str (pcd_tx_hash passport_data));
        ("status", JStr "ready_to_claim")].

(** The [passport] entry written when the passport stage raises. *)
Definition passport_failed (passport_error : exn) : json :=
  JObj [("status", JStr "generation_failed");
        ("error", JStr (str_exn passport_error))].

(** Step 4 of [handle]: the inner [try]/[except] around
    [create_passport]; returns the updated [risk_analysis]. *)
Definition passport_stage
    (commitment wallet_address : string) (risk_score : json)
    (risk_analysis : dict) : M dict :=
  try_except
    (do passport_data <-
       create_passport commitment wallet_address risk_score ;;
     ret (dict_set "passport" (passport_ready passport_data risk_score)
            risk_analysis))
    (fun passport_error =>
       ret (dict_set "passport" (passport_failed passport_error)
              risk_analysis)).

(** The body of the outer [try] of [handle]. *)
Definition pipeline (message : RiskMessage) : M unit :=
  let task_id := task_id message in
  let commitment := commitment message in
  let wallet_address := wallet_address message in
  do _ <- update_task_status task_id "processing" 10
            (Some "Request submitted") ;;
  do activity_summary <-
    lift (indexer_summary E wallet_address "ethereum") ;;
  do _ <- update_task_status task_id "processing" 40
            (Some "Fetching blockchain data") ;;
  do risk_analysis <-
    lift (calculator_risk E wallet_address activity_summary) ;;
  let risk_score :=
    match dict_get "risk_score" risk_analysis with
    | Some s => s
    | None => JInt 0
    end in
  do _ <- update_task_status task_id "processing" 60
            (Some "Calculating risk score") ;;
  do risk_analysis <-
    passport_stage commitment wallet_address risk_score risk_analysis ;;
  do _ <- update_task_status task_id "processing" 80
            (Some "Generating passport") ;;
  do _ <- publish_risk_analysis_result task_id "completed"
            (Some risk_analysis) None ;;
  do _ <- store_task_result task_id (JObj risk_analysis) ;;
  do _ <- cache_commitment_analysis commitment (JObj risk_analysis)
            3600 ;;
  update_task_status task_id "completed" 100 (Some "Analysis complete!").

(** The outer [except Exception as e] block of [handle]. *)
Definition on_failure (message : RiskMessage) (e : exn) : M unit :=
  do _ <- publish_risk_analysis_result (task_id message) "failed" None
            (Some (str_exn e)) ;;
  update_task_status (task_id message) "failed" 0
    (Some ("Analysis failed: " +:+ str_exn e)).

(** [RiskAnalysisHandler.handle].  The ML-metrics tracking after the
    last status write is a detached task on another store and is not
    part of the modelled state. *)
Definition handle (message : RiskMessage) : M unit :=
  try_except (pipeline message) (on_failure message).

(** *** kafka_consumer.py *)

Section Consumer.

(** The type of deserialised payloads. *)
Variable V : Type.

Record ConsumerRecord : Type := {
  topic : string;
  partition : Z;
  offset : Z;
  key : option string;
  value : V
}.

(** [self._handlers] *)
Variable handlers : gmap string (V -> M unit).

(** [KafkaConsumerService._process_message] *)
Definition _process_message (msg : ConsumerRecord) : M unit :=
  match handlers !! topic msg with
  | None => ret tt
  | Some handler =>
      try_except (handler (value msg)) (fun e => raise e)
  end.

Inductive flow : Type := Continue | Break.

(** One iteration of the [async for] of [_consume_loop]. *)
Definition consume_one (msg : ConsumerRecord) : M flow :=
  fun w =>
    if negb (running w) then (Ok Break, w)
    else
      (do _ <- try_except
                 (do _ <- _process_message msg ;;
                  consumer_commit E (topic msg) (partition msg)
                    (offset msg))
                 (fun e => ret tt) ;;
       ret Continue) w.

(** [KafkaConsumerService._consume_loop] over the records the
    consumer delivers. *)
Fixpoint _consume_loop (msgs : list ConsumerRecord) : M unit :=
  match msgs with
  | [] => ret tt
  | msg :: rest =>
      do f <- consume_one msg ;;
      match f with
      | Break => ret tt
      | Continue => _consume_loop rest
      end
  end.

(** *** What [commit()] commits

    [self._consumer.commit()] is called without arguments.  aiokafka
    then commits, for every assigned partition, the position the
    consumer has reached on it: one past the last record fetched from
    it, whether or not the handler of that record, or of a record before
    it, returned. *)

(** The consumer's positions after it fetched [fetched], in this
    order. *)
Definition positions (fetched : list ConsumerRecord)
  : gmap (string * Z) Z :=
  foldl (fun m msg => <[(topic msg, partition msg) := offset msg + 1]> m)
    ∅ fetched.

(** The records the consumer had fetched when it made the last of the
    completed [commit()] calls [calls], each given by the record at
    which it was made; the consumer fetches [msgs] in this order, and a
    session fetches no record twice. *)
Fixpoint fetched_at_last_commit (msgs : list ConsumerRecord)
    (calls : list (string * Z * Z)) : list ConsumerRecord :=
  match msgs with
  | [] => []
  | msg :: rest =>
      match fetched_at_last_commit rest calls with
      | [] =>
          if bool_decide ((topic msg, partition msg, offset msg) ∈ calls)
          then [msg] else []
      | later => msg :: later
      end
  end.

(** The offsets committed for the consumer group. *)
Definition committed (msgs : list ConsumerRecord)
    (calls : list (string * Z * Z)) : gmap (string * Z) Z :=
  positions (fetched_at_last_commit msgs calls).

(** A record below the committed offset of its partition is
    acknowledged: the group is not sent it again. *)
Definition acknowledged (msgs : list ConsumerRecord)
    (calls : list (string * Z * Z)) (msg : ConsumerRecord) : bool :=
  match committed msgs calls !! (topic msg, partition msg) with
  | Some next => (offset msg <? next)%Z
  | None => false
  end.

End Consumer.

End WithEnv.

Arguments topic {V} _.
Arguments partition {V} _.
Arguments offset {V} _.
Arguments key {V} _.
Arguments value {V} _.
Arguments positions {V} _.
Arguments fetched_at_last_commit {V} _ _.
Arguments committed {V} _ _.
Arguments acknowledged {V} _ _ _.

End Worker.

(** ** The broadcaster tier: websocket-service/app/core/connection_manager.py *)

Module ConnectionManager.

(** A [WebSocket] object, by identity. *)
Definition WebSocket : Type := positive.

(** The two dictionaries of the manager, and the frames delivered to
    the clients so far. *)
Record state : Type := State {
  active_connections : gmap string (gset positive);
  connection_subscriptions : gmap positive (gset string);
  delivered : list (positive * json)
}.

Definition empty : state := State ∅ ∅ [].

(** What a client frame parses to: [json.loads] fails, or the [type]
    and [task_id] entries of the object. *)
Inductive client_frame : Type :=
| BadJson
| Data (msg_type task_id : option string).

(** [ConnectionManager.connect], once [websocket.accept()] returned. *)
Definition connect (websocket : WebSocket) (st : state) : state :=
  State (active_connections st)
        (<[websocket := ∅]> (connection_subscriptions st))
        (delivered st).

(** [ConnectionManager._subscribe] *)
Definition _subscribe (websocket : WebSocket) (task_id : string)
    (st : state) : result unit * state :=
  let conns :=
    match active_connections st !! task_id with
    | None => ∅
    | Some conns => conns
    end in
  let ac := <[task_id := conns ∪ {[websocket]}]> (active_connections st) in
  match connection_subscriptions st !! websocket with
  | None =>
      (Raise (KeyError (pretty (Zpos websocket))),
       State ac (connection_subscriptions st) (delivered st))
  | Some subs =>
      (Ok tt,
       State ac
         (<[websocket := subs ∪ {[task_id]}]> (connection_subscriptions st))
         (delivered st))
  end.

(** [ConnectionManager._unsubscribe] *)
Definition _unsubscribe (websocket : WebSocket) (task_id : string)
    (st : state) : state :=
  let ac :=
    match active_connections st !! task_id with
    | Some conns =>
        let conns' := conns ∖ {[websocket]} in
        if decide (conns' = ∅) then delete task_id (active_connections st)
        else <[task_id := conns']> (active_connections st)
    | None => active_connections st
    end in
  let cs :=
    match connection_subscriptions st !! websocket with
    | Some subs =>
        <[websocket := subs ∖ {[task_id]}]> (connection_subscriptions st)
    | None => connection_subscriptions st
    end in
  State ac cs (delivered st).

(** The loop of [disconnect]: [_unsubscribe] for each task of a copy
    of the socket's subscription set. *)
Definition unsubscribe_all (websocket : WebSocket) (task_ids : list string)
    (st : state) : state :=
  foldl (fun s task_id => _unsubscribe websocket task_id s) st task_ids.

(** [ConnectionManager.disconnect] *)
Definition disconnect (websocket : WebSocket) (st : state) : state :=
  match connection_subscriptions st !! websocket with
  | Some task_ids =>
      let st' := unsubscribe_all websocket (elements task_ids) st in
      State (active_connections st')
            (delete websocket (connection_subscriptions st'))
            (delivered st')
  | None => st
  end.

Section WithSockets.

(** [websocket.send_text(text)]: [Some e] when it raises [e]. *)
Variable send_text_raises : WebSocket -> json -> option exn.

(** [ConnectionManager.send_message]: the exception of a failed send
    is logged and not re-raised. *)
Definition send_message (websocket : WebSocket) (message : json)
    (st : state) : result unit * state :=
  match send_text_raises websocket message with
  | None =>
      (Ok tt,
       State (active_connections st) (connection_subscriptions st)
         (delivered st ++ [(websocket, message)]))
  | Some e => (Ok tt, st)
  end.

(** [ConnectionManager.send_error] *)
Definition send_error (websocket : WebSocket) (error : string)
    (st : state) : result unit * state :=
  send_message websocket
    (JObj [("type", JStr "error"); ("error", JStr error)]) st.

(** [ConnectionManager.handle_message] *)
Definition handle_message (websocket : WebSocket) (frame : client_frame)
    (st : state) : state :=
  match frame with
  | BadJson => snd (send_error websocket "Invalid JSON format" st)
  | Data msg_type task_id =>
      match msg_type, task_id with
      | Some ty, Some tid =>
          if negb (truthy_opt msg_type) || negb (truthy_opt task_id) then
            snd (send_error websocket
                   "Invalid message format. Required: type, task_id" st)
          else if String.eqb ty "subscribe" then
            match _subscribe websocket tid st with
            | (Ok _, st') =>
                snd (send_message websocket
                       (JObj [("type", JStr "subscribed");
                              ("task_id", JStr tid);
                              ("message",
                               JStr ("Successfully subscribed to task "
                                     +:+ tid))]) st')
            | (Raise e, st') =>
                snd (send_error websocket
                       ("Internal error: " +:+ str_exn e) st')
            end
          else if String.eqb ty "unsubscribe" then
            snd (send_message websocket
                   (JObj [("type", JStr "unsubscribed");
                          ("task_id", JStr tid);
                          ("message",
                           JStr ("Successfully unsubscribed from task "
                                 +:+ tid))])
                   (_unsubscribe websocket tid st))
          else
            snd (send_error websocket
                   ("Unknown message type: " +:+ ty) st)
      | _, _ =>
          snd (send_error websocket
                 "Invalid message format. Required: type, task_id" st)
      end
  end.

(** The first loop of [broadcast_status_update]: send to every
    subscriber, collecting those whose send raised. *)
Fixpoint send_all (websockets : list WebSocket) (message : json)
    (st : state) (disconnected : list WebSocket)
  : state * list WebSocket :=
  match websockets with
  | [] => (st, disconnected)
  | websocket :: rest =>
      match send_message websocket message st with
      | (Ok _, st') => send_all rest message st' disconnected
      | (Raise _, st') =>
          send_all rest message st' (disconnected ++ [websocket])
      end
  end.

(** [ConnectionManager.broadcast_status_update] *)
Definition broadcast_status_update (task_id : string) (status_data : json)
    (st : state) : state :=
  match active_connections st !! task_id with
  | None => st
  | Some conns =>
      let message :=
        JObj [("type", JStr "status_update");
              ("task_id", JStr task_id);
              ("data", status_data)] in
      let '(st', disconnected) :=
        send_all (elements conns) message st [] in
      foldl (fun s websocket => disconnect websocket s) st' disconnected
  end.

(** The operations the service performs on the manager: the
    endpoint's [connect], the handling of a client frame, the
    endpoint's [disconnect], and a broadcast from the status bus. *)
Inductive op : Type :=
| Connect (websocket : WebSocket)
| Frame (websocket : WebSocket) (frame : client_frame)
| Disconnect (websocket : WebSocket)
| Broadcast (task_id : string) (status_data : json).

Definition step (o : op) (st : state) : state :=
  match o with
  | Connect ws => connect ws st
  | Frame ws f => handle_message ws f st
  | Disconnect ws => disconnect ws st
  | Broadcast t d => broadcast_status_update t d st
  end.

Definition run (ops : list op) (st : state) : state :=
  foldl (fun s o => step o s) st ops.

(** What [websocket_endpoint] guarantees about the order of the
    operations: [connect] is called once, on a socket object the
    manager does not hold yet, and frames are handled only between
    that call and the socket's [disconnect]. *)
Definition allowed (o : op) (st : state) : Prop :=
  match o with
  | Connect ws => connection_subscriptions st !! ws = None
  | Frame ws _ => is_Some (connection_subscriptions st !! ws)
  | Disconnect _ => True
  | Broadcast _ _ => True
  end.

Fixpoint well_ordered (ops : list op) (st : state) : Prop :=
  match ops with
  | [] => True
  | o :: rest => allowed o st /\ well_ordered rest (step o st)
  end.

End WithSockets.

(** The two dictionaries are inverse to each other. *)
Definition inverse (st : state) : Prop :=
  forall (task_id : string) (websocket : WebSocket),
    (exists conns, active_connections st !! task_id = Some conns
                   /\ websocket ∈ conns)
    <-> (exists subs, connection_subscriptions st !! websocket = Some subs
                      /\ task_id ∈ subs).

(** No task is kept with an empty subscriber set. *)
Definition pruned (st : state) : Prop :=
  forall (task_id : string) (conns : gset positive),
    active_connections st !! task_id = Some conns -> conns <> ∅.

Definition consistent (st : state) : Prop := inverse st /\ pruned st.

End ConnectionManager.

(** ** Progress of a task, and concrete environments *)

Module Progress.

(** The status writes of the five stages of the risk-analysis pipeline. *)
Definition stage_writes : list (json * json) :=
  [(JStr "processing", JInt 10);
   (JStr "processing", JInt 40);
   (JStr "processing", JInt 60);
   (JStr "processing", JInt 80);
   (JStr "completed", JInt 100)].




(** [m] appends to the status entry of task [t] a prefix of [l], and
    all of [l] when it returns. *)
Definition writes_prefix {A} (t : string) (m : M A) (l : list (json * json))
  : Prop :=
  forall w, exists k : nat,
    (k <= length l)%nat
    /\ status_writes t (trace (snd (m w)))
       = (status_writes t (trace w) ++ take k l)%list
    /\ (is_ok (fst (m w)) = true -> k = length l).

End Progress.

Module Scenario.

Definition wallet : string := "0x742D35CC6634C0532925A3B844BC9E7595F0BEB1".
Definition commitment : string :=
  "0x1111111111111111111111111111111111111111111111111111111111111111".

(** An environment in which the named collaborators are up or down:
    the blockchain indexer, the RPC node behind [get_current_block] and
    the Redis pub/sub channel.  Everything else answers. *)
Definition scenario (indexer_up rpc_up pubsub_up : bool) : env :=
  {| setex_raises := fun _ _ _ => None;
     get_raises := fun _ => None;
     delete_raises := fun _ => None;
     publish_raises := fun _ _ =>
       if pubsub_up then None else Some (Exception "Connection closed by server.");
     publisher_start_raises := None;
     send_raises := fun _ _ _ => None;
     commit_raises := fun _ _ _ => None;
     uuid := fun n => "task-" +:+ pretty n;
     isoformat := fun t => pretty t;
     recover_message := fun _ _ => Ok wallet;
     validation_error := fun _ =>
       "1 validation error for TaskResponse";
     indexer_summary := fun _ _ =>
       if indexer_up then Ok [("total_transactions", JInt 12)]
       else Raise (Exception "RPC timeout");
     calculator_risk := fun _ _ =>
       Ok [("risk_score", JInt 2500); ("risk_band", JStr "low")];
     token_hex := fun _ => "00ff";
     current_block :=
       if rpc_up then Ok 19000000 else Raise (Exception "RPC unavailable");
     VAULT_CONTRACT_ADDRESS := "0xvault" |}.

Definition quiet : env := scenario true true true.

Definition message : Worker.RiskMessage :=
  {| Worker.task_id := "task-0";
     Worker.commitment := commitment;
     Worker.wallet_address := lower wallet;
     Worker.force_refresh := false |}.

Definition record : Worker.ConsumerRecord Worker.RiskMessage :=
  {| Worker.topic := "risk-analysis-requests";
     Worker.partition := 0;
     Worker.offset := 7;
     Worker.key := Some commitment;
     Worker.value := message |}.

Definition request (now : Z) : Backend.RiskAnalysisRequest :=
  {| Backend.commitment := commitment;
     Backend.wallet_address := lower wallet;
     Backend.signature := "0xsigned";
     Backend.message :=
       SignatureVerifier.MESSAGE_TEMPLATE (lower wallet) now;
     Backend.timestamp := now;
     Backend.force_refresh := false |}.

(** An environment in which Redis refuses the status writes of task-0
    and everything else answers. *)
Definition task_0_unwritable : env :=
  {| setex_raises := fun key _ _ =>
       if String.eqb key "task:status:task-0"
       then Some (Exception "Connection reset by peer") else None;
     get_raises := fun _ => None;
     delete_raises := fun _ => None;
     publish_raises := fun _ _ => None;
     publisher_start_raises := None;
     send_raises := fun _ _ _ => None;
     commit_raises := fun _ _ _ => None;
     uuid := fun n => "task-" +:+ pretty n;
     isoformat := fun t => pretty t;
     recover_message := fun _ _ => Ok wallet;
     validation_error := fun _ =>
       "1 validation error for TaskResponse";
     indexer_summary := fun _ _ => Ok [("total_transactions", JInt 12)];
     calculator_risk := fun _ _ =>
       Ok [("risk_score", JInt 2500); ("risk_band", JStr "low")];
     token_hex := fun _ => "00ff";
     current_block := Ok 19000000;
     VAULT_CONTRACT_ADDRESS := "0xvault" |}.

(** The request that follows [record] on its partition. *)
Definition next_record : Worker.ConsumerRecord Worker.RiskMessage :=
  {| Worker.topic := "risk-analysis-requests";
     Worker.partition := 0;
     Worker.offset := 8;
     Worker.key :=
       Some "0x2222222222222222222222222222222222222222222222222222222222222222";
     Worker.value :=
       {| Worker.task_id := "task-1";
          Worker.commitment :=
            "0x2222222222222222222222222222222222222222222222222222222222222222";
          Worker.wallet_address :=
            "0x8ba1f109551bd432803012645ac136ddd64dba72";
          Worker.force_refresh := false |} |}.

(** Client 1 has a broken socket; every other send succeeds. *)
Definition socket_1_broken (ws : positive) (_ : json) : option exn :=
  if decide (ws = 1%positive) then Some (Exception "socket closed") else None.

Definition all_sockets_up (_ : positive) (_ : json) : option exn := None.

(** The manager after clients 1 and 2 connected and subscribed to
    task-0. *)
Definition two_subscribers : ConnectionManager.state :=
  ConnectionManager.run all_sockets_up
    [ConnectionManager.Connect 1%positive; ConnectionManager.Connect 2%positive;
     ConnectionManager.Frame 1%positive
       (ConnectionManager.Data (Some "subscribe") (Some "task-0"));
     ConnectionManager.Frame 2%positive
       (ConnectionManager.Data (Some "subscribe") (Some "task-0"))]
    ConnectionManager.empty.

(** A session of two clients on the websocket endpoint. *)
Definition session : list ConnectionManager.op :=
  [ConnectionManager.Connect 1%positive;
   ConnectionManager.Frame 1%positive
     (ConnectionManager.Data (Some "subscribe") (Some "task-0"));
   ConnectionManager.Connect 2%positive;
   ConnectionManager.Frame 2%positive
     (ConnectionManager.Data (Some "subscribe") (Some "task-0"));
   ConnectionManager.Broadcast "task-0"
     (JObj [("status", JStr "processing"); ("progress", JInt 40)]);
   ConnectionManager.Frame 1%positive
     (ConnectionManager.Data (Some "unsubscribe") (Some "task-0"));
   ConnectionManager.Disconnect 2%positive].

(** The analysis the worker caches for [commitment]. *)
Definition cached_analysis : json :=
  JObj [("risk_score", JInt 2500); ("risk_band", JStr "low");
        ("passport", JObj [("status", JStr "generation_failed");
                           ("error", JStr "RPC unavailable")])].


End Scenario.

(** ** Footprints: what a computation may do to the outside world *)

Module Footprint.

(** Every external call [m] completes satisfies [Q]. *)
Definition only {A} (Q : effect -> Prop) (m : M A) : Prop :=
  forall w, exists d,
    trace (snd (m w)) = (trace w ++ d)%list /\ Forall Q d.

(** The calls the risk-analysis handler may make for a message. *)
Definition of_handler (message : Worker.RiskMessage) (ev : effect) : Prop :=
  match ev with
  | Setex key _ _ =>
      key = "task:status:" +:+ Worker.task_id message
      \/ key = "task:result:" +:+ Worker.task_id message
      \/ key = "analysis:commitment:" +:+ Worker.commitment message
      \/ key = "passport:claim:" +:+ lower (Worker.wallet_address message)
  | Publish channel _ => channel = Worker.REDIS_PUBSUB_CHANNEL
  | Send topic _ key =>
      topic = Worker.KAFKA_TOPIC_RISK_RESULTS /\ key = Worker.task_id message
  | Delete _ => False
  | Commit _ _ _ => False
  end.

(** The calls the submission endpoint may make for a request. *)
Definition of_submission (request : Backend.RiskAnalysisRequest)
    (ev : effect) : Prop :=
  match ev with
  | Setex key _ value =>
      (exists task_id, key = "task:status:" +:+ task_id)
      \/ (exists task_id,
            key = "task:commitment:" +:+ task_id
            /\ value = JStr (Backend.commitment request))
      \/ key = "commitment:task:" +:+ Backend.commitment request
  | Publish channel _ => channel = Backend.PUBSUB_CHANNEL
  | Send topic _ key =>
      topic = Backend.KAFKA_TOPIC_RISK_REQUESTS
      /\ key = Backend.commitment request
  | Delete _ => False
  | Commit _ _ _ => False
  end.

(** Worlds that differ by cache writes and pub/sub messages only: the
    clock and the Kafka publishes are the same. *)
Definition quiet_step (w w' : world) : Prop :=
  clock w' = clock w /\ sends (trace w') = sends (trace w).

(** [m] leaves the consumer's [_running] flag alone. *)
Definition steady {A} (m : M A) : Prop :=
  forall w, running (snd (m w)) = running w.

(** An external call other than an offset commit. *)
Definition no_commit (ev : effect) : Prop :=
  match ev with
  | Commit _ _ _ => False
  | _ => True
  end.

(** [m] takes every world to one related to it by [R]. *)
Definition preserves {A} (R : world -> world -> Prop) (m : M A) : Prop :=
  forall w, R w (snd (m w)).

(** Worlds with the same clock that agree on every key outside [keys]. *)
Definition untouched (keys : string -> Prop) (w w' : world) : Prop :=
  clock w' = clock w
  /\ forall key, ~ keys key -> store w' !! key = store w !! key.

(** The keys the risk-analysis handler may write for a message. *)
Definition handler_keys (message : Worker.RiskMessage) (key : string)
  : Prop :=
  key = "task:status:" +:+ Worker.task_id message
  \/ key = "task:result:" +:+ Worker.task_id message
  \/ key = "analysis:commitment:" +:+ Worker.commitment message
  \/ key = "passport:claim:" +:+ lower (Worker.wallet_address message).

(** The position a record's commit acknowledges. *)
Definition position {V} (msg : Worker.ConsumerRecord V) : string * Z * Z :=
  (Worker.topic msg, Worker.partition msg, Worker.offset msg).

End Footprint.

(** ** backend/app/services/signature_verifier.py and api/models.py:
       the message to sign and the request validators *)

Module Models.

(** [SignatureVerifier.generate_message_to_sign] *)
Definition generate_message_to_sign (wallet_address : string) (timestamp : Z)
  : string :=
  SignatureVerifier.MESSAGE_TEMPLATE (lower wallet_address) timestamp.

(** [RiskAnalysisRequest.validate_commitment]; [ValueError] is an
    [Exception]. *)
Definition validate_commitment (v : string) : result string :=
  if negb (String.prefix "0x" v) || negb (Nat.eqb (String.length v) 66) then
    Raise (Exception
             "Commitment must be a 32-byte hex string (0x + 64 chars)")
  else Ok (lower v).

(** [RiskAnalysisRequest.validate_wallet] *)
Definition validate_wallet (v : string) : result string :=
  if negb (String.prefix "0x" v) || negb (Nat.eqb (String.length v) 42) then
    Raise (Exception "Invalid Ethereum address format")
  else Ok (lower v).

(** [RiskAnalysisRequest.validate_message_format]; the two options are
    the entries of [values], present when the field passed its own
    validation. *)
Definition validate_message_format
    (v : string) (wallet_address : option string) (timestamp : option Z)
  : result string :=
  match wallet_address, timestamp with
  | Some wallet, Some ts =>
      let expected_wallet := lower wallet in
      let expected_timestamp := pretty ts in
      if negb (contains expected_wallet (lower v))
         || negb (contains expected_timestamp v)
      then
        Raise (Exception
                 ("Message must contain wallet address and timestamp. "
                  +:+ "Expected format: "
                  +:+ "'Silent Risk Analysis: {wallet} at {timestamp}'"))
      else Ok v
  | _, _ => Ok v
  end.

End Models.

(** ** backend/app/api/risk.py: the status endpoint *)

Module RiskApi.

Definition HTTP_404_NOT_FOUND : Z := 404.

(** [type(x).__name__] *)
Definition type_name (j : json) : string :=
  match j with
  | JNull => "NoneType"
  | JBool _ => "bool"
  | JInt _ => "int"
  | JStr _ => "str"
  | JList _ => "list"
  | JObj _ => "dict"
  end.

(** [d.get(k, default)] *)
Definition get_or (k : string) (default : json) (d : dict) : json :=
  match dict_get k d with
  | Some v => v
  | None => default
  end.

(** [status_data.get("status") == "completed"] *)
Definition is_completed (d : dict) : bool :=
  match dict_get "status" d with
  | Some (JStr s) => String.eqb s "completed"
  | _ => false
  end.

Definition expired_message : string :=
  "Result has expired from cache. "
  +:+ "Please query RiskScoreVault contract directly using your commitment hash.".

Section WithEnv.

Variable E : env.

(** The [try] body of [get_task_status]. *)
Definition poll (task_id : string) : M dict :=
  if String.eqb task_id "cached" then
    ret [("task_id", JStr "cached"); ("status", JStr "completed");
         ("progress", JInt 100)]
  else
    do status_data <- Backend.get_task_status E task_id ;;
    match status_data with
    | None => raise (HTTPException HTTP_404_NOT_FOUND "Task not found")
    | Some sd =>
        if negb (truthy sd) then
          raise (HTTPException HTTP_404_NOT_FOUND "Task not found")
        else
          match sd with
          | JObj d =>
              let response :=
                [("task_id", JStr task_id);
                 ("status", get_or "status" (JStr "pending") d);
                 ("progress", get_or "progress" (JInt 0) d)] in
              if is_completed d then
                do result <- Backend.get_task_result E task_id ;;
                match result with
                | Some r =>
                    if truthy r then ret (dict_set "result" r response)
                    else ret (dict_set "message" (JStr expired_message)
                                response)
                | None =>
                    ret (dict_set "message" (JStr expired_message) response)
                end
              else ret response
          | other =>
              raise (AttributeError
                       ("'" +:+ type_name other
                        +:+ "' object has no attribute 'get'"))
          end
    end.

(** [get_task_status] of api/risk.py *)
Definition get_task_status (task_id : string) : M dict :=
  try_except (poll task_id)
    (fun e =>
       match e with
       | HTTPException _ _ => raise e
       | _ => raise (HTTPException Backend.HTTP_500_INTERNAL_SERVER_ERROR
                       ("Internal server error: " +:+ str_exn e))
       end).

End WithEnv.

End RiskApi.

(** ** worker/app/analysis/risk_calculator.py: the integer factors *)

Module RiskCalculator.

(** [RiskCalculator._calculate_age_risk] *)
Definition _calculate_age_risk (age_days : Z) : Z * string :=
  if (age_days <? 7)%Z then (9000, "critical")
  else if (age_days <? 30)%Z then (6500, "high")
  else if (age_days <? 90)%Z then (4000, "medium")
  else if (age_days <? 180)%Z then (2000, "low")
  else (500, "low").

(** [RiskCalculator._calculate_volume_risk] *)
Definition _calculate_volume_risk (tx_count : Z) : Z * string :=
  if (tx_count <? 3)%Z then (8500, "critical")
  else if (tx_count <? 10)%Z then (6000, "high")
  else if (tx_count <? 50)%Z then (3500, "medium")
  else if (tx_count <? 200)%Z then (1500, "low")
  else (300, "low").

(** [RiskCalculator._calculate_token_risk] *)
Definition _calculate_token_risk (unique_tokens : Z) : Z * string :=
  if (unique_tokens =? 0)%Z then (4000, "medium")
  else if (unique_tokens <? 3)%Z then (3000, "medium")
  else if (unique_tokens <? 8)%Z then (1500, "low")
  else (500, "low").

(** [RiskCalculator._calculate_confidence].  The floats it computes with
    are the integers 40 to 90, on which float addition and [min] are
    exact. *)
Definition _calculate_confidence (tx_count age_days tokens : Z) : Z :=
  let confidence := 40 in
  let confidence :=
    if (tx_count >=? 100)%Z then confidence + 20
    else if (tx_count >=? 20)%Z then confidence + 10
    else if (tx_count >=? 5)%Z then confidence + 5
    else confidence in
  let confidence :=
    if (age_days >=? 180)%Z then confidence + 20
    else if (age_days >=? 90)%Z then confidence + 15
    else if (age_days >=? 30)%Z then confidence + 10
    else confidence in
  let confidence :=
    if (tokens >=? 5)%Z then confidence + 10
    else if (tokens >=? 2)%Z then confidence + 5
    else confidence in
  Z.min 95 confidence.

(** The band selection of [calculate_comprehensive_risk]. *)
Definition risk_band (total_score : Z) : string :=
  if (total_score <? 2500)%Z then "low"
  else if (total_score <? 5000)%Z then "medium"
  else if (total_score <? 7500)%Z then "high"
  else "critical".

End RiskCalculator.

(** ** websocket-service: the endpoint and the Redis subscriber *)

Module WebSocketService.

Import ConnectionManager.

(** The calls one invocation of [websocket_endpoint] makes on the
    manager for a client that sends [frames] and then goes away:
    [connect], [handle_message] for each frame (it never raises), and
    [disconnect] when [receive_text] raises. *)
Definition websocket_endpoint (websocket : WebSocket)
    (frames : list client_frame) : list op :=
  (Connect websocket :: map (Frame websocket) frames
   ++ [Disconnect websocket])%list.

(** An order in which the service can perform the calls of several
    endpoint invocations and broadcasts: every socket object is connected
    once, handles frames only while its endpoint runs, and is
    disconnected by its endpoint.  [open] are the sockets whose endpoint
    is running, [closed] those whose endpoint has returned. *)
Fixpoint endpoint_order (open closed : gset positive) (ops : list op)
  : Prop :=
  match ops with
  | [] => True
  | Connect ws :: rest =>
      (ws ∉ open) /\ (ws ∉ closed)
      /\ endpoint_order ({[ws]} ∪ open) closed rest
  | Frame ws _ :: rest => (ws ∈ open) /\ endpoint_order open closed rest
  | Disconnect ws :: rest =>
      (ws ∈ open) /\ endpoint_order (open ∖ {[ws]}) ({[ws]} ∪ closed) rest
  | Broadcast _ _ :: rest => endpoint_order open closed rest
  end.

(** The sockets whose endpoint is running after [ops]. *)
Fixpoint open_after (open : gset positive) (ops : list op) : gset positive :=
  match ops with
  | [] => open
  | Connect ws :: rest => open_after ({[ws]} ∪ open) rest
  | Disconnect ws :: rest => open_after (open ∖ {[ws]}) rest
  | _ :: rest => open_after open rest
  end.

(** The manager while the endpoint of [websocket] runs, its client
    being subscribed to [subs]: the state [before] the endpoint was
    entered, with [websocket] added to the subscriber set of each task in
    [subs]. *)
Definition during (websocket : WebSocket) (subs : gset string)
    (before st : state) : Prop :=
  connection_subscriptions st
  = <[websocket := subs]> (connection_subscriptions before)
  /\ forall task_id,
       active_connections st !! task_id
       = if decide (task_id ∈ subs)
         then Some (default ∅ (active_connections before !! task_id)
                    ∪ {[websocket]})
         else active_connections before !! task_id.

Section WithSockets.

Variable send_text_raises : WebSocket -> json -> option exn.

(** [RedisSubscriber._handle_message]; [data] is what [json.loads]
    returns, [None] when it raises [JSONDecodeError].  A task id that is
    not a string is the key of no subscriber set. *)
Definition _handle_message (data : option json) (st : state) : state :=
  match data with
  | None => st
  | Some (JObj message) =>
      match dict_get "task_id" message with
      | None => st
      | Some task_id =>
          if negb (truthy task_id) then st
          else
            let status_data :=
              JObj [("status",
                     match dict_get "status" message with
                     | Some s => s
                     | None => JNull
                     end);
                    ("progress",
                     match dict_get "progress" message with
                     | Some p => p
                     | None => JInt 0
                     end);
                    ("message",
                     match dict_get "message" message with
                     | Some m => m
                     | None => JStr ""
                     end)] in
            match task_id with
            | JStr t =>
                broadcast_status_update send_text_raises t status_data st
            | _ => st
            end
      end
  | Some _ => st
  end.

End WithSockets.

End WebSocketService.

(** ** websocket-service/app/services/redis_subscriber.py: the life of
       the subscriber *)

Module RedisSubscriber.

(** The subscriber object: its [_running] flag, whether [_redis] is set,
    whether the task created for [_listen] is still alive, and the
    connection manager it broadcasts to. *)
Record subscriber : Type := Subscriber {
  _running : bool;
  _redis : bool;
  listening : bool;
  manager : ConnectionManager.state
}.

(** [RedisSubscriber.__init__] *)
Definition init : subscriber :=
  Subscriber false false false ConnectionManager.empty.

(** What [self._pubsub.get_message(...)] does in one iteration of
    [_listen]: it times out and returns [None], returns a message of
    some type whose data parses to [data] ([None] when [json.loads]
    raises), or raises. *)
Inductive poll : Type :=
| Timeout
| Message (type : string) (data : option json)
| Fails (e : exn).

(** The calls that reach the subscriber: [start()], [stop()], and the
    next answer of [get_message] to its listener task. *)
Inductive op : Type :=
| Start
| Stop
| Poll (p : poll).

Section WithEnv.

Variable send_text_raises : ConnectionManager.WebSocket -> json -> option exn.

(** [Some e] when opening the connection ([from_url]) raises, and when
    a later step of [start] ([ping], [subscribe]) raises. *)
Variable from_url_raises : option exn.
Variable subscribe_raises : option exn.

(** [RedisSubscriber.start] *)
Definition start (s : subscriber) : result unit * subscriber :=
  if _running s then (Ok tt, s)
  else
    match from_url_raises with
    | Some e => (Raise e, s)
    | None =>
        match subscribe_raises with
        | Some e =>
            (Raise e, Subscriber (_running s) true (listening s) (manager s))
        | None => (Ok tt, Subscriber true true true (manager s))
        end
    end.

(** [RedisSubscriber.stop], as far as the subscriber object goes: the
    flag is cleared and the task cancelled before anything can raise. *)
Definition stop (s : subscriber) : subscriber :=
  if negb (_running s) then s
  else Subscriber false (_redis s) false (manager s).

(** [RedisSubscriber.is_connected] *)
Definition is_connected (s : subscriber) : bool :=
  _running s && _redis s.

(** One iteration of the loop of [_listen], for a live task.  When
    [get_message] raises, the [except] block calls [start()] if
    [_running] is set, and the task returns. *)
Definition _listen (p : poll) (s : subscriber) : subscriber :=
  if negb (_running s) then
    Subscriber (_running s) (_redis s) false (manager s)
  else
    match p with
    | Timeout => s
    | Message type data =>
        if String.eqb type "message" then
          Subscriber (_running s) (_redis s) (listening s)
            (WebSocketService._handle_message send_text_raises data
               (manager s))
        else s
    | Fails e =>
        let ended := Subscriber (_running s) (_redis s) false (manager s) in
        if _running ended then snd (start ended) else ended
    end.

Definition step (o : op) (s : subscriber) : subscriber :=
  match o with
  | Start => snd (start s)
  | Stop => stop s
  | Poll p => if listening s then _listen p s else s
  end.

Definition run (ops : list op) (s : subscriber) : subscriber :=
  foldl (fun s o => step o s) s ops.

End WithEnv.

End RedisSubscriber.

(** ** worker/app/services/passport_service.py: reading the claim data
       back *)

Module PassportService.

(** The fields of the [PassportClaimData] dataclass, in declaration
    order. *)
Definition fields : list string :=
  ["commitment"; "secret"; "nullifier"; "wallet_address";
   "encrypted_score"; "vault_address"; "block_height"; "tx_hash"].

(** The constructor call of [PassportClaimData] on the entries of
    [data_dict] as keyword arguments: the instance, as the values of its
    fields, when [data_dict] has exactly the dataclass's fields as keys;
    [None] when the constructor raises [TypeError]. *)
Definition from_dict (data_dict : dict) : option dict :=
  if Nat.eqb (length data_dict) (length fields) then
    mapM (fun field => (fun v => (field, v)) <$> dict_get field data_dict)
      fields
  else None.

Section WithEnv.

Variable E : env.

(** [PassportService.get_claim_data]; the text stored by
    [_cache_claim_data] is never empty, and an entry that does not
    evaluate to a dictionary of the fields ends in the [except]
    branch. *)
Definition get_claim_data (wallet_address : string) : M (option dict) :=
  let cache_key := "passport:claim:" +:+ lower wallet_address in
  do data <- redis_get E cache_key ;;
  match data with
  | None => ret None
  | Some (JObj data_dict) => ret (from_dict data_dict)
  | Some _ => ret None
  end.

End WithEnv.

End PassportService.

(** ** websocket-service/app/core/connection_manager.py: statistics *)

Module ConnectionStats.

Import ConnectionManager.

(** The entries of [ConnectionManager.get_stats]. *)
Definition total_connections (st : state) : nat :=
  size (connection_subscriptions st).

Definition total_subscriptions (st : state) : nat :=
  map_fold (fun _ subs n => (size subs + n)%nat) 0%nat
    (connection_subscriptions st).

Definition tasks_with_subscribers (st : state) : nat :=
  size (active_connections st).

Definition connections_per_task (st : state) : gmap string nat :=
  size <$> active_connections st.

(** The sum of the values of a dictionary of counts. *)
Definition total (counts : gmap string nat) : nat :=
  map_fold (fun _ n acc => (n + acc)%nat) 0%nat counts.

End ConnectionStats.

(** ** Further concrete runs *)

Module Cases.

(** A commitment as a client may spell it, in upper-case hex digits. *)
Definition shouted : string :=
  "0xABCDEFABCDEFABCDEFABCDEFABCDEFABCDEFABCDEFABCDEFABCDEFABCDEFABCD".

(** An environment in which Redis refuses the writes of status entries
    and everything else answers. *)
Definition status_down : env :=
  {| setex_raises := fun key _ _ =>
       if String.prefix "task:status:" key
       then Some (Exception "READONLY You can't write against a read only replica.")
       else None;
     get_raises := fun _ => None;
     delete_raises := fun _ => None;
     publish_raises := fun _ _ => None;
     publisher_start_raises := None;
     send_raises := fun _ _ _ => None;
     commit_raises := fun _ _ _ => None;
     uuid := fun n => "task-" +:+ pretty n;
     isoformat := fun t => pretty t;
     recover_message := fun _ _ => Ok Scenario.wallet;
     validation_error := fun _ =>
       "1 validation error for TaskResponse";
     indexer_summary := fun _ _ => Ok [("total_transactions", JInt 12)];
     calculator_risk := fun _ _ =>
       Ok [("risk_score", JInt 2500); ("risk_band", JStr "low")];
     token_hex := fun _ => "00ff";
     current_block := Ok 19000000;
     VAULT_CONTRACT_ADDRESS := "0xvault" |}.

(** The world at the time the request of [Scenario.request 1704070000]
    was signed, and two hours and a half later. *)
Definition at_signing : world := set_clock 1704070000 initial_world.
Definition much_later : world := set_clock 1704079000 initial_world.

(** A record on a topic for which the worker registers no handler. *)
Definition stray_record : Worker.ConsumerRecord Worker.RiskMessage :=
  {| Worker.topic := "strategy-validation-requests";
     Worker.partition := 0;
     Worker.offset := 3;
     Worker.key := None;
     Worker.value := Scenario.message |}.

Definition handlers : gmap string (Worker.RiskMessage -> M unit) :=
  {[ "risk-analysis-requests" := Worker.handle Scenario.quiet ]}.

(** The frames of a client that subscribes to two tasks, sends garbage
    and unsubscribes from one of them. *)
Definition frames : list ConnectionManager.client_frame :=
  [ConnectionManager.Data (Some "subscribe") (Some "task-0");
   ConnectionManager.Data (Some "subscribe") (Some "task-1");
   ConnectionManager.BadJson;
   ConnectionManager.Data (Some "unsubscribe") (Some "task-0")].

End Cases.


(** * Theorems *)

Local Open Scope list_scope.


(** C8: the timestamp check raises Unauthorized exactly when
    [age > 300] or [age < -60], where [age = now - timestamp]; otherwise it
    returns.  At the boundaries: [now - 301] is rejected, [now - 299]
    passes, [now + 61] is rejected and [now + 59] passes. *)
Theorem verify_timestamp_window (now timestamp : Z) :
  (SignatureVerifier.unauthorized
     (SignatureVerifier._verify_timestamp now timestamp)
   <-> (now - timestamp > 300 \/ now - timestamp < -60))
  /\ (~ (now - timestamp > 300 \/ now - timestamp < -60)
      <-> SignatureVerifier._verify_timestamp now timestamp = Ok tt)
  /\ SignatureVerifier.unauthorized
       (SignatureVerifier._verify_timestamp now (now - 301))
  /\ SignatureVerifier._verify_timestamp now (now - 299) = Ok tt
  /\ SignatureVerifier.unauthorized
       (SignatureVerifier._verify_timestamp now (now + 61))
  /\ SignatureVerifier._verify_timestamp now (now + 59) = Ok tt.
Proof.
  assert (Hgen : forall ts,
    (SignatureVerifier.unauthorized (SignatureVerifier._verify_timestamp now ts)
     <-> (now - ts > 300 \/ now - ts < -60))
    /\ (~ (now - ts > 300 \/ now - ts < -60)
        <-> SignatureVerifier._verify_timestamp now ts = Ok tt)).
  { intros ts. unfold SignatureVerifier._verify_timestamp,
      SignatureVerifier.unauthorized,
      SignatureVerifier.MAX_SIGNATURE_AGE_SECONDS.
    destruct (Z.ltb_spec (now - ts) (-60)) as [Hlt | Hge].
    - split; split; try lia; try discriminate.
      intros _. eexists. reflexivity.
    - destruct (Z.gtb_spec (now - ts) 300) as [Hgt | Hle].
      + split; split; try lia; try discriminate.
        intros _. eexists. reflexivity.
      + split; split; try lia; try reflexivity.
        intros [d Hd]. discriminate. }
  split; [apply Hgen|]. split; [apply Hgen|].
  split; [apply Hgen; lia|]. split; [apply Hgen; lia|].
  split; [apply Hgen; lia|]. apply Hgen; lia.
Qed.

(** ** The connection manager keeps its two dictionaries consistent *)

Section ConnectionManagerFacts.

Import ConnectionManager.

Lemma consistent_maps st st' :
  active_connections st' = active_connections st ->
  connection_subscriptions st' = connection_subscriptions st ->
  consistent st -> consistent st'.
Proof.
  intros Ha Hc [Hi Hp]. split.
  - intros t w. rewrite Ha, Hc. apply Hi.
  - intros t c. rewrite Ha. apply Hp.
Qed.

Lemma connect_consistent ws st :
  consistent st -> connection_subscriptions st !! ws = None ->
  consistent (connect ws st).
Proof.
  intros [Hi Hp] Hnone. split; [|exact Hp].
  intros t w. unfold connect; simpl. rewrite (Hi t w).
  destruct (decide (ws = w)) as [->|Hne].
  - rewrite lookup_insert_eq, Hnone. split.
    + intros (s & Hs & _). discriminate.
    + intros (s & Hs & Hin). inversion Hs; subst. set_solver.
  - rewrite lookup_insert_ne by done. reflexivity.
Qed.

Lemma subscribe_consistent ws t st :
  consistent st -> is_Some (connection_subscriptions st !! ws) ->
  consistent (snd (_subscribe ws t st)).
Proof.
  intros [Hi Hp] [subs Hsubs]. unfold _subscribe. rewrite Hsubs. simpl.
  split.
  - intros t' w. simpl.
    destruct (decide (t = t')) as [<-|Hnt].
    + rewrite lookup_insert_eq.
      destruct (decide (ws = w)) as [<-|Hnw].
      * rewrite lookup_insert_eq. split.
        -- intros _. eexists. split; [reflexivity|set_solver].
        -- intros _. eexists. split; [reflexivity|set_solver].
      * rewrite lookup_insert_ne by done. rewrite <- (Hi t w). split.
        -- intros (c & Hc & Hin). inversion Hc; subst; clear Hc.
           apply elem_of_union in Hin as [Hin|Hin]; [|set_solver].
           destruct (active_connections st !! t) as [c0|] eqn:Hac;
             [|set_solver].
           eauto.
        -- intros (c & Hc & Hin). rewrite Hc. eexists. split; [reflexivity|].
           set_solver.
    + rewrite lookup_insert_ne by done. rewrite (Hi t' w).
      destruct (decide (ws = w)) as [<-|Hnw].
      * rewrite lookup_insert_eq, Hsubs. split.
        -- intros (s & Hs & Hin). inversion Hs; subst.
           eexists. split; [reflexivity|set_solver].
        -- intros (s & Hs & Hin). inversion Hs; subst.
           eexists. split; [reflexivity|set_solver].
      * rewrite lookup_insert_ne by done. reflexivity.
  - intros t' c. simpl. destruct (decide (t = t')) as [<-|Hnt].
    + rewrite lookup_insert_eq. intros Hc. inversion Hc; subst. set_solver.
    + rewrite lookup_insert_ne by done. apply Hp.
Qed.

Lemma unsubscribe_consistent ws t st :
  consistent st -> consistent (_unsubscribe ws t st).
Proof.
  intros [Hi Hp]. unfold _unsubscribe. split.
  - intros t' w. simpl.
    destruct (decide (t = t')) as [<-|Hnt].
    + (* the task being left *)
      destruct (decide (ws = w)) as [<-|Hnw].
      * (* ws is no longer a subscriber of t *)
        split.
        -- intros (c & Hc & Hin). exfalso.
           destruct (active_connections st !! t) as [c0|] eqn:Hac.
           ++ destruct (decide (c0 ∖ {[ws]} = ∅)).
              ** rewrite lookup_delete_eq in Hc. discriminate.
              ** rewrite lookup_insert_eq in Hc. inversion Hc; subst.
                 set_solver.
           ++ rewrite Hac in Hc. discriminate.
        -- intros (s & Hs & Hin). exfalso.
           destruct (connection_subscriptions st !! ws) as [s0|] eqn:Hcs.
           ++ rewrite lookup_insert_eq in Hs. inversion Hs; subst.
              set_solver.
           ++ rewrite Hcs in Hs. discriminate.
      * (* another socket keeps its subscription to t *)
        assert (Hcs : (match connection_subscriptions st !! ws with
                       | Some subs =>
                           <[ws := subs ∖ {[t]}]> (connection_subscriptions st)
                       | None => connection_subscriptions st
                       end) !! w = connection_subscriptions st !! w).
        { destruct (connection_subscriptions st !! ws);
            [by rewrite lookup_insert_ne|done]. }
        rewrite Hcs, <- (Hi t w).
        destruct (active_connections st !! t) as [c0|] eqn:Hac.
        -- destruct (decide (c0 ∖ {[ws]} = ∅)) as [He|He].
           ++ rewrite lookup_delete_eq. split.
              ** intros (c & Hc & _). discriminate.
              ** intros (c & Hc & Hin). inversion Hc; subst. set_solver.
           ++ rewrite lookup_insert_eq. split.
              ** intros (c & Hc & Hin). inversion Hc; subst.
                 eexists. split; [reflexivity|set_solver].
              ** intros (c & Hc & Hin). inversion Hc; subst.
                 eexists. split; [reflexivity|set_solver].
        -- rewrite Hac. reflexivity.
    + (* another task *)
      assert (Hac : (match active_connections st !! t with
                     | Some conns =>
                         if decide (conns ∖ {[ws]} = ∅)
                         then delete t (active_connections st)
                         else <[t := conns ∖ {[ws]}]> (active_connections st)
                     | None => active_connections st
                     end) !! t' = active_connections st !! t').
      { destruct (active_connections st !! t); [|done].
        destruct (decide _); [by rewrite lookup_delete_ne|
                               by rewrite lookup_insert_ne]. }
      rewrite Hac, (Hi t' w).
      destruct (decide (ws = w)) as [<-|Hnw].
      * destruct (connection_subscriptions st !! ws) as [s0|] eqn:Hcs.
        -- rewrite lookup_insert_eq. split.
           ++ intros (s & Hs & Hin). inversion Hs; subst.
              eexists. split; [reflexivity|set_solver].
           ++ intros (s & Hs & Hin). inversion Hs; subst.
              eexists. split; [reflexivity|set_solver].
        -- rewrite Hcs. reflexivity.
      * destruct (connection_subscriptions st !! ws);
          [by rewrite lookup_insert_ne|done].
  - intros t' c. simpl.
    destruct (active_connections st !! t) as [c0|] eqn:Hac; [|apply Hp].
    destruct (decide (c0 ∖ {[ws]} = ∅)) as [He|He].
    + destruct (decide (t = t')) as [<-|Hnt].
      * rewrite lookup_delete_eq. discriminate.
      * rewrite lookup_delete_ne by done. apply Hp.
    + destruct (decide (t = t')) as [<-|Hnt].
      * rewrite lookup_insert_eq. intros Hc. inversion Hc; subst. done.
      * rewrite lookup_insert_ne by done. apply Hp.
Qed.

Lemma unsubscribe_subscriptions ws t st :
  connection_subscriptions (_unsubscribe ws t st) !! ws
  = (fun subs => subs ∖ {[t]}) <$> connection_subscriptions st !! ws.
Proof.
  unfold _unsubscribe; simpl.
  destruct (connection_subscriptions st !! ws) as [s|] eqn:Hs.
  - by rewrite lookup_insert_eq.
  - by rewrite Hs.
Qed.

Lemma unsubscribe_shrinks ws t st t' c' :
  active_connections (_unsubscribe ws t st) !! t' = Some c' ->
  exists c, active_connections st !! t' = Some c /\ c' ⊆ c.
Proof.
  unfold _unsubscribe; simpl.
  destruct (active_connections st !! t) as [c0|] eqn:Hac.
  - destruct (decide (c0 ∖ {[ws]} = ∅)).
    + destruct (decide (t = t')) as [<-|Hne].
      * rewrite lookup_delete_eq. discriminate.
      * rewrite lookup_delete_ne by done. eauto.
    + destruct (decide (t = t')) as [<-|Hne].
      * rewrite lookup_insert_eq. intros Hc; inversion Hc; subst.
        exists c0. split; [done|set_solver].
      * rewrite lookup_insert_ne by done. eauto.
  - eauto.
Qed.

Lemma unsubscribe_all_spec ws l : forall st subs,
  consistent st ->
  connection_subscriptions st !! ws = Some subs ->
  consistent (unsubscribe_all ws l st)
  /\ connection_subscriptions (unsubscribe_all ws l st) !! ws
     = Some (subs ∖ list_to_set l)
  /\ (forall t' c', active_connections (unsubscribe_all ws l st) !! t' = Some c' ->
        exists c, active_connections st !! t' = Some c /\ c' ⊆ c).
Proof.
  induction l as [|t l IH]; intros st subs Hc Hs; simpl.
  - split; [done|]. split; [|by eauto].
    rewrite Hs. f_equal. set_solver.
  - change (unsubscribe_all ws (t :: l) st)
      with (unsubscribe_all ws l (_unsubscribe ws t st)).
    destruct (IH (_unsubscribe ws t st) (subs ∖ {[t]})) as (H1 & H2 & H3).
    + by apply unsubscribe_consistent.
    + by rewrite unsubscribe_subscriptions, Hs.
    + split; [exact H1|]. split.
      * rewrite H2. f_equal. set_solver.
      * intros t' c' Hc'. destruct (H3 t' c' Hc') as (c1 & Hc1 & Hsub).
        destruct (unsubscribe_shrinks _ _ _ _ _ Hc1) as (c & Hc0 & Hsub').
        exists c. split; [done|set_solver].
Qed.

Lemma disconnect_consistent ws st :
  consistent st -> consistent (disconnect ws st).
Proof.
  intros Hc. unfold disconnect.
  destruct (connection_subscriptions st !! ws) as [subs|] eqn:Hs; [|done].
  destruct (unsubscribe_all_spec ws (elements subs) st subs Hc Hs)
    as ([Hi Hp] & Hsub & _).
  set (st' := unsubscribe_all ws (elements subs) st) in *.
  rewrite list_to_set_elements_L in Hsub.
  replace (subs ∖ subs) with (∅ : gset string) in Hsub by set_solver.
  split; [|exact Hp].
  intros t w; simpl. rewrite (Hi t w).
  destruct (decide (ws = w)) as [<-|Hne].
  - rewrite lookup_delete_eq, Hsub. split.
    + intros (s & Hs' & Hin). inversion Hs'; subst. set_solver.
    + intros (s & Hs' & _). discriminate.
  - by rewrite lookup_delete_ne.
Qed.

Lemma disconnect_shrinks ws st t' c' :
  consistent st ->
  active_connections (disconnect ws st) !! t' = Some c' ->
  exists c, active_connections st !! t' = Some c /\ c' ⊆ c.
Proof.
  intros Hc. unfold disconnect.
  destruct (connection_subscriptions st !! ws) as [subs|] eqn:Hs.
  - simpl. intros H.
    destruct (unsubscribe_all_spec ws (elements subs) st subs Hc Hs)
      as (_ & _ & Hsh).
    by apply Hsh.
  - intros H. exists c'. split; [done|set_solver].
Qed.

Lemma disconnect_forgets ws st :
  connection_subscriptions (disconnect ws st) !! ws = None.
Proof.
  unfold disconnect.
  destruct (connection_subscriptions st !! ws) as [subs|] eqn:Hs.
  - simpl. apply lookup_delete_eq.
  - done.
Qed.

Section Sockets.

Variable send_text_raises : WebSocket -> json -> option exn.

Lemma send_message_maps ws m st :
  fst (send_message send_text_raises ws m st) = Ok tt
  /\ active_connections (snd (send_message send_text_raises ws m st))
     = active_connections st
  /\ connection_subscriptions (snd (send_message send_text_raises ws m st))
     = connection_subscriptions st.
Proof.
  unfold send_message. destruct (send_text_raises ws m); simpl; auto.
Qed.

Lemma send_message_consistent ws m st :
  consistent st -> consistent (snd (send_message send_text_raises ws m st)).
Proof.
  destruct (send_message_maps ws m st) as (_ & Ha & Hc).
  by apply consistent_maps.
Qed.

Lemma send_all_spec l m : forall st d,
  snd (send_all send_text_raises l m st d) = d
  /\ active_connections (fst (send_all send_text_raises l m st d))
     = active_connections st
  /\ connection_subscriptions (fst (send_all send_text_raises l m st d))
     = connection_subscriptions st.
Proof.
  induction l as [|ws l IH]; intros st d; simpl; [done|].
  destruct (send_message_maps ws m st) as (Hok & Ha & Hc).
  destruct (send_message send_text_raises ws m st) as [r st'].
  simpl in *. subst r.
  destruct (IH st' d) as (H1 & H2 & H3).
  rewrite H1, H2, H3, Ha, Hc. done.
Qed.

Lemma broadcast_maps t d st :
  active_connections (broadcast_status_update send_text_raises t d st)
  = active_connections st
  /\ connection_subscriptions (broadcast_status_update send_text_raises t d st)
     = connection_subscriptions st.
Proof.
  unfold broadcast_status_update.
  destruct (active_connections st !! t) as [conns|]; [|done].
  match goal with |- context [send_all _ ?l ?m ?s ?d] =>
    destruct (send_all_spec l m s d) as (H1 & H2 & H3);
    destruct (send_all send_text_raises l m s d) as [st' disc] end.
  simpl in *. subst disc. simpl. done.
Qed.

Lemma handle_message_consistent ws f st :
  is_Some (connection_subscriptions st !! ws) ->
  consistent st -> consistent (handle_message send_text_raises ws f st).
Proof.
  intros Hcon Hc. unfold handle_message, send_error.
  destruct f as [|[ty|] [tid|]];
    try (by apply send_message_consistent).
  destruct (negb (truthy_opt (Some ty)) || negb (truthy_opt (Some tid)));
    [by apply send_message_consistent|].
  destruct (String.eqb ty "subscribe").
  - pose proof (subscribe_consistent ws tid st Hc Hcon) as Hs.
    destruct (_subscribe ws tid st) as [[|e] st']; simpl in Hs;
      by apply send_message_consistent.
  - destruct (String.eqb ty "unsubscribe");
      [|by apply send_message_consistent].
    apply send_message_consistent. by apply unsubscribe_consistent.
Qed.

Lemma step_consistent o st :
  allowed o st -> consistent st -> consistent (step send_text_raises o st).
Proof.
  destruct o as [ws|ws f|ws|t d]; simpl; intros Ha Hc.
  - by apply connect_consistent.
  - by apply handle_message_consistent.
  - by apply disconnect_consistent.
  - destruct (broadcast_maps t d st) as [H1 H2].
    by apply (consistent_maps st).
Qed.

Lemma run_consistent ops : forall st,
  well_ordered send_text_raises ops st -> consistent st ->
  consistent (run send_text_raises ops st).
Proof.
  induction ops as [|o ops IH]; intros st Hw Hc; simpl; [done|].
  destruct Hw as [Ha Hw]. apply IH; [done|]. by apply step_consistent.
Qed.
End Sockets.

Lemma empty_consistent : consistent empty.
Proof.
  split.
  - intros t w. simpl. split.
    + intros (c & Hc & _). by rewrite lookup_empty in Hc.
    + intros (c & Hc & _). by rewrite lookup_empty in Hc.
  - intros t c. simpl. by rewrite lookup_empty.
Qed.

Lemma unsubscribe_last ws t st :
  active_connections st !! t = Some {[ws]} ->
  active_connections (_unsubscribe ws t st) !! t = None.
Proof.
  intros Hac. unfold _unsubscribe; simpl. rewrite Hac.
  destruct (decide (({[ws]} : gset positive) ∖ {[ws]} = ∅)) as [|Hne].
  - apply lookup_delete_eq.
  - exfalso. apply Hne. set_solver.
Qed.

Lemma disconnect_last ws t st :
  consistent st ->
  active_connections st !! t = Some {[ws]} ->
  active_connections (disconnect ws st) !! t = None.
Proof.
  intros Hc Hac.
  destruct (active_connections (disconnect ws st) !! t) as [c'|] eqn:Hc';
    [|done].
  exfalso.
  destruct (disconnect_consistent ws st Hc) as [Hi Hp].
  destruct (disconnect_shrinks ws st t c' Hc Hc') as (c & Hc0 & Hsub).
  rewrite Hac in Hc0. inversion Hc0; subst c.
  pose proof (Hp t c' Hc') as Hne.
  apply set_choose_L in Hne as [w Hw].
  assert (w = ws) by set_solver. subst w.
  destruct (proj1 (Hi t ws)) as (s & Hs & _); [eauto|].
  rewrite disconnect_forgets in Hs. discriminate.
Qed.

(** C9: after every sequence of connect, subscribe, unsubscribe,
    disconnect and broadcast operations in the order the websocket
    endpoint performs them, a connection is in a task's subscriber set if
    and only if the task is in the connection's subscription set, and no
    task is kept with an empty subscriber set; unsubscribing or
    disconnecting the only subscriber of a task removes the task's entry. *)
Theorem subscriptions_stay_consistent
    (send_text_raises : WebSocket -> json -> option exn) (ops : list op) :
  well_ordered send_text_raises ops empty ->
  let st := run send_text_raises ops empty in
  inverse st /\ pruned st
  /\ (forall ws t,
        active_connections st !! t = Some {[ws]} ->
        active_connections (_unsubscribe ws t st) !! t = None
        /\ active_connections (disconnect ws st) !! t = None).
Proof.
  intros Hw st.
  assert (Hc : consistent st)
    by (apply run_consistent; [done|apply empty_consistent]).
  destruct Hc as [Hi Hp]. split; [done|]. split; [done|].
  intros ws t Hac. split.
  - by apply unsubscribe_last.
  - by apply disconnect_last.
Qed.

End ConnectionManagerFacts.

(** ** Running the monad *)

Section MonadFacts.

Context {A B : Type}.

Lemma bind_ok (m : M A) (k : A -> M B) w a w' :
  m w = (Ok a, w') -> bind m k w = k a w'.
Proof. intros H. unfold bind. by rewrite H. Qed.

Lemma bind_raise (m : M A) (k : A -> M B) w e w' :
  m w = (Raise e, w') -> bind m k w = (Raise e, w').
Proof. intros H. unfold bind. by rewrite H. Qed.

Lemma try_except_ok (m : M A) (h : exn -> M A) w a w' :
  m w = (Ok a, w') -> try_except m h w = (Ok a, w').
Proof. intros H. unfold try_except. by rewrite H. Qed.


End MonadFacts.

(** ** Observations on traces *)


Lemma sends_app l1 l2 : sends (l1 ++ l2) = sends l1 ++ sends l2.
Proof.
  induction l1 as [|ev l1 IH]; simpl; [done|].
  destruct ev; simpl; by rewrite ?IH.
Qed.

Lemma commits_app l1 l2 : commits (l1 ++ l2) = commits l1 ++ commits l2.
Proof.
  induction l1 as [|ev l1 IH]; simpl; [done|].
  destruct ev; simpl; by rewrite ?IH.
Qed.

Lemma written_keys_app l1 l2 :
  written_keys (l1 ++ l2) = written_keys l1 ++ written_keys l2.
Proof.
  induction l1 as [|ev l1 IH]; simpl; [done|].
  destruct ev; simpl; by rewrite ?IH.
Qed.

(** ** Status writes of a computation *)


Lemma writes_prefix_silent {A} t (m : M A) :
  (forall w, status_writes t (trace (snd (m w))) = status_writes t (trace w)) ->
  Progress.writes_prefix t m [].
Proof.
  intros H w. exists 0%nat. split; [done|]. split; [|done].
  rewrite H. simpl. by rewrite app_nil_r.
Qed.

(** ** The worker's cache and producer *)

Section WorkerFacts.

Import Worker.

Variable E : env.


(** The three outcomes of a status write: the [setex] raises; the
    [publish] raises after the entry was written; both succeed. *)
Lemma update_task_status_cases t s p m w :
  let key := "task:status:" +:+ t in
  let value := JObj [("status", JStr s); ("progress", JInt p);
                     ("message", opt_str m)] in
  let written :=
    set_store (<[key := (clock w + 3600, value)]> (store w))
      (log (Setex key 3600 value) w) in
  (exists e, update_task_status E t s p m w = (Raise e, w))
  \/ (exists e, update_task_status E t s p m w = (Raise e, written))
  \/ (exists ev, update_task_status E t s p m w = (Ok tt, log (Publish REDIS_PUBSUB_CHANNEL ev) written)).
Proof.
  intros key value written.
  unfold update_task_status, bind, redis_setex, redis_publish.
  fold key. fold value.
  destruct (setex_raises E key 3600 value) as [e|]; [left; eauto|].
  fold written.
  match goal with |- context [publish_raises E ?c ?v] =>
    destruct (publish_raises E c v) as [e|] end.
  - right; left; eauto.
  - right; right; eauto.
Qed.



Lemma ret_silent {A} t (a : A) : Progress.writes_prefix t (ret a) [].
Proof. by apply writes_prefix_silent. Qed.







End WorkerFacts.

Section WorkerHandler.

Import Worker.

Variable E : env.



End WorkerHandler.




(** ** Runs of the worker's operations when the services answer *)

Lemma dict_get_set k v d : dict_get k (dict_set k v d) = Some v.
Proof.
  induction d as [|[k' v'] d IH]; simpl.
  - by rewrite String.eqb_refl.
  - destruct (String.eqb k k') eqn:Hk; simpl.
    + by rewrite String.eqb_refl.
    + by rewrite Hk.
Qed.



Section WorkerRuns.

Import Worker.

Variable E : env.

Lemma update_task_status_ok t s p m w :
  (forall ttl v, setex_raises E ("task:status:" +:+ t) ttl v = None) ->
  (forall ch v, publish_raises E ch v = None) ->
  exists ev,
    update_task_status E t s p m w
    = (Ok tt,
       log (Publish REDIS_PUBSUB_CHANNEL ev)
         (set_store
            (<["task:status:" +:+ t :=
                 (clock w + 3600,
                  JObj [("status", JStr s); ("progress", JInt p);
                        ("message", opt_str m)])]> (store w))
            (log (Setex ("task:status:" +:+ t) 3600
                    (JObj [("status", JStr s); ("progress", JInt p);
                           ("message", opt_str m)])) w))).
Proof.
  intros Hs Hp.
  unfold update_task_status, bind, redis_setex, redis_publish.
  rewrite Hs, Hp. eauto.
Qed.

Lemma publish_result_ok task s r err w :
  (forall topic v k, send_raises E topic v k = None) ->
  publish_risk_analysis_result E task s r err w
  = (Ok tt,
     log (Send KAFKA_TOPIC_RISK_RESULTS
            (JObj [("task_id", JStr task); ("status", JStr s);
                   ("result",
                    match r with Some d => JObj d | None => JNull end);
                   ("error", opt_str err);
                   ("processed_at", JStr (isoformat E (clock w)))])
            task) w).
Proof.
  intros Hs.
  unfold publish_risk_analysis_result, bind, utcnow_isoformat, try_except,
    send_and_wait.
  by rewrite Hs.
Qed.



(** The passport stage never raises, and its result always carries a
    [passport] entry. *)
Lemma passport_stage_total c wal score ra w :
  exists ra' w',
    passport_stage E c wal score ra w = (Ok ra', w')
    /\ is_Some (dict_get "passport" ra').
Proof.
  unfold passport_stage, try_except, bind, ret.
  destruct (create_passport E c wal score w) as [[pd|e] w'];
    do 2 eexists; (split; [reflexivity|]); rewrite dict_get_set; eauto.
Qed.

End WorkerRuns.



(** ** The consumer loop *)

Section ConsumerFacts.

Import Worker.

Variable E : env.
Variable V : Type.
Variable handlers : gmap string (V -> M unit).

Lemma process_message_registered msg (handler : V -> M unit) w :
  handlers !! topic msg = Some handler ->
  _process_message V handlers msg w = handler (value msg) w.
Proof.
  intros H. unfold _process_message, try_except, raise. rewrite H.
  by destruct (handler (value msg) w) as [[[]|e] w'].
Qed.

Lemma consume_one_stopped msg w :
  running w = false -> consume_one E V handlers msg w = (Ok Break, w).
Proof. intros H. unfold consume_one. by rewrite H. Qed.

Lemma consume_one_handler_raised msg (handler : V -> M unit) w e w1 :
  running w = true ->
  handlers !! topic msg = Some handler ->
  handler (value msg) w = (Raise e, w1) ->
  consume_one E V handlers msg w = (Ok Continue, w1).
Proof.
  intros Hr Hh He. unfold consume_one. rewrite Hr. simpl.
  unfold bind, try_except.
  by rewrite (process_message_registered _ _ _ Hh), He.
Qed.

Lemma consume_one_handler_returned msg (handler : V -> M unit) w w1 :
  running w = true ->
  handlers !! topic msg = Some handler ->
  handler (value msg) w = (Ok tt, w1) ->
  consume_one E V handlers msg w
  = (Ok Continue,
     match commit_raises E (topic msg) (partition msg) (offset msg) with
     | None => log (Commit (topic msg) (partition msg) (offset msg)) w1
     | Some _ => w1
     end).
Proof.
  intros Hr Hh He. unfold consume_one. rewrite Hr. simpl.
  unfold bind, try_except, consumer_commit.
  rewrite (process_message_registered _ _ _ Hh), He.
  by destruct (commit_raises E _ _ _).
Qed.

End ConsumerFacts.

(** One iteration of the consumer loop, for a record whose topic has a
    registered handler, calls [commit()] if and only if the handler
    returns without raising: when the handler raises, nothing is issued
    after it; when it returns, [commit()] is called, and completes
    unless it raises itself.  Either way the loop goes on with the next
    record; a stopped consumer neither handles nor commits. *)
Theorem commit_called_iff_handler_returns
    (E : env) (V : Type) (handlers : gmap string (V -> M unit))
    (msg : Worker.ConsumerRecord V) (rest : list (Worker.ConsumerRecord V))
    (handler : V -> M unit) (w : world) :
  handlers !! Worker.topic msg = Some handler ->
  let r := fst (handler (Worker.value msg) w) in
  let w1 := snd (handler (Worker.value msg) w) in
  let w2 := snd (Worker.consume_one E V handlers msg w) in
  let this := (Worker.topic msg, Worker.partition msg, Worker.offset msg) in
  (running w = false ->
   Worker.consume_one E V handlers msg w = (Ok Worker.Break, w)
   /\ Worker._consume_loop E V handlers (msg :: rest) w = (Ok tt, w))
  /\ (running w = true ->
      fst (Worker.consume_one E V handlers msg w) = Ok Worker.Continue
      /\ (is_ok r = false -> w2 = w1)
      /\ (is_ok r = true ->
          commit_raises E (Worker.topic msg) (Worker.partition msg)
            (Worker.offset msg) = None ->
          w2 = log (Commit (Worker.topic msg) (Worker.partition msg)
                      (Worker.offset msg)) w1)
      /\ (commit_raises E (Worker.topic msg) (Worker.partition msg)
            (Worker.offset msg) = None ->
          commits (trace w2)
          = commits (trace w1) ++ (if is_ok r then [this] else []))
      /\ Worker._consume_loop E V handlers (msg :: rest) w
         = Worker._consume_loop E V handlers rest w2).
Proof.
  intros Hh r w1 w2 this. split.
  - intros Hr. pose proof (consume_one_stopped E V handlers msg w Hr) as Hc.
    split; [done|]. simpl. by rewrite (bind_ok _ _ _ _ _ Hc).
  - intros Hr. subst r w1 w2.
    destruct (handler (Worker.value msg) w) as [[[]|e] w1] eqn:He.
    + pose proof (consume_one_handler_returned E V handlers msg handler w w1
                    Hr Hh He) as Hc.
      simpl. rewrite (bind_ok _ _ _ _ _ Hc). rewrite Hc. simpl.
      split; [done|]. split; [done|].
      split; [by intros _ ->|]. split; [|done].
      intros ->. simpl. by rewrite commits_app.
    + pose proof (consume_one_handler_raised E V handlers msg handler w e w1
                    Hr Hh He) as Hc.
      simpl. rewrite (bind_ok _ _ _ _ _ Hc). rewrite Hc. simpl.
      split; [done|]. split; [done|]. split; [done|]. split; [|done].
      intros _. by rewrite app_nil_r.
Qed.

(** C6: the handler of the request at offset 7 raises, so no [commit()]
    is called for it; the handler of the next request on the partition
    returns, and the [commit()] called for it commits the position the
    consumer has reached, offset 9.  The request at offset 7 is thereby
    acknowledged although its handler raised, and is not delivered
    again. *)
Theorem commit_acknowledges_failed_record :
  let E := Scenario.task_0_unwritable in
  let handlers : gmap string (Worker.RiskMessage -> M unit) :=
    {[ "risk-analysis-requests" := Worker.handle E ]} in
  let batch := [Scenario.record; Scenario.next_record] in
  let calls :=
    commits
      (trace (snd (Worker._consume_loop E Worker.RiskMessage handlers batch
                     initial_world))) in
  is_ok (fst (Worker.handle E (Worker.value Scenario.record) initial_world))
  = false
  /\ commits
       (trace (snd (Worker.consume_one E Worker.RiskMessage handlers
                      Scenario.record initial_world))) = []
  /\ calls = [("risk-analysis-requests", 0, 8)]
  /\ Worker.committed batch calls !! ("risk-analysis-requests", 0) = Some 9
  /\ Worker.acknowledged batch calls Scenario.record = true.
Proof. vm_compute. done. Qed.

(** ** The handler's [except] block *)

Section FailurePath.

Import Worker.

Variable E : env.


End FailurePath.



(** ** The API tier *)

Section BackendFacts.

Import Backend.

Variable E : env.

Lemma verify_ownership_world request w :
  snd (verify_ownership E request w) = w.
Proof. unfold verify_ownership, bind, time_time, lift. done. Qed.



(** The API tier's status write absorbs a failing publish. *)
Lemma set_task_status_survives_publish task st p m ttl w :
  (forall v, setex_raises E ("task:status:" +:+ task) ttl v = None) ->
  fst (set_task_status E task st p m ttl w) = Ok tt
  /\ store (snd (set_task_status E task st p m ttl w))
       !! ("task:status:" +:+ task)
     = Some (clock w + ttl,
             JObj (if truthy_opt m
                   then dict_set "message" (opt_str m)
                          [("status", JStr st); ("progress", JInt p)]
                   else [("status", JStr st); ("progress", JInt p)])).
Proof.
  intros Hs.
  unfold set_task_status, bind, redis_setex, try_except,
    publish_status_update, bind, publisher_start, redis_publish, ret.
  cbv zeta. rewrite Hs.
  destruct (publisher_start_raises E); simpl;
    [by rewrite lookup_insert_eq|].
  destruct (publish_raises E _ _); simpl; by rewrite lookup_insert_eq.
Qed.

(** The key written by [cache_wallet_analysis] is built from the
    wallet address. *)
Lemma cache_wallet_analysis_key wallet analysis ttl w :
  setex_raises E ("analysis:wallet:" +:+ lower wallet)
    (match ttl with None => ANALYSIS_CACHE_TTL | Some t => t end) analysis
  = None ->
  written_keys (trace (snd (cache_wallet_analysis E wallet analysis ttl w)))
  = written_keys (trace w) ++ ["analysis:wallet:" +:+ lower wallet].
Proof.
  intros Hs. unfold cache_wallet_analysis, redis_setex. rewrite Hs. simpl.
  by rewrite written_keys_app.
Qed.

End BackendFacts.




(** ** What a broadcast delivers *)

Section BroadcastFacts.

Import ConnectionManager.

Variable send_text_raises : WebSocket -> json -> option exn.

Lemma send_all_keeps l m : forall st d x,
  In x (delivered st) ->
  In x (delivered (fst (send_all send_text_raises l m st d))).
Proof.
  induction l as [|ws l IH]; intros st d x Hx; simpl; [done|].
  unfold send_message.
  destruct (send_text_raises ws m); apply IH; simpl; [done|].
  apply in_or_app. by left.
Qed.

Lemma send_all_reaches l m : forall st d ws,
  In ws l -> send_text_raises ws m = None ->
  In (ws, m) (delivered (fst (send_all send_text_raises l m st d))).
Proof.
  induction l as [|ws' l IH]; intros st d ws Hin Hok; simpl; [done|].
  destruct Hin as [->|Hin].
  - unfold send_message. rewrite Hok. apply send_all_keeps. simpl.
    apply in_or_app. right. by left.
  - destruct (send_message send_text_raises ws' m st) as [[[]|e] st'];
      by apply IH.
Qed.

(** Every subscriber whose send does not raise receives the event,
    whatever happens to the sends to the others. *)
Lemma broadcast_reaches_live_subscribers t d st conns ws :
  active_connections st !! t = Some conns ->
  ws ∈ conns ->
  send_text_raises ws
    (JObj [("type", JStr "status_update"); ("task_id", JStr t); ("data", d)])
  = None ->
  In (ws, JObj [("type", JStr "status_update"); ("task_id", JStr t);
                ("data", d)])
    (delivered (broadcast_status_update send_text_raises t d st)).
Proof.
  intros Hac Hin Hok. unfold broadcast_status_update. rewrite Hac.
  match goal with |- context [send_all _ ?l ?m ?s ?d0] =>
    pose proof (send_all_reaches l m s d0 ws) as Hr;
    destruct (send_all_spec send_text_raises l m s d0) as (Hd & _ & _);
    destruct (send_all send_text_raises l m s d0) as [st' disc] end.
  simpl in *. subst disc. simpl. apply Hr; [|done].
  apply list_elem_of_In. by apply elem_of_elements.
Qed.

End BroadcastFacts.

(** ** The model at concrete inputs *)

Example lower_wallet :
  lower Scenario.wallet = "0x742d35cc6634c0532925a3b844bc9e7595f0beb1".
Proof. reflexivity. Qed.

Example capitalize_status : capitalize "pROCESSING" = "Processing".
Proof. reflexivity. Qed.

Example message_template :
  SignatureVerifier.MESSAGE_TEMPLATE "0xabc" 1704067201
  = "Silent Risk Analysis: 0xabc at 1704067201".
Proof. vm_compute. reflexivity. Qed.

Example ownership_accepted :
  SignatureVerifier.verify_ownership (recover_message Scenario.quiet)
    1704070000 (lower Scenario.wallet) "0xsigned"
    (SignatureVerifier.MESSAGE_TEMPLATE (lower Scenario.wallet) 1704070000)
    1704070000
  = Ok true.
Proof. vm_compute. reflexivity. Qed.

Example ownership_rejects_other_wallet :
  SignatureVerifier.unauthorized
    (SignatureVerifier.verify_ownership (recover_message Scenario.quiet)
       1704070000 "0x0000000000000000000000000000000000000001" "0xsigned"
       (SignatureVerifier.MESSAGE_TEMPLATE
          "0x0000000000000000000000000000000000000001" 1704070000)
       1704070000).
Proof. eexists. vm_compute. reflexivity. Qed.

(** A submission that misses the cache: one request on the queue, keyed
    by the commitment, then the pending status and the two links. *)
Example analyze_wallet_miss :
  let r := Backend.analyze_wallet Scenario.quiet (Scenario.request 5)
             (set_clock 5 initial_world) in
  Backend.task_id <$> (match fst r with Ok a => Some a | Raise _ => None end)
  = Some "task-0"
  /\ map (fun x => snd x) (sends (trace (snd r))) = [Scenario.commitment]
  /\ written_keys (trace (snd r))
     = ["task:status:task-0"; "task:commitment:task-0";
        "commitment:task:" +:+ Scenario.commitment].
Proof. vm_compute. done. Qed.

(** A run of the handler in which every collaborator answers. *)
Example quiet_run :
  let r := Worker.handle Scenario.quiet Scenario.message initial_world in
  fst r = Ok tt
  /\ status_writes "task-0" (trace (snd r)) = Progress.stage_writes
  /\ written_keys (trace (snd r))
     = ["task:status:task-0"; "task:status:task-0"; "task:status:task-0";
        "passport:claim:" +:+ lower Scenario.wallet;
        "task:status:task-0"; "task:result:task-0";
        "analysis:commitment:" +:+ Scenario.commitment;
        "task:status:task-0"].
Proof. vm_compute. done. Qed.

(** With the pub/sub channel down the first status write raises, and so
    does the status write of the [except] block: the handler raises. *)
Example pubsub_down_run :
  let r := Worker.handle (Scenario.scenario true true false)
             Scenario.message initial_world in
  fst r = Raise (Exception "Connection closed by server.")
  /\ status_writes "task-0" (trace (snd r))
     = [(JStr "processing", JInt 10); (JStr "failed", JInt 0)].
Proof. vm_compute. done. Qed.

Example session_result :
  let st := ConnectionManager.run Scenario.all_sockets_up Scenario.session
              ConnectionManager.empty in
  ConnectionManager.active_connections st = ∅
  /\ ConnectionManager.connection_subscriptions st = {[ 1%positive := ∅ ]}
  /\ length (ConnectionManager.delivered st) = 5%nat.
Proof. vm_compute. done. Qed.

(** ** Concrete runs *)

(** C1: [cache_wallet_analysis], a public operation of the API tier's
    cache, writes an entry whose key is built from the lower-cased
    wallet address; in the worker tier, [_cache_claim_data] does the
    same for the passport claim data. *)
Theorem cache_wallet_analysis_keys_by_wallet :
  let w' :=
    snd (Backend.cache_wallet_analysis Scenario.quiet Scenario.wallet
           Scenario.cached_analysis None initial_world) in
  let claim :=
    snd (Worker.handle Scenario.quiet Scenario.message initial_world) in
  written_keys (trace w')
  = ["analysis:wallet:0x742d35cc6634c0532925a3b844bc9e7595f0beb1"]
  /\ contains (lower Scenario.wallet)
       "analysis:wallet:0x742d35cc6634c0532925a3b844bc9e7595f0beb1" = true
  /\ store w' !! "analysis:wallet:0x742d35cc6634c0532925a3b844bc9e7595f0beb1"
     = Some (3600, Scenario.cached_analysis)
  /\ In "passport:claim:0x742d35cc6634c0532925a3b844bc9e7595f0beb1"
       (written_keys (trace claim)).
Proof.
  vm_compute. split; [done|]. split; [done|]. split; [done|]. tauto.
Qed.

(** C3: in the worker tier a failing publish makes the status write
    itself fail, although the entry has been written; the API tier's
    [set_task_status] returns normally in the same situation. *)
Theorem worker_status_write_raises_when_publish_raises :
  let pubsub_down := Scenario.scenario true true false in
  let r :=
    Worker.update_task_status pubsub_down "task-0" "processing" 10
      (Some "Request submitted") initial_world in
  fst r = Raise (Exception "Connection closed by server.")
  /\ store (snd r) !! "task:status:task-0"
     = Some (3600, JObj [("status", JStr "processing");
                         ("progress", JInt 10);
                         ("message", JStr "Request submitted")])
  /\ fst (Backend.set_task_status pubsub_down "task-0" "pending" 0
            (Some "Request submitted to analysis queue") 3600
            initial_world) = Ok tt.
Proof. vm_compute. done. Qed.

(** C4: when the send to client 1 fails during a broadcast, client 2
    still receives the event, but client 1 is not removed: it stays in
    the task's subscriber set and keeps its subscription set. *)
Theorem broadcast_keeps_failed_connection :
  let update := JObj [("status", JStr "processing"); ("progress", JInt 40)] in
  let after :=
    ConnectionManager.broadcast_status_update Scenario.socket_1_broken
      "task-0" update Scenario.two_subscribers in
  ConnectionManager.delivered after
  = ConnectionManager.delivered Scenario.two_subscribers
    ++ [(2%positive,
         JObj [("type", JStr "status_update"); ("task_id", JStr "task-0");
               ("data", update)])]
  /\ ConnectionManager.active_connections after !! "task-0"
     = Some {[1%positive; 2%positive]}
  /\ ConnectionManager.connection_subscriptions after !! 1%positive
     = Some {["task-0"]}.
Proof. vm_compute. done. Qed.


(** ** The theorems with hypotheses, at concrete inputs *)


(** The call of [commit()] at a record handled by the risk-analysis
    handler. *)
Lemma commit_called_at_record :
  commits
    (trace (snd (Worker.consume_one Scenario.quiet Worker.RiskMessage
                   {[ "risk-analysis-requests" := Worker.handle Scenario.quiet ]}
                   Scenario.record initial_world)))
  = commits
      (trace (snd (Worker.handle Scenario.quiet Scenario.message
                     initial_world)))
    ++ [("risk-analysis-requests", 0, 7)].
Proof.
  pose proof
    (commit_called_iff_handler_returns Scenario.quiet Worker.RiskMessage
       {[ "risk-analysis-requests" := Worker.handle Scenario.quiet ]}
       Scenario.record [] (Worker.handle Scenario.quiet) initial_world
       eq_refl) as H.
  destruct H as [_ H]. specialize (H eq_refl).
  destruct H as (_ & _ & _ & H & _).
  exact (H eq_refl).
Defined.


(** C9 at a session of two clients. *)
Lemma subscriptions_stay_consistent_witness :
  ConnectionManager.inverse
    (ConnectionManager.run Scenario.all_sockets_up Scenario.session
       ConnectionManager.empty)
  /\ ConnectionManager.pruned
       (ConnectionManager.run Scenario.all_sockets_up Scenario.session
          ConnectionManager.empty).
Proof.
  assert (Hw : ConnectionManager.well_ordered Scenario.all_sockets_up
                 Scenario.session ConnectionManager.empty).
  { vm_compute. repeat split; eauto. }
  pose proof
    (subscriptions_stay_consistent Scenario.all_sockets_up Scenario.session
       Hw) as H.
  destruct H as (H1 & H2 & _). split; [exact H1|exact H2].
Defined.



(** * Further properties of the code *)

(** ** Strings *)

Lemma lower_ascii_idempotent c : lower_ascii (lower_ascii c) = lower_ascii c.
Proof. by destruct c as [[] [] [] [] [] [] [] []]. Qed.

Lemma lower_idempotent s : lower (lower s) = lower s.
Proof.
  induction s as [|c s IH]; simpl; [done|].
  by rewrite lower_ascii_idempotent, IH.
Qed.

Lemma lower_app a b : lower (a +:+ b) = lower a +:+ lower b.
Proof. induction a as [|c a IH]; simpl; [done|]. by rewrite IH. Qed.

Lemma length_lower s : String.length (lower s) = String.length s.
Proof. induction s as [|c s IH]; simpl; [done|]. by rewrite IH. Qed.

Lemma append_inj a x y : a +:+ x = a +:+ y -> x = y.
Proof. induction a as [|c a IH]; simpl; [done|]. intros [= H]. by apply IH. Qed.

Lemma prefix_app x b : String.prefix x (x +:+ b) = true.
Proof.
  induction x as [|c x IH]; simpl; [by destruct b|].
  destruct (Ascii.ascii_dec c c) as [_|n]; [exact IH|by destruct n].
Qed.

Lemma contains_here x b : contains x (x +:+ b) = true.
Proof.
  destruct x as [|c x]; [by destruct b|].
  change (contains (String c x) (String c x +:+ b))
    with (String.prefix (String c x) (String c x +:+ b)
          || contains (String c x) (x +:+ b)).
  by rewrite prefix_app.
Qed.

Lemma contains_app_r x a b : contains x b = true -> contains x (a +:+ b) = true.
Proof.
  intros H. induction a as [|c a IH]; simpl; [done|].
  rewrite IH. apply orb_true_r.
Qed.

Lemma append_empty_r x : x +:+ "" = x.
Proof.
  induction x as [|c x IH]; [done|].
  change (String c (x +:+ "") = String c x). by f_equal.
Qed.

Lemma contains_end x : contains x x = true.
Proof. rewrite <- (append_empty_r x) at 2. apply contains_here. Qed.


(** ** Ownership verification *)

Section OwnershipFacts.

Import SignatureVerifier.

Variable recover_message : string -> string -> result string.

Lemma verify_timestamp_ok now ts :
  -60 <= now - ts <= 300 -> _verify_timestamp now ts = Ok tt.
Proof.
  intros H. unfold _verify_timestamp, MAX_SIGNATURE_AGE_SECONDS.
  destruct (Z.ltb_spec (now - ts) (-60)); [lia|].
  destruct (Z.gtb_spec (now - ts) 300); [lia|done].
Qed.

Lemma verify_timestamp_ok_inv now ts :
  _verify_timestamp now ts = Ok tt -> -60 <= now - ts <= 300.
Proof.
  unfold _verify_timestamp, MAX_SIGNATURE_AGE_SECONDS.
  destruct (Z.ltb_spec (now - ts) (-60)); [discriminate|].
  destruct (Z.gtb_spec (now - ts) 300); [discriminate|]. lia.
Qed.

Lemma verify_message_format_ok message wallet ts :
  _verify_message_format message wallet ts = Ok tt
  <-> lower message = lower (MESSAGE_TEMPLATE (lower wallet) ts).
Proof.
  unfold _verify_message_format.
  destruct (String.eqb_spec (lower message)
              (lower (MESSAGE_TEMPLATE (lower wallet) ts))) as [He|Hne];
    simpl; split; try done.
Qed.

End OwnershipFacts.

(** X1: ownership verification has two outcomes only: it returns [True],
    or it raises [HTTPException] with status 401.  It never returns
    [False] and never lets another exception through, whatever the
    signature recovery does. *)
Theorem verify_ownership_true_or_401
    (recover_message : string -> string -> result string)
    (now : Z) (wallet signature message : string) (timestamp : Z) :
  SignatureVerifier.verify_ownership recover_message now wallet signature
    message timestamp = Ok true
  \/ SignatureVerifier.unauthorized
       (SignatureVerifier.verify_ownership recover_message now wallet
          signature message timestamp).
Proof.
  unfold SignatureVerifier.verify_ownership, SignatureVerifier.unauthorized,
    SignatureVerifier._verify_timestamp,
    SignatureVerifier._verify_message_format,
    SignatureVerifier._recover_signer.
  destruct (_ <? _)%Z; [right; eauto|].
  destruct (_ >? _)%Z; [right; eauto|].
  destruct (negb (String.eqb (lower message) _)); [right; eauto|].
  destruct (recover_message message signature) as [r|e]; [|right; eauto].
  destruct (negb (String.eqb (lower r) (lower wallet)));
    [right; eauto|by left].
Qed.

(** X2: on ASCII text (a wallet that matches its field pattern, an
    ASCII message, a recovered address in hexadecimal), ownership
    verification succeeds exactly when the timestamp is at most 300
    seconds old and at most 60 seconds ahead, the message equals the
    template for the lower-cased wallet and the timestamp up to the case
    of its ASCII letters, and the signature recovers to the claimed
    wallet up to the case of its ASCII letters. *)
Theorem verify_ownership_accepts_iff
    (recover_message : string -> string -> result string)
    (now : Z) (wallet signature message : string) (timestamp : Z) :
  is_ascii wallet = true ->
  is_ascii message = true ->
  (forall recovered,
     recover_message message signature = Ok recovered ->
     is_ascii recovered = true) ->
  SignatureVerifier.verify_ownership recover_message now wallet signature
    message timestamp = Ok true
  <-> (-60 <= now - timestamp <= 300
       /\ lower message
          = lower (SignatureVerifier.MESSAGE_TEMPLATE (lower wallet) timestamp)
       /\ exists recovered,
            recover_message message signature = Ok recovered
            /\ lower recovered = lower wallet).
Proof.
  intros _ _ _.
  unfold SignatureVerifier.verify_ownership.
  split.
  - destruct (SignatureVerifier._verify_timestamp now timestamp) as [[]|e]
      eqn:Ht; [|discriminate].
    destruct (SignatureVerifier._verify_message_format message wallet timestamp)
      as [[]|e] eqn:Hm; [|discriminate].
    unfold SignatureVerifier._recover_signer.
    destruct (recover_message message signature) as [r|e]; [|discriminate].
    destruct (String.eqb_spec (lower r) (lower wallet)) as [He|Hne];
      [|discriminate].
    intros _. split; [by apply verify_timestamp_ok_inv|].
    split; [by apply verify_message_format_ok|]. eauto.
  - intros (Ht & Hm & r & Hr & He).
    rewrite (verify_timestamp_ok _ _ Ht).
    rewrite (proj2 (verify_message_format_ok message wallet timestamp) Hm).
    unfold SignatureVerifier._recover_signer. rewrite Hr, He.
    by rewrite String.eqb_refl.
Qed.

(** X3: the message [generate_message_to_sign] builds for a wallet and a
    timestamp is accepted, whatever the letter case in which the wallet
    is written in the request or recovered from the signature, as long
    as the timestamp is fresh and the signature recovers to the wallet. *)
Theorem generated_message_verifies
    (recover_message : string -> string -> result string)
    (now : Z) (wallet claimed recovered signature : string) (timestamp : Z) :
  -60 <= now - timestamp <= 300 ->
  lower claimed = lower wallet ->
  recover_message (Models.generate_message_to_sign wallet timestamp) signature
  = Ok recovered ->
  lower recovered = lower wallet ->
  SignatureVerifier.verify_ownership recover_message now claimed signature
    (Models.generate_message_to_sign wallet timestamp) timestamp = Ok true.
Proof.
  intros Ht Hc Hr He.
  unfold SignatureVerifier.verify_ownership.
  rewrite (verify_timestamp_ok _ _ Ht).
  unfold SignatureVerifier._verify_message_format, SignatureVerifier._recover_signer.
  unfold Models.generate_message_to_sign in *.
  rewrite Hc, String.eqb_refl. simpl negb. cbv iota.
  rewrite Hr, He. by rewrite String.eqb_refl.
Qed.

(** ** Request validators *)

Lemma prefix_cons a s1 b s2 :
  String.prefix (String a s1) (String b s2)
  = if Ascii.ascii_dec a b then String.prefix s1 s2 else false.
Proof. reflexivity. Qed.

Lemma prefix_0x_lower v :
  String.prefix "0x" v = true -> String.prefix "0x" (lower v) = true.
Proof.
  destruct v as [|c1 [|c2 v]]; [done| |].
  - rewrite prefix_cons. by destruct (Ascii.ascii_dec "0" c1).
  - rewrite !prefix_cons.
    destruct (Ascii.ascii_dec "0" c1) as [<-|]; [|done].
    destruct (Ascii.ascii_dec "x" c2) as [<-|]; [|done].
    intros _. change (lower (String "0" (String "x" v)))
      with (String "0" (String "x" (lower v))).
    rewrite !prefix_cons.
    destruct (Ascii.ascii_dec "0" "0"); [|done].
    destruct (Ascii.ascii_dec "x" "x"); [|done].
    by destruct (lower v).
Qed.

(** X4: a commitment that passes [validate_commitment] comes out
    lower-cased, still 66 characters long and starting with "0x", and
    validating it again returns it unchanged; two spellings of one
    commitment that differ in letter case only are normalised to the same
    string. *)
Theorem validate_commitment_normal_form (v c : string) :
  Models.validate_commitment v = Ok c ->
  c = lower v
  /\ String.length c = 66%nat
  /\ String.prefix "0x" c = true
  /\ Models.validate_commitment c = Ok c
  /\ (forall v', lower v' = lower v ->
        String.prefix "0x" v' = true ->
        Models.validate_commitment v' = Ok c).
Proof.
  unfold Models.validate_commitment.
  destruct (String.prefix "0x" v) eqn:Hp; [|discriminate].
  destruct (Nat.eqb_spec (String.length v) 66) as [Hl|]; [|discriminate].
  simpl. intros [= <-].
  split; [done|]. split; [by rewrite length_lower|].
  split; [by apply prefix_0x_lower|]. split.
  - rewrite (prefix_0x_lower v Hp), length_lower, Hl. simpl.
    by rewrite lower_idempotent.
  - intros v' Hv' Hp'. rewrite Hp'.
    assert (Hl' : String.length v' = 66%nat)
      by (by rewrite <- (length_lower v'), Hv', length_lower).
    rewrite Hl'. simpl. by rewrite Hv'.
Qed.

(** X5: the message [generate_message_to_sign] builds passes the
    request's [validate_message_format] for the same wallet (in any
    letter case) and timestamp. *)
Theorem generated_message_validates
    (wallet claimed : string) (timestamp : Z) :
  lower claimed = lower wallet ->
  Models.validate_message_format
    (Models.generate_message_to_sign wallet timestamp)
    (Some claimed) (Some timestamp)
  = Ok (Models.generate_message_to_sign wallet timestamp).
Proof.
  intros Hc. unfold Models.validate_message_format,
    Models.generate_message_to_sign, SignatureVerifier.MESSAGE_TEMPLATE.
  rewrite Hc.
  assert (H1 : contains (lower wallet)
                 (lower ("Silent Risk Analysis: " +:+ lower wallet +:+ " at "
                         +:+ pretty timestamp)) = true).
  { rewrite !lower_app, lower_idempotent.
    apply contains_app_r. apply contains_here. }
  assert (H2 : contains (pretty timestamp)
                 ("Silent Risk Analysis: " +:+ lower wallet +:+ " at "
                  +:+ pretty timestamp) = true).
  { do 3 apply contains_app_r. apply contains_end. }
  cbv zeta. by rewrite H1, H2.
Qed.


(** ** More on running the monad *)

Lemma bind_ok_inv {A B} (m : M A) (k : A -> M B) w b w' :
  bind m k w = (Ok b, w') ->
  exists a w1, m w = (Ok a, w1) /\ k a w1 = (Ok b, w').
Proof.
  unfold bind. destruct (m w) as [[a|e] w1]; [eauto|discriminate].
Qed.

Lemma live_insert_eq key expiry v w s :
  store w = <[key := (expiry, v)]> s ->
  clock w < expiry ->
  live key w = Some v.
Proof.
  intros Hs Hc. unfold live. rewrite Hs, lookup_insert_eq.
  by destruct (Z.ltb_spec (clock w) expiry); [|lia].
Qed.

(** ** Footprints *)

Section FootprintFacts.

Import Footprint.

Context {A B : Type}.

Lemma only_ret Q (a : A) : only Q (ret a).
Proof. intros w. exists []. by rewrite app_nil_r. Qed.

Lemma only_raise Q e : only Q (raise (A:=A) e).
Proof. intros w. exists []. by rewrite app_nil_r. Qed.

Lemma only_lift Q (r : result A) : only Q (lift r).
Proof. intros w. exists []. by rewrite app_nil_r. Qed.

Lemma only_bind Q (m : M A) (k : A -> M B) :
  only Q m -> (forall a, only Q (k a)) -> only Q (bind m k).
Proof.
  intros Hm Hk w. destruct (Hm w) as (d1 & Ht1 & Hq1).
  unfold bind. destruct (m w) as [[a|e] w1]; simpl in *.
  - destruct (Hk a w1) as (d2 & Ht2 & Hq2).
    exists (d1 ++ d2). rewrite Ht2, Ht1, app_assoc.
    split; [done|]. by apply Forall_app.
  - by exists d1.
Qed.

Lemma only_try_except Q (m : M A) (h : exn -> M A) :
  only Q m -> (forall e, only Q (h e)) -> only Q (try_except m h).
Proof.
  intros Hm Hh w. destruct (Hm w) as (d1 & Ht1 & Hq1).
  unfold try_except. destruct (m w) as [[a|e] w1]; simpl in *.
  - by exists d1.
  - destruct (Hh e w1) as (d2 & Ht2 & Hq2).
    exists (d1 ++ d2). rewrite Ht2, Ht1, app_assoc.
    split; [done|]. by apply Forall_app.
Qed.

End FootprintFacts.

Section PrimitiveFootprints.

Import Footprint.

Variable E : env.

Lemma only_setex (Q : effect -> Prop) key ttl v :
  Q (Setex key ttl v) -> only Q (redis_setex E key ttl v).
Proof.
  intros Hq w. unfold redis_setex.
  destruct (setex_raises E key ttl v); simpl.
  - exists []. by rewrite app_nil_r.
  - exists [Setex key ttl v]. split; [done|]. by constructor.
Qed.

Lemma only_get (Q : effect -> Prop) key : only Q (redis_get E key).
Proof.
  intros w. unfold redis_get. exists [].
  rewrite app_nil_r. by destruct (get_raises E key).
Qed.

Lemma only_publish (Q : effect -> Prop) ch v :
  Q (Publish ch v) -> only Q (redis_publish E ch v).
Proof.
  intros Hq w. unfold redis_publish.
  destruct (publish_raises E ch v); simpl.
  - exists []. by rewrite app_nil_r.
  - exists [Publish ch v]. split; [done|]. by constructor.
Qed.

Lemma only_send (Q : effect -> Prop) topic v key :
  Q (Send topic v key) -> only Q (send_and_wait E topic v key).
Proof.
  intros Hq w. unfold send_and_wait.
  destruct (send_raises E topic v key); simpl.
  - exists []. by rewrite app_nil_r.
  - exists [Send topic v key]. split; [done|]. by constructor.
Qed.

Lemma only_uuid4 (Q : effect -> Prop) : only Q (uuid4 E).
Proof. intros w. exists []. by rewrite app_nil_r. Qed.

Lemma only_isoformat (Q : effect -> Prop) : only Q (utcnow_isoformat E).
Proof. intros w. exists []. by rewrite app_nil_r. Qed.

Lemma only_time (Q : effect -> Prop) : only Q time_time.
Proof. intros w. exists []. by rewrite app_nil_r. Qed.

End PrimitiveFootprints.


(** ** The status endpoint *)

Section PollFacts.

Variable E : env.

Lemma live_expired key w expiry v :
  store w !! key = Some (expiry, v) -> expiry <= clock w -> live key w = None.
Proof.
  intros Hs Hc. unfold live. rewrite Hs.
  by destruct (Z.ltb_spec (clock w) expiry); [lia|].
Qed.

Lemma live_absent key w : store w !! key = None -> live key w = None.
Proof. intros Hs. unfold live. by rewrite Hs. Qed.

Lemma poll_world task_id w : snd (RiskApi.poll E task_id w) = w.
Proof.
  unfold RiskApi.poll. destruct (String.eqb task_id "cached"); [done|].
  unfold bind, Backend.get_task_status, Backend.get_task_result, redis_get.
  destruct (get_raises E ("task:status:" +:+ task_id)); [done|].
  destruct (live ("task:status:" +:+ task_id) w) as [sd|]; [|done].
  destruct (truthy sd); [|done]. simpl.
  destruct sd as [| | | | |d]; try done.
  destruct (RiskApi.is_completed d); [|done].
  destruct (get_raises E ("task:result:" +:+ task_id)); [done|].
  destruct (live ("task:result:" +:+ task_id) w) as [r|]; [|done].
  by destruct (truthy r).
Qed.

Lemma get_task_status_of_poll task_id w a :
  RiskApi.poll E task_id w = (Ok a, w) ->
  RiskApi.get_task_status E task_id w = (Ok a, w).
Proof. intros H. unfold RiskApi.get_task_status. by apply try_except_ok. Qed.

End PollFacts.

(** X6: polling never changes the cache, the queue or the clock, for any
    task id and whatever Redis does, and the only exceptions it lets out
    are [HTTPException]s. *)
Theorem polling_is_read_only (E : env) (task_id : string) (w : world) :
  snd (RiskApi.get_task_status E task_id w) = w
  /\ (forall e, fst (RiskApi.get_task_status E task_id w) = Raise e ->
        exists code detail, e = HTTPException code detail).
Proof.
  pose proof (poll_world E task_id w) as Hw.
  unfold RiskApi.get_task_status, try_except.
  destruct (RiskApi.poll E task_id w) as [[a|e] w1]; simpl in *; subst w1.
  - split; [done|]. discriminate.
  - destruct e; simpl; (split; [done|]); intros e' [= <-]; eauto.
Qed.

(** X7: a task whose status entry is absent or has expired (the two
    cannot be told apart) is answered with 404 "Task not found"; when the
    read of the status entry raises an exception [e], the answer is 500
    with "Internal server error: " followed by [str(e)]. *)
Theorem polling_unknown_task (E : env) (task_id : string) (w : world) :
  task_id <> "cached" ->
  (get_raises E ("task:status:" +:+ task_id) = None ->
   (store w !! ("task:status:" +:+ task_id) = None
    \/ exists expiry v,
         store w !! ("task:status:" +:+ task_id) = Some (expiry, v)
         /\ expiry <= clock w) ->
   RiskApi.get_task_status E task_id w
   = (Raise (HTTPException 404 "Task not found"), w))
  /\ (forall msg,
        get_raises E ("task:status:" +:+ task_id) = Some (Exception msg) ->
        RiskApi.get_task_status E task_id w
        = (Raise (HTTPException 500 ("Internal server error: " +:+ msg)), w)).
Proof.
  intros Hne.
  assert (Hc : String.eqb task_id "cached" = false)
    by (by apply String.eqb_neq).
  split.
  - intros Hg Hs.
    assert (Hl : live ("task:status:" +:+ task_id) w = None).
    { destruct Hs as [Hs|(expiry & v & Hs & He)];
        [by apply live_absent|by eapply live_expired]. }
    unfold RiskApi.get_task_status, try_except, RiskApi.poll.
    rewrite Hc. unfold bind, Backend.get_task_status, redis_get.
    by rewrite Hg, Hl.
  - intros msg Hg.
    unfold RiskApi.get_task_status, try_except, RiskApi.poll.
    rewrite Hc. unfold bind, Backend.get_task_status, redis_get.
    by rewrite Hg.
Qed.

(** ** The submission endpoint *)

Section SubmissionFacts.

Import Backend.

Variable E : env.

Lemma verify_ownership_run request w r :
  fst (verify_ownership E request w) = r ->
  verify_ownership E request w = (r, w).
Proof.
  intros H. pose proof (verify_ownership_world E request w) as Hw.
  destruct (verify_ownership E request w) as [r' w']. simpl in *. by subst.
Qed.

Lemma check_cache_forced request w :
  force_refresh request = true -> check_cache E request w = (Ok None, w).
Proof. intros H. unfold check_cache. by rewrite H. Qed.

Lemma check_cache_miss request w :
  get_raises E ("analysis:commitment:" +:+ commitment request) = None ->
  live ("analysis:commitment:" +:+ commitment request) w = None ->
  check_cache E request w = (Ok None, w).
Proof.
  intros Hg Hl. unfold check_cache.
  destruct (force_refresh request); [done|]. cbn [negb].
  unfold get_cached_commitment_analysis, bind, redis_get.
  by rewrite Hg, Hl.
Qed.

Lemma publish_request_ok c wal fr w :
  (forall v, send_raises E KAFKA_TOPIC_RISK_REQUESTS v c = None) ->
  publish_risk_analysis_request E c wal fr w
  = (Ok (uuid E (drawn w)),
     log (Send KAFKA_TOPIC_RISK_REQUESTS
            (JObj [("task_id", JStr (uuid E (drawn w)));
                   ("commitment", JStr c);
                   ("wallet_address", JStr (lower wal));
                   ("force_refresh", JBool fr);
                   ("timestamp", JStr (isoformat E (clock w)));
                   ("correlation_id", JStr (uuid E (drawn w)))]) c)
       (set_drawn (S (drawn w)) w)).
Proof.
  intros Hs. unfold publish_risk_analysis_request, bind, uuid4,
    utcnow_isoformat, try_except, send_and_wait. simpl.
  by rewrite Hs.
Qed.

(** A status write of the API tier that gets through: the entry is
    there, and nothing else is touched but the pub/sub channel. *)
Lemma set_task_status_run task st p m ttl w :
  (forall v, setex_raises E ("task:status:" +:+ task) ttl v = None) ->
  exists w',
    set_task_status E task st p m ttl w = (Ok tt, w')
    /\ store w'
       = <["task:status:" +:+ task :=
            (clock w + ttl,
             JObj (if truthy_opt m
                   then dict_set "message" (opt_str m)
                          [("status", JStr st); ("progress", JInt p)]
                   else [("status", JStr st); ("progress", JInt p)]))]>
           (store w)
    /\ clock w' = clock w
    /\ sends (trace w') = sends (trace w).
Proof.
  intros Hs.
  unfold set_task_status, bind, redis_setex, try_except,
    publish_status_update, bind, publisher_start, redis_publish, ret.
  cbv zeta. rewrite Hs.
  destruct (publisher_start_raises E); simpl.
  { eexists. split; [done|]. simpl. rewrite sends_app. simpl.
    by rewrite app_nil_r. }
  destruct (publish_raises E _ _); simpl;
    (eexists; split; [done|]; simpl; rewrite ?sends_app; simpl;
     by rewrite ?app_nil_r).
Qed.

Lemma link_run task c ttl w :
  (forall v, setex_raises E ("task:commitment:" +:+ task) ttl v = None) ->
  (forall v, setex_raises E ("commitment:task:" +:+ c) ttl v = None) ->
  link_task_to_commitment E task c ttl w
  = (Ok tt,
     set_store
       (<["commitment:task:" +:+ c := (clock w + ttl, JStr task)]>
          (<["task:commitment:" +:+ task := (clock w + ttl, JStr c)]>
             (store w)))
       (log (Setex ("commitment:task:" +:+ c) ttl (JStr task))
          (log (Setex ("task:commitment:" +:+ task) ttl (JStr c)) w))).
Proof.
  intros H1 H2. unfold link_task_to_commitment, bind, redis_setex.
  rewrite H1. simpl. by rewrite H2.
Qed.

End SubmissionFacts.


(** X8: a submission whose ownership check does not succeed is answered
    with 401 and leaves the system as it was: nothing is read from or
    written to the cache and nothing is sent to the queue. *)
Theorem analyze_wallet_rejects_unverified
    (E : env) (request : Backend.RiskAnalysisRequest) (w : world) :
  SignatureVerifier.verify_ownership (recover_message E) (clock w)
    (Backend.wallet_address request) (Backend.signature request)
    (Backend.message request) (Backend.timestamp request) <> Ok true ->
  exists detail,
    Backend.analyze_wallet E request w
    = (Raise (HTTPException SignatureVerifier.HTTP_401_UNAUTHORIZED detail),
       w).
Proof.
  intros Hv.
  unfold Backend.analyze_wallet, try_except, bind at 1,
    Backend.verify_ownership, bind, time_time, lift.
  revert Hv.
  unfold SignatureVerifier.verify_ownership,
    SignatureVerifier._verify_timestamp,
    SignatureVerifier._verify_message_format,
    SignatureVerifier._recover_signer.
  destruct (_ <? _)%Z; [eauto|].
  destruct (_ >? _)%Z; [eauto|].
  destruct (negb (String.eqb (lower (Backend.message request)) _)); [eauto|].
  destruct (recover_message E _ _) as [r|e]; [|eauto].
  destruct (negb (String.eqb (lower r) _)); [eauto|done].
Qed.

(** The run of a verified submission that misses the cache. *)
Lemma analyze_wallet_miss_run
    (E : env) (request : Backend.RiskAnalysisRequest) (w : world) :
  let task := uuid E (drawn w) in
  let c := Backend.commitment request in
  fst (Backend.verify_ownership E request w) = Ok true ->
  Backend.check_cache E request w = (Ok None, w) ->
  (forall v, send_raises E Backend.KAFKA_TOPIC_RISK_REQUESTS v c = None) ->
  (forall key v, setex_raises E key 3600 v = None) ->
  exists w',
    Backend.analyze_wallet E request w
    = (Ok {| Backend.task_id := task;
             Backend.status := Backend.PENDING;
             Backend.progress := 0;
             Backend.result := None;
             Backend.response_message :=
               Some ("Analysis request submitted successfully. "
                     +:+ "Use task_id to poll for results.") |}, w')
    /\ sends (trace w')
       = sends (trace w)
         ++ [(Backend.KAFKA_TOPIC_RISK_REQUESTS,
              JObj [("task_id", JStr task);
                    ("commitment", JStr c);
                    ("wallet_address",
                     JStr (lower (Backend.wallet_address request)));
                    ("force_refresh", JBool (Backend.force_refresh request));
                    ("timestamp", JStr (isoformat E (clock w)));
                    ("correlation_id", JStr task)], c)]
    /\ live ("task:commitment:" +:+ task) w' = Some (JStr c)
    /\ live ("commitment:task:" +:+ c) w' = Some (JStr task)
    /\ (task <> "cached" ->
        get_raises E ("task:status:" +:+ task) = None ->
        RiskApi.get_task_status E task w'
        = (Ok [("task_id", JStr task); ("status", JStr "pending");
               ("progress", JInt 0)], w')).
Proof.
  intros task c Hv Hcc Hsend Hsetex.
  pose proof (publish_request_ok E c (Backend.wallet_address request)
                (Backend.force_refresh request) w Hsend) as Hpub.
  fold task in Hpub.
  set (w1 := log _ (set_drawn (S (drawn w)) w)) in Hpub.
  destruct (set_task_status_run E task "pending" 0
              (Some "Request submitted to analysis queue") 3600 w1
              (fun v => Hsetex _ v))
    as (w2 & Hst & Hstore2 & Hclock2 & Hsends2).
  pose proof (link_run E task c 3600 w2
                (fun v => Hsetex _ v) (fun v => Hsetex _ v)) as Hlink.
  set (w3 := set_store _ _) in Hlink.
  exists w3.
  assert (Hclock3 : clock w3 = clock w) by (by subst w3; simpl; rewrite Hclock2).
  split; [|split; [|split; [|split]]].
  - unfold Backend.analyze_wallet.
    apply try_except_ok.
    rewrite (bind_ok _ _ _ _ _ (verify_ownership_run E request w _ Hv)).
    rewrite (bind_ok _ _ _ _ _ Hcc). cbv iota.
    fold c. rewrite (bind_ok _ _ _ _ _ Hpub).
    rewrite (bind_ok _ _ _ _ _ Hst).
    by rewrite (bind_ok _ _ _ _ _ Hlink).
  - subst w3. simpl. rewrite !sends_app. simpl. rewrite !app_nil_r.
    rewrite Hsends2. subst w1. simpl. by rewrite sends_app.
  - unfold live. subst w3. simpl.
    destruct (decide ("commitment:task:" +:+ c = "task:commitment:" +:+ task))
      as [He|Hne].
    + discriminate He.
    + rewrite lookup_insert_ne by done. rewrite lookup_insert_eq.
      rewrite Hclock2. subst w1. simpl.
      by destruct (Z.ltb_spec (clock w) (clock w + 3600)); [|lia].
  - unfold live. subst w3. simpl. rewrite lookup_insert_eq.
    rewrite Hclock2. subst w1. simpl.
    by destruct (Z.ltb_spec (clock w) (clock w + 3600)); [|lia].
  - intros Hnc Hg.
    apply get_task_status_of_poll. unfold RiskApi.poll.
    apply String.eqb_neq in Hnc. rewrite Hnc.
    unfold bind, Backend.get_task_status, redis_get. rewrite Hg.
    assert (Hl : live ("task:status:" +:+ task) w3
                 = Some (JObj (dict_set "message"
                                 (JStr "Request submitted to analysis queue")
                                 [("status", JStr "pending");
                                  ("progress", JInt 0)]))).
    { unfold live. subst w3. simpl.
      rewrite lookup_insert_ne by (intros He; discriminate He).
      rewrite lookup_insert_ne by (intros He; discriminate He).
      rewrite Hstore2, lookup_insert_eq, Hclock2. subst w1. simpl.
      by destruct (Z.ltb_spec (clock w) (clock w + 3600)); [|lia]. }
    by rewrite Hl.
Qed.

(** X9: a verified submission that is forced, or finds no live cached
    analysis, and whose queue and cache calls get through, returns a
    pending response under a fresh task id; exactly one request is put
    on the queue, keyed by the commitment; the task and the commitment
    are linked in both directions; and polling that task id right away
    answers "pending" with progress 0. *)
Theorem analyze_wallet_submits
    (E : env) (request : Backend.RiskAnalysisRequest) (w : world) :
  let task := uuid E (drawn w) in
  let c := Backend.commitment request in
  fst (Backend.verify_ownership E request w) = Ok true ->
  (Backend.force_refresh request = true
   \/ (get_raises E ("analysis:commitment:" +:+ c) = None
       /\ live ("analysis:commitment:" +:+ c) w = None)) ->
  (forall v, send_raises E Backend.KAFKA_TOPIC_RISK_REQUESTS v c = None) ->
  (forall key v, setex_raises E key 3600 v = None) ->
  exists w',
    Backend.analyze_wallet E request w
    = (Ok {| Backend.task_id := task;
             Backend.status := Backend.PENDING;
             Backend.progress := 0;
             Backend.result := None;
             Backend.response_message :=
               Some ("Analysis request submitted successfully. "
                     +:+ "Use task_id to poll for results.") |}, w')
    /\ sends (trace w')
       = sends (trace w)
         ++ [(Backend.KAFKA_TOPIC_RISK_REQUESTS,
              JObj [("task_id", JStr task);
                    ("commitment", JStr c);
                    ("wallet_address",
                     JStr (lower (Backend.wallet_address request)));
                    ("force_refresh", JBool (Backend.force_refresh request));
                    ("timestamp", JStr (isoformat E (clock w)));
                    ("correlation_id", JStr task)], c)]
    /\ live ("task:commitment:" +:+ task) w' = Some (JStr c)
    /\ live ("commitment:task:" +:+ c) w' = Some (JStr task)
    /\ (task <> "cached" ->
        get_raises E ("task:status:" +:+ task) = None ->
        RiskApi.get_task_status E task w'
        = (Ok [("task_id", JStr task); ("status", JStr "pending");
               ("progress", JInt 0)], w')).
Proof.
  intros task c Hv Hmiss Hsend Hsetex.
  apply analyze_wallet_miss_run; try done.
  destruct Hmiss as [Hf|[Hg Hl]];
    [by apply check_cache_forced|by apply check_cache_miss].
Qed.

Section SubmissionFootprint.

Import Footprint.

Variable E : env.

Lemma only_publisher_start (Q : effect -> Prop) :
  only Q (Backend.publisher_start E).
Proof.
  intros w. unfold Backend.publisher_start. exists [].
  rewrite app_nil_r. by destruct (publisher_start_raises E).
Qed.

Lemma only_backend_set_task_status (Q : effect -> Prop) task st p m ttl :
  (forall v, Q (Setex ("task:status:" +:+ task) ttl v)) ->
  (forall v, Q (Publish Backend.PUBSUB_CHANNEL v)) ->
  only Q (Backend.set_task_status E task st p m ttl).
Proof.
  intros Hs Hp. unfold Backend.set_task_status. cbv zeta.
  apply only_bind; [by apply only_setex|]. intros _.
  apply only_try_except; [|intros; apply only_ret].
  unfold Backend.publish_status_update.
  apply only_bind; [apply only_publisher_start|]. intros _. cbv zeta.
  apply only_try_except; [|intros; apply only_ret].
  by apply only_publish.
Qed.

End SubmissionFootprint.

(** X10: whatever the request and whatever Redis and Kafka do, a
    submission touches nothing but its own entries: it writes only
    status entries, the two links between a task and this commitment,
    publishes only on the status channel, sends only to the request
    topic under this commitment as key, never deletes a key and never
    writes an analysis.  The only exceptions it lets out are
    [HTTPException]s. *)
Theorem analyze_wallet_footprint
    (E : env) (request : Backend.RiskAnalysisRequest) :
  Footprint.only (Footprint.of_submission request)
    (Backend.analyze_wallet E request)
  /\ (forall w e,
        fst (Backend.analyze_wallet E request w) = Raise e ->
        exists code detail, e = HTTPException code detail).
Proof.
  split.
  - unfold Backend.analyze_wallet.
    apply only_try_except;
      [|intros []; (apply only_raise)].
    apply only_bind.
    { unfold Backend.verify_ownership.
      apply only_bind; [apply only_time|]. intros; apply only_lift. }
    intros _. apply only_bind.
    { unfold Backend.check_cache.
      destruct (negb _); [|apply only_ret].
      apply only_bind; [apply only_get|].
      intros [cached|]; [|apply only_ret].
      destruct (truthy cached); [|apply only_ret].
      apply only_bind; [|intros; apply only_ret].
      destruct cached; first [apply only_ret | apply only_raise]. }
    intros [response|]; [apply only_ret|].
    apply only_bind.
    { unfold Backend.publish_risk_analysis_request.
      apply only_bind; [apply only_uuid4|]. intros task.
      apply only_bind; [apply only_isoformat|]. intros now. cbv zeta.
      apply only_try_except; [|intros; apply only_raise].
      apply only_bind; [|intros; apply only_ret].
      by apply only_send. }
    intros task. apply only_bind.
    { apply only_backend_set_task_status; [|done].
      intros v. left. by exists task. }
    intros _. apply only_bind; [|intros; apply only_ret].
    unfold Backend.link_task_to_commitment.
    apply only_bind; [|intros _]; apply only_setex.
    + right; left. by exists task.
    + right; by right.
  - intros w e. unfold Backend.analyze_wallet, try_except.
    destruct (bind _ _ w) as [[a|e'] w1]; [discriminate|].
    destruct e'; simpl; intros [= <-]; eauto.
Qed.

(** X11: the request is queued before the task is recorded.  When the
    status write of a verified, uncached submission raises, the client
    gets a 500 and no task id, the cache is left as it was, and the
    request is on the queue all the same. *)
Theorem analyze_wallet_queues_before_recording
    (E : env) (request : Backend.RiskAnalysisRequest) (w : world)
    (e : exn) :
  let task := uuid E (drawn w) in
  let c := Backend.commitment request in
  fst (Backend.verify_ownership E request w) = Ok true ->
  (Backend.force_refresh request = true
   \/ (get_raises E ("analysis:commitment:" +:+ c) = None
       /\ live ("analysis:commitment:" +:+ c) w = None)) ->
  (forall v, send_raises E Backend.KAFKA_TOPIC_RISK_REQUESTS v c = None) ->
  (forall v, setex_raises E ("task:status:" +:+ task) 3600 v = Some e) ->
  (forall code detail, e <> HTTPException code detail) ->
  exists w',
    Backend.analyze_wallet E request w
    = (Raise (HTTPException Backend.HTTP_500_INTERNAL_SERVER_ERROR
                ("Internal server error: " +:+ str_exn e)), w')
    /\ store w' = store w
    /\ sends (trace w')
       = sends (trace w)
         ++ [(Backend.KAFKA_TOPIC_RISK_REQUESTS,
              JObj [("task_id", JStr task);
                    ("commitment", JStr c);
                    ("wallet_address",
                     JStr (lower (Backend.wallet_address request)));
                    ("force_refresh", JBool (Backend.force_refresh request));
                    ("timestamp", JStr (isoformat E (clock w)));
                    ("correlation_id", JStr task)], c)].
Proof.
  intros task c Hv Hmiss Hsend Hsetex Hne.
  assert (Hcc : Backend.check_cache E request w = (Ok None, w)).
  { destruct Hmiss as [Hf|[Hg Hl]];
      [by apply check_cache_forced|by apply check_cache_miss]. }
  pose proof (publish_request_ok E c (Backend.wallet_address request)
                (Backend.force_refresh request) w Hsend) as Hpub.
  fold task in Hpub.
  set (w1 := log _ (set_drawn (S (drawn w)) w)) in Hpub.
  exists w1. split; [|split].
  - unfold Backend.analyze_wallet.
    assert (Hbody :
      forall k : unit -> M Backend.TaskResponse,
        bind (Backend.set_task_status E task "pending" 0
                (Some "Request submitted to analysis queue") 3600) k w1
        = (Raise e, w1)).
    { intros k. unfold bind at 1, Backend.set_task_status, bind, redis_setex.
      cbv zeta. by rewrite Hsetex. }
    unfold try_except.
    rewrite (bind_ok _ _ _ _ _ (verify_ownership_run E request w _ Hv)).
    rewrite (bind_ok _ _ _ _ _ Hcc). cbv iota.
    fold c. rewrite (bind_ok _ _ _ _ _ Hpub).
    rewrite Hbody.
    destruct e as [code detail| | |]; try done.
    by destruct (Hne code detail).
  - done.
  - subst w1. simpl. by rewrite sends_app.
Qed.


(** ** The handler: what it touches, and what a finished task leaves *)

Section HandlerFootprint.

Import Footprint Worker.

Variable E : env.

Lemma only_update_task_status (Q : effect -> Prop) t s p m :
  (forall v, Q (Setex ("task:status:" +:+ t) 3600 v)) ->
  (forall v, Q (Publish REDIS_PUBSUB_CHANNEL v)) ->
  only Q (update_task_status E t s p m).
Proof.
  intros Hs Hp. unfold update_task_status. cbv zeta.
  apply only_bind; [by apply only_setex|]. intros _. by apply only_publish.
Qed.

Lemma only_publish_result (Q : effect -> Prop) t s r err :
  (forall v, Q (Send KAFKA_TOPIC_RISK_RESULTS v t)) ->
  only Q (publish_risk_analysis_result E t s r err).
Proof.
  intros Hs. unfold publish_risk_analysis_result.
  apply only_bind; [apply only_isoformat|]. intros now. cbv zeta.
  apply only_try_except; [by apply only_send|intros; apply only_raise].
Qed.

Lemma only_passport_stage (Q : effect -> Prop) c wal score ra :
  (forall v, Q (Setex ("passport:claim:" +:+ lower wal) 86400 v)) ->
  only Q (passport_stage E c wal score ra).
Proof.
  intros Hs. unfold passport_stage.
  apply only_try_except; [|intros; apply only_ret].
  apply only_bind; [|intros; apply only_ret].
  unfold create_passport. cbv zeta.
  apply only_try_except; [|intros; apply only_raise].
  apply only_bind; [apply only_lift|]. intros block.
  apply only_bind; [|intros; apply only_ret].
  unfold _cache_claim_data. cbv zeta. by apply only_setex.
Qed.

Lemma only_handle (Q : effect -> Prop) message :
  (forall v, Q (Setex ("task:status:" +:+ task_id message) 3600 v)) ->
  (forall v, Q (Setex ("task:result:" +:+ task_id message) 3600 v)) ->
  (forall v,
     Q (Setex ("analysis:commitment:" +:+ commitment message) 3600 v)) ->
  (forall v,
     Q (Setex ("passport:claim:" +:+ lower (wallet_address message)) 86400
          v)) ->
  (forall v, Q (Publish REDIS_PUBSUB_CHANNEL v)) ->
  (forall v, Q (Send KAFKA_TOPIC_RISK_RESULTS v (task_id message))) ->
  only Q (handle E message).
Proof.
  intros Hstatus Hresult Hanalysis Hclaim Hpub Hsend.
  assert (Hst : forall s p m,
            only Q (update_task_status E (task_id message) s p m)).
  { intros. by apply only_update_task_status. }
  assert (Hres : forall s r err,
            only Q (publish_risk_analysis_result E (task_id message) s r
                      err)).
  { intros. by apply only_publish_result. }
  unfold handle. apply only_try_except.
  - unfold pipeline. cbv zeta.
    apply only_bind; [apply Hst|intros _].
    apply only_bind; [apply only_lift|intros summary].
    apply only_bind; [apply Hst|intros _].
    apply only_bind; [apply only_lift|intros analysis].
    apply only_bind; [apply Hst|intros _].
    apply only_bind; [by apply only_passport_stage|intros analysis'].
    apply only_bind; [apply Hst|intros _].
    apply only_bind; [apply Hres|intros _].
    apply only_bind; [by apply only_setex|intros _].
    apply only_bind; [|intros _; apply Hst].
    unfold cache_commitment_analysis. by apply only_setex.
  - intros e. unfold on_failure.
    apply only_bind; [apply Hres|intros _; apply Hst].
Qed.

End HandlerFootprint.

(** X12: whatever the message and whatever the collaborators do, the
    risk-analysis handler touches nothing but its own entries: it writes
    only the status and the result of its task, the analysis of its
    commitment and the passport claim of its wallet; it publishes only on
    the status channel, sends only to the result topic under its task id,
    deletes no key and commits no offset. *)
Theorem handle_footprint (E : env) (message : Worker.RiskMessage) :
  Footprint.only (Footprint.of_handler message) (Worker.handle E message).
Proof.
  apply only_handle; intros v; simpl.
  - by left.
  - right; by left.
  - right; right; by left.
  - right; right; by right.
  - done.
  - done.
Qed.

Section PipelineInversion.

Import Footprint Worker.

Variable E : env.

Lemma quiet_step_refl w : quiet_step w w.
Proof. done. Qed.

Lemma quiet_step_trans w1 w2 w3 :
  quiet_step w1 w2 -> quiet_step w2 w3 -> quiet_step w1 w3.
Proof. intros [? ?] [? ?]. split; congruence. Qed.

Lemma lift_ok_inv {A} (r : result A) w a w' :
  lift r w = (Ok a, w') -> r = Ok a /\ w' = w.
Proof. unfold lift. by intros [= -> ->]. Qed.

Lemma update_task_status_ok_inv t s p m w w' :
  update_task_status E t s p m w = (Ok tt, w') ->
  quiet_step w w'
  /\ store w'
     = <["task:status:" +:+ t :=
          (clock w + 3600,
           JObj [("status", JStr s); ("progress", JInt p);
                 ("message", opt_str m)])]> (store w).
Proof.
  destruct (update_task_status_cases E t s p m w) as [[e H]|[[e H]|[ev H]]];
    rewrite H; [discriminate|discriminate|].
  intros [= <-]. split; [split|]; simpl; [done| |done].
  rewrite !sends_app. simpl. by rewrite !app_nil_r.
Qed.

Lemma setex_ok_inv key ttl v w w' :
  redis_setex E key ttl v w = (Ok tt, w') ->
  quiet_step w w' /\ store w' = <[key := (clock w + ttl, v)]> (store w).
Proof.
  unfold redis_setex. destruct (setex_raises E key ttl v); [discriminate|].
  intros [= <-]. split; [split|]; simpl; [done| |done].
  rewrite sends_app. simpl. by rewrite app_nil_r.
Qed.

Lemma publish_result_ok_inv task s r err w w' :
  publish_risk_analysis_result E task s r err w = (Ok tt, w') ->
  w' = log (Send KAFKA_TOPIC_RISK_RESULTS
              (JObj [("task_id", JStr task); ("status", JStr s);
                     ("result",
                      match r with Some d => JObj d | None => JNull end);
                     ("error", opt_str err);
                     ("processed_at", JStr (isoformat E (clock w)))])
              task) w.
Proof.
  unfold publish_risk_analysis_result, bind, utcnow_isoformat, try_except,
    send_and_wait, raise.
  destruct (send_raises E _ _ _); [discriminate|]. by intros [= <-].
Qed.

Lemma create_passport_quiet c wal score w :
  quiet_step w (snd (create_passport E c wal score w)).
Proof.
  unfold create_passport, try_except, bind, lift, _cache_claim_data,
    redis_setex, raise, ret.
  destruct (current_block E); simpl; [|done].
  destruct (setex_raises _ _ _ _); simpl; [done|].
  split; simpl; [done|]. rewrite sends_app. simpl. by rewrite app_nil_r.
Qed.

(** The outcome of the passport stage: the analysis with a [passport]
    entry that says whether the passport is ready. *)
Lemma passport_stage_inv c wal score ra w ra' w' :
  passport_stage E c wal score ra w = (Ok ra', w') ->
  quiet_step w w'
  /\ exists entry,
       ra' = dict_set "passport" (JObj entry) ra
       /\ (dict_get "status" entry = Some (JStr "ready_to_claim")
           \/ dict_get "status" entry = Some (JStr "generation_failed")).
Proof.
  pose proof (create_passport_quiet c wal score w) as Hq.
  unfold passport_stage, try_except, bind, ret.
  destruct (create_passport E c wal score w) as [[pd|e] w1]; simpl in Hq;
    intros [= <- <-]; (split; [done|]); eexists; (split; [reflexivity|]).
  - by left.
  - by right.
Qed.

(** What a run of the pipeline that reaches its end has done. *)
Lemma pipeline_ok_inv msg w w' :
  pipeline E msg w = (Ok tt, w') ->
  exists summary analysis entry,
    indexer_summary E (wallet_address msg) "ethereum" = Ok summary
    /\ calculator_risk E (wallet_address msg) summary = Ok analysis
    /\ (dict_get "status" entry = Some (JStr "ready_to_claim")
        \/ dict_get "status" entry = Some (JStr "generation_failed"))
    /\ clock w' = clock w
    /\ store w' !! ("task:result:" +:+ task_id msg)
       = Some (clock w + 3600,
               JObj (dict_set "passport" (JObj entry) analysis))
    /\ store w' !! ("analysis:commitment:" +:+ commitment msg)
       = Some (clock w + 3600,
               JObj (dict_set "passport" (JObj entry) analysis))
    /\ store w' !! ("task:status:" +:+ task_id msg)
       = Some (clock w + 3600,
               JObj [("status", JStr "completed"); ("progress", JInt 100);
                     ("message", JStr "Analysis complete!")])
    /\ sends (trace w')
       = sends (trace w)
         ++ [(KAFKA_TOPIC_RISK_RESULTS,
              JObj [("task_id", JStr (task_id msg));
                    ("status", JStr "completed");
                    ("result",
                     JObj (dict_set "passport" (JObj entry) analysis));
                    ("error", JNull);
                    ("processed_at", JStr (isoformat E (clock w)))],
              task_id msg)].
Proof.
  unfold pipeline. cbv zeta. intros H.
  apply bind_ok_inv in H as ([] & w1 & H1 & H).
  apply update_task_status_ok_inv in H1 as [[Hc1 Hs1] _].
  apply bind_ok_inv in H as (summary & w2 & H2 & H).
  apply lift_ok_inv in H2 as [Hsum ->].
  apply bind_ok_inv in H as ([] & w3 & H3 & H).
  apply update_task_status_ok_inv in H3 as [[Hc3 Hs3] _].
  apply bind_ok_inv in H as (analysis & w4 & H4 & H).
  apply lift_ok_inv in H4 as [Han ->].
  apply bind_ok_inv in H as ([] & w5 & H5 & H).
  apply update_task_status_ok_inv in H5 as [[Hc5 Hs5] _].
  apply bind_ok_inv in H as (payload & w6 & H6 & H).
  apply passport_stage_inv in H6 as [[Hc6 Hs6] (entry & -> & Hentry)].
  apply bind_ok_inv in H as ([] & w7 & H7 & H).
  apply update_task_status_ok_inv in H7 as [[Hc7 Hs7] _].
  apply bind_ok_inv in H as ([] & w8 & H8 & H).
  apply publish_result_ok_inv in H8.
  apply bind_ok_inv in H as ([] & w9 & H9 & H).
  apply setex_ok_inv in H9 as [[Hc9 Hs9] Hst9].
  apply bind_ok_inv in H as ([] & w10 & H10 & H).
  apply setex_ok_inv in H10 as [[Hc10 Hs10] Hst10].
  apply update_task_status_ok_inv in H as [[Hc11 Hs11] Hst11].
  assert (Hc7' : clock w7 = clock w) by congruence.
  assert (Hc8 : clock w8 = clock w) by (by rewrite H8).
  assert (Hc9' : clock w9 = clock w) by congruence.
  assert (Hc10' : clock w10 = clock w) by congruence.
  exists summary, analysis, entry.
  split; [done|]. split; [done|]. split; [done|].
  split; [congruence|].
  rewrite Hst11, Hst10, Hst9, Hc10', Hc9', Hc8.
  split; [|split; [|split]].
  - rewrite lookup_insert_ne by (intros He; discriminate He).
    rewrite lookup_insert_ne by (intros He; discriminate He).
    by rewrite lookup_insert_eq.
  - rewrite lookup_insert_ne by (intros He; discriminate He).
    by rewrite lookup_insert_eq.
  - by rewrite lookup_insert_eq.
  - rewrite Hs11, Hs10, Hs9, H8. simpl. rewrite sends_app. simpl.
    rewrite Hs7, Hs6, Hs5, Hs3, Hs1, Hc7'. done.
Qed.

End PipelineInversion.


(** X13: a run of the handler's pipeline that reaches its end has
    written one and the same payload three times: as the result of the
    task, as the analysis of the commitment (both expiring 3600 seconds
    later) and in the one message it sent to the result topic.  The
    payload is the calculator's analysis with a [passport] entry whose
    status is "ready_to_claim" or "generation_failed", and the status of
    the task is "completed" with progress 100. *)
Theorem pipeline_success_writes_one_payload
    (E : env) (msg : Worker.RiskMessage) (w w' : world) :
  Worker.pipeline E msg w = (Ok tt, w') ->
  exists (summary analysis entry : dict),
    let payload := JObj (dict_set "passport" (JObj entry) analysis) in
    indexer_summary E (Worker.wallet_address msg) "ethereum" = Ok summary
    /\ calculator_risk E (Worker.wallet_address msg) summary = Ok analysis
    /\ (dict_get "status" entry = Some (JStr "ready_to_claim")
        \/ dict_get "status" entry = Some (JStr "generation_failed"))
    /\ store w' !! ("task:result:" +:+ Worker.task_id msg)
       = Some (clock w + 3600, payload)
    /\ store w' !! ("analysis:commitment:" +:+ Worker.commitment msg)
       = Some (clock w + 3600, payload)
    /\ store w' !! ("task:status:" +:+ Worker.task_id msg)
       = Some (clock w + 3600,
               JObj [("status", JStr "completed"); ("progress", JInt 100);
                     ("message", JStr "Analysis complete!")])
    /\ sends (trace w')
       = sends (trace w)
         ++ [(Worker.KAFKA_TOPIC_RISK_RESULTS,
              JObj [("task_id", JStr (Worker.task_id msg));
                    ("status", JStr "completed");
                    ("result", payload);
                    ("error", JNull);
                    ("processed_at", JStr (isoformat E (clock w)))],
              Worker.task_id msg)].
Proof.
  intros H.
  destruct (pipeline_ok_inv E msg w w' H)
    as (summary & analysis & entry & Hsum & Han & Hentry & _ & Hr & Hc & Hs
        & Hsend).
  exists summary, analysis, entry. cbv zeta. eauto 10.
Qed.


Section FailureInversion.

Import Worker.

Variable E : env.

Lemma on_failure_ok_inv msg e w w' :
  on_failure E msg e w = (Ok tt, w') ->
  clock w' = clock w
  /\ store w'
     = <["task:status:" +:+ task_id msg :=
          (clock w + 3600,
           JObj [("status", JStr "failed"); ("progress", JInt 0);
                 ("message", JStr ("Analysis failed: " +:+ str_exn e))])]>
         (store w).
Proof.
  unfold on_failure. intros H.
  apply bind_ok_inv in H as ([] & w1 & H1 & H).
  apply publish_result_ok_inv in H1. subst w1.
  apply update_task_status_ok_inv in H as [[Hc _] Hs]. done.
Qed.

End FailureInversion.

(** X15: when the pipeline raises and the [except] block gets its
    writes through, the task polls as "failed" with progress 0 for the
    next hour; the response carries neither a result nor the error
    text. *)
Theorem failed_task_polls_failed
    (E B : env) (msg : Worker.RiskMessage) (w w1 : world) (e : exn)
    (later : Z) :
  Worker.pipeline E msg w = (Raise e, w1) ->
  fst (Worker.on_failure E msg e w1) = Ok tt ->
  clock w1 <= later < clock w1 + 3600 ->
  Worker.task_id msg <> "cached" ->
  get_raises B ("task:status:" +:+ Worker.task_id msg) = None ->
  let w' := set_clock later (snd (Worker.handle E msg w)) in
  RiskApi.get_task_status B (Worker.task_id msg) w'
  = (Ok [("task_id", JStr (Worker.task_id msg));
         ("status", JStr "failed"); ("progress", JInt 0)], w').
Proof.
  intros Hp Hf Hlater Hnc Hget w'. subst w'.
  unfold Worker.handle, try_except. rewrite Hp.
  destruct (Worker.on_failure E msg e w1) as [r w2] eqn:Hof.
  simpl in Hf. subst r. simpl.
  apply on_failure_ok_inv in Hof as [Hc Hs].
  apply get_task_status_of_poll. unfold RiskApi.poll.
  apply String.eqb_neq in Hnc. rewrite Hnc.
  unfold bind, Backend.get_task_status, redis_get, live.
  rewrite Hget. simpl. rewrite Hs, lookup_insert_eq.
  by destruct (Z.ltb_spec later (clock w1 + 3600)) as [_|]; [|lia].
Qed.


(** ** The consumer loop *)

Section SteadyFacts.

Import Footprint.

Context {A B : Type}.

Lemma steady_ret (a : A) : steady (ret a).
Proof. done. Qed.

Lemma steady_raise e : steady (raise (A:=A) e).
Proof. done. Qed.

Lemma steady_lift (r : result A) : steady (lift r).
Proof. done. Qed.

Lemma steady_bind (m : M A) (k : A -> M B) :
  steady m -> (forall a, steady (k a)) -> steady (bind m k).
Proof.
  intros Hm Hk w. specialize (Hm w). unfold bind.
  destruct (m w) as [[a|e] w1]; simpl in *; [|done].
  by rewrite Hk.
Qed.

Lemma steady_try_except (m : M A) (h : exn -> M A) :
  steady m -> (forall e, steady (h e)) -> steady (try_except m h).
Proof.
  intros Hm Hh w. specialize (Hm w). unfold try_except.
  destruct (m w) as [[a|e] w1]; simpl in *; [done|].
  by rewrite Hh.
Qed.

End SteadyFacts.

Section HandlerSteady.

Import Footprint Worker.

Variable E : env.

Lemma steady_setex key ttl v : steady (redis_setex E key ttl v).
Proof. intros w. unfold redis_setex. by destruct (setex_raises E key ttl v). Qed.

Lemma steady_publish ch v : steady (redis_publish E ch v).
Proof. intros w. unfold redis_publish. by destruct (publish_raises E ch v). Qed.

Lemma steady_send topic v key : steady (send_and_wait E topic v key).
Proof.
  intros w. unfold send_and_wait. by destruct (send_raises E topic v key).
Qed.

Lemma steady_update_task_status t s p m :
  steady (update_task_status E t s p m).
Proof.
  unfold update_task_status. cbv zeta.
  apply steady_bind; [apply steady_setex|intros _; apply steady_publish].
Qed.

Lemma steady_publish_result t s r err :
  steady (publish_risk_analysis_result E t s r err).
Proof.
  unfold publish_risk_analysis_result.
  apply steady_bind; [done|]. intros now. cbv zeta.
  apply steady_try_except; [apply steady_send|intros; apply steady_raise].
Qed.

Lemma steady_passport_stage c wal score ra :
  steady (passport_stage E c wal score ra).
Proof.
  unfold passport_stage.
  apply steady_try_except; [|intros; apply steady_ret].
  apply steady_bind; [|intros; apply steady_ret].
  unfold create_passport. cbv zeta.
  apply steady_try_except; [|intros; apply steady_raise].
  apply steady_bind; [apply steady_lift|]. intros block.
  apply steady_bind; [|intros; apply steady_ret].
  unfold _cache_claim_data. cbv zeta. apply steady_setex.
Qed.

Lemma steady_handle message : steady (handle E message).
Proof.
  unfold handle. apply steady_try_except.
  - unfold pipeline. cbv zeta.
    apply steady_bind; [apply steady_update_task_status|intros _].
    apply steady_bind; [apply steady_lift|intros summary].
    apply steady_bind; [apply steady_update_task_status|intros _].
    apply steady_bind; [apply steady_lift|intros analysis].
    apply steady_bind; [apply steady_update_task_status|intros _].
    apply steady_bind; [apply steady_passport_stage|intros analysis'].
    apply steady_bind; [apply steady_update_task_status|intros _].
    apply steady_bind; [apply steady_publish_result|intros _].
    apply steady_bind; [apply steady_setex|intros _].
    apply steady_bind; [apply steady_setex|intros _].
    apply steady_update_task_status.
  - intros e. unfold on_failure.
    apply steady_bind;
      [apply steady_publish_result|intros _; apply steady_update_task_status].
Qed.

(** With the cache, the channel and the queue up, the handler returns
    whatever the analysis does. *)
Lemma handle_returns message w :
  (forall key ttl v, setex_raises E key ttl v = None) ->
  (forall ch v, publish_raises E ch v = None) ->
  (forall topic v k, send_raises E topic v k = None) ->
  fst (handle E message w) = Ok tt.
Proof.
  intros Hs Hp Hk. unfold handle, try_except.
  destruct (pipeline E message w) as [[[]|e] w1]; [done|].
  unfold on_failure.
  rewrite (bind_ok _ _ _ _ _ (publish_result_ok E _ _ _ _ w1 Hk)).
  destruct (update_task_status_ok E (task_id message) "failed" 0
              (Some ("Analysis failed: " +:+ str_exn e))
              (log (Send KAFKA_TOPIC_RISK_RESULTS
                      (JObj [("task_id", JStr (task_id message));
                             ("status", JStr "failed");
                             ("result", JNull);
                             ("error", opt_str (Some (str_exn e)));
                             ("processed_at", JStr (isoformat E (clock w1)))])
                      (task_id message)) w1)
              (fun ttl v => Hs _ ttl v) Hp) as [ev ->].
  done.
Qed.

End HandlerSteady.

Section LoopFacts.

Import Footprint Worker.

Variable E : env.
Variable V : Type.
Variable handlers : gmap string (V -> M unit).

Lemma only_no_commit {A} (m : M A) w :
  only no_commit m -> commits (trace (snd (m w))) = commits (trace w).
Proof.
  intros Hm. destruct (Hm w) as (d & -> & Hd).
  rewrite commits_app.
  assert (Hnil : commits d = []).
  { induction Hd as [|ev d Hev Hd IH]; [done|].
    destruct ev; simpl; try done. }
  by rewrite Hnil, app_nil_r.
Qed.

Lemma consume_one_returns msg w :
  exists f, fst (consume_one E V handlers msg w) = Ok f.
Proof.
  unfold consume_one. destruct (running w); simpl; [|eauto].
  unfold bind, try_except.
  destruct (_process_message V handlers msg w) as [[[]|e] w1]; simpl;
    [|eauto].
  destruct (consumer_commit E _ _ _ w1) as [[[]|e] w2]; simpl; eauto.
Qed.

Lemma consume_loop_returns msgs w :
  fst (_consume_loop E V handlers msgs w) = Ok tt.
Proof.
  revert w. induction msgs as [|msg rest IH]; intros w; [done|].
  simpl. unfold bind at 1.
  destruct (consume_one_returns msg w) as [f Hf].
  destruct (consume_one E V handlers msg w) as [r w1]. simpl in Hf.
  subst r. destruct f; [apply IH|done].
Qed.

Lemma process_message_commits msg w :
  (forall topic h v, handlers !! topic = Some h -> only no_commit (h v)) ->
  commits (trace (snd (_process_message V handlers msg w)))
  = commits (trace w).
Proof.
  intros Hh. unfold _process_message.
  destruct (handlers !! topic msg) as [h|] eqn:Hl; [|done].
  apply only_no_commit.
  apply only_try_except; [by eapply Hh|intros; apply only_raise].
Qed.

Lemma consume_one_commits msg w :
  (forall topic h v, handlers !! topic = Some h -> only no_commit (h v)) ->
  exists l,
    (l = [] \/ l = [position msg])
    /\ commits (trace (snd (consume_one E V handlers msg w)))
       = commits (trace w) ++ l.
Proof.
  intros Hh. pose proof (process_message_commits msg w Hh) as Hp.
  unfold consume_one. destruct (running w); simpl.
  2:{ exists []. split; [by left|by rewrite app_nil_r]. }
  unfold bind, try_except.
  destruct (_process_message V handlers msg w) as [[[]|e] w1]; simpl in *.
  2:{ exists []. split; [by left|by rewrite app_nil_r]. }
  unfold consumer_commit.
  destruct (commit_raises E _ _ _); simpl.
  - exists []. split; [by left|by rewrite app_nil_r].
  - exists [position msg]. split; [by right|].
    by rewrite commits_app, Hp.
Qed.

End LoopFacts.

(** X16: the consumer loop never raises, whatever the handlers and the
    commits do.  If no handler commits offsets itself, the offsets the
    loop commits are those of some of the delivered records, in delivery
    order. *)
Theorem consume_loop_never_raises
    (E : env) (V : Type) (handlers : gmap string (V -> M unit))
    (msgs : list (Worker.ConsumerRecord V)) (w : world) :
  fst (Worker._consume_loop E V handlers msgs w) = Ok tt
  /\ ((forall topic h v,
         handlers !! topic = Some h ->
         Footprint.only Footprint.no_commit (h v)) ->
      exists l,
        sublist l (map Footprint.position msgs)
        /\ commits (trace (snd (Worker._consume_loop E V handlers msgs w)))
           = commits (trace w) ++ l).
Proof.
  split; [apply consume_loop_returns|].
  intros Hh. revert w.
  induction msgs as [|msg rest IH]; intros w.
  { exists []. split; [constructor|]. simpl. by rewrite app_nil_r. }
  destruct (consume_one_commits E V handlers msg w Hh) as (l1 & Hl1 & Hc1).
  destruct (consume_one_returns E V handlers msg w) as [f Hf].
  simpl. unfold bind at 1.
  destruct (Worker.consume_one E V handlers msg w) as [r w1].
  simpl in *. subst r. destruct f.
  - destruct (IH w1) as (l & Hl & Hc).
    exists (l1 ++ l). rewrite Hc, Hc1, app_assoc. split; [|done].
    destruct Hl1 as [->| ->]; simpl.
    + by apply sublist_cons.
    + by apply sublist_skip.
  - exists l1. split; [|done].
    destruct Hl1 as [->| ->].
    + apply sublist_nil_l.
    + apply sublist_skip, sublist_nil_l.
Qed.

(** X17: a running consumer whose handlers return, and whose commits get
    through, acknowledges every record of a batch, in delivery order;
    this includes the records on topics for which no handler is
    registered, which are acknowledged without being processed. *)
Theorem consume_loop_commits_every_record
    (E : env) (V : Type) (handlers : gmap string (V -> M unit))
    (msgs : list (Worker.ConsumerRecord V)) (w : world) :
  running w = true ->
  (forall topic partition offset,
     commit_raises E topic partition offset = None) ->
  (forall topic h v,
     handlers !! topic = Some h ->
     Footprint.only Footprint.no_commit (h v)
     /\ Footprint.steady (h v)
     /\ forall w0, fst (h v w0) = Ok tt) ->
  commits (trace (snd (Worker._consume_loop E V handlers msgs w)))
  = commits (trace w) ++ map Footprint.position msgs.
Proof.
  intros Hr Hc Hh. revert w Hr.
  induction msgs as [|msg rest IH]; intros w Hr.
  { simpl. by rewrite app_nil_r. }
  assert (Hone : exists w1,
             Worker.consume_one E V handlers msg w = (Ok Worker.Continue, w1)
             /\ running w1 = true
             /\ commits (trace w1)
                = commits (trace w) ++ [Footprint.position msg]).
  { unfold Worker.consume_one. rewrite Hr. cbn [negb].
    unfold bind, try_except, Worker._process_message.
    destruct (handlers !! Worker.topic msg) as [h|] eqn:Hl.
    - destruct (Hh _ h (Worker.value msg) Hl) as (Hn & Hs & Hok).
      specialize (Hok w). specialize (Hs w).
      pose proof (only_no_commit (h (Worker.value msg)) w Hn) as Hcm.
      unfold try_except.
      destruct (h (Worker.value msg) w) as [r w1]. simpl in *. subst r.
      unfold consumer_commit.
      rewrite Hc. simpl. eexists. split; [done|]. simpl.
      split; [congruence|]. by rewrite commits_app, Hcm.
    - unfold ret, consumer_commit. rewrite Hc. simpl.
      eexists. split; [done|]. simpl. split; [done|].
      by rewrite commits_app. }
  destruct Hone as (w1 & H1 & Hr1 & Hc1).
  simpl. rewrite (bind_ok _ _ _ _ _ H1).
  rewrite (IH w1 Hr1), Hc1, <- app_assoc. done.
Qed.


(** ** Delivery of status events to websocket clients *)

Section DeliveryFacts.

Import ConnectionManager.

Variable send_text_raises : WebSocket -> json -> option exn.

(** The sockets of a list whose send of [m] goes through. *)
Lemma send_all_delivers l m : forall st d,
  delivered (fst (send_all send_text_raises l m st d))
  = delivered st
    ++ map (fun ws => (ws, m))
         (List.filter
            (fun ws => match send_text_raises ws m with
                       | None => true
                       | Some _ => false
                       end) l).
Proof.
  induction l as [|ws l IH]; intros st d; simpl.
  { by rewrite app_nil_r. }
  unfold send_message.
  destruct (send_text_raises ws m); rewrite IH; simpl; [done|].
  by rewrite <- app_assoc.
Qed.

Lemma broadcast_delivers t d st :
  let message :=
    JObj [("type", JStr "status_update"); ("task_id", JStr t); ("data", d)] in
  delivered (broadcast_status_update send_text_raises t d st)
  = delivered st
    ++ map (fun ws => (ws, message))
         (List.filter
            (fun ws => match send_text_raises ws message with
                       | None => true
                       | Some _ => false
                       end)
            (elements (default ∅ (active_connections st !! t)))).
Proof.
  intros message. unfold broadcast_status_update.
  destruct (active_connections st !! t) as [conns|] eqn:Hac; simpl.
  2:{ rewrite elements_empty. simpl. by rewrite app_nil_r. }
  fold message.
  pose proof (send_all_delivers (elements conns) message st []) as Hd.
  destruct (send_all_spec send_text_raises (elements conns) message st [])
    as (Hdisc & _ & _).
  destruct (send_all send_text_raises (elements conns) message st [])
    as [st' disc].
  simpl in *. by subst disc.
Qed.




End DeliveryFacts.

(** X18: a broadcast for a task changes neither dictionary, and sends
    its frame to exactly the sockets subscribed to that task whose send
    goes through, once each: no other client receives anything, and no
    client receives the frame twice. *)
Theorem broadcast_delivers_to_subscribers_only
    (send_text_raises : ConnectionManager.WebSocket -> json -> option exn)
    (t : string) (d : json) (st : ConnectionManager.state) :
  let message :=
    JObj [("type", JStr "status_update"); ("task_id", JStr t); ("data", d)] in
  let st' :=
    ConnectionManager.broadcast_status_update send_text_raises t d st in
  ConnectionManager.active_connections st'
  = ConnectionManager.active_connections st
  /\ ConnectionManager.connection_subscriptions st'
     = ConnectionManager.connection_subscriptions st
  /\ exists frames,
       ConnectionManager.delivered st'
       = ConnectionManager.delivered st ++ frames
       /\ NoDup frames
       /\ forall ws m,
            In (ws, m) frames
            <-> m = message
                /\ send_text_raises ws message = None
                /\ exists conns,
                     ConnectionManager.active_connections st !! t
                     = Some conns
                     /\ ws ∈ conns.
Proof.
  intros message st'. subst st'.
  destruct (broadcast_maps send_text_raises t d st) as [Hac Hcs].
  split; [done|]. split; [done|].
  eexists. split; [apply broadcast_delivers|]. fold message. split.
  - apply NoDup_fmap_2; [intros ws1 ws2 [= ->]; done|].
    apply NoDup_ListNoDup, List.NoDup_filter, NoDup_ListNoDup, NoDup_elements.
  - intros ws m. rewrite in_map_iff. split.
    + intros (ws' & [= <- <-] & Hin).
      apply filter_In in Hin as [Hin Hok].
      apply list_elem_of_In, elem_of_elements in Hin.
      split; [done|]. split.
      { by destruct (send_text_raises ws' message). }
      destruct (ConnectionManager.active_connections st !! t) as [conns|];
        simpl in Hin; [eauto|set_solver].
    + intros (-> & Hok & conns & Hl & Hin).
      exists ws. split; [done|]. apply filter_In. split.
      * apply list_elem_of_In, elem_of_elements. by rewrite Hl.
      * by rewrite Hok.
Qed.

(** X19: from the worker to the browser.  The event a status write of
    the worker publishes, once the Redis subscriber of the websocket
    service handles it, reaches every client that subscribed to the task
    and whose socket accepts it, as a [status_update] frame carrying the
    status, the progress and the message of the write. *)
Theorem worker_status_reaches_subscriber
    (E : env)
    (send_text_raises : ConnectionManager.WebSocket -> json -> option exn)
    (t s : string) (p : Z) (m : string) (w : world)
    (st : ConnectionManager.state) (ws : ConnectionManager.WebSocket) :
  let event :=
    JObj [("task_id", JStr t); ("status", JStr s); ("progress", JInt p);
          ("message", JStr m)] in
  let frame :=
    JObj [("type", JStr "status_update"); ("task_id", JStr t);
          ("data", JObj [("status", JStr s); ("progress", JInt p);
                         ("message", JStr m)])] in
  t <> "" -> m <> "" ->
  is_Some (ConnectionManager.connection_subscriptions st !! ws) ->
  (forall v, setex_raises E ("task:status:" +:+ t) 3600 v = None) ->
  publish_raises E Worker.REDIS_PUBSUB_CHANNEL event = None ->
  send_text_raises ws frame = None ->
  let subscribed :=
    ConnectionManager.handle_message send_text_raises ws
      (ConnectionManager.Data (Some "subscribe") (Some t)) st in
  (exists v,
     trace (snd (Worker.update_task_status E t s p (Some m) w))
     = trace w ++ [Setex ("task:status:" +:+ t) 3600 v;
                   Publish Worker.REDIS_PUBSUB_CHANNEL event])
  /\ In (ws, frame)
       (ConnectionManager.delivered
          (WebSocketService._handle_message send_text_raises (Some event)
             subscribed)).
Proof.
  intros event frame Ht Hm [subs Hsubs] Hsetex Hpub Hsend subscribed.
  assert (Htt : truthy_opt (Some t) = true).
  { simpl. by destruct (String.eqb_spec t ""). }
  assert (Hmt : truthy_opt (Some m) = true).
  { simpl. by destruct (String.eqb_spec m ""). }
  split.
  - unfold Worker.update_task_status, bind, redis_setex, redis_publish.
    cbv zeta. rewrite Hsetex. rewrite Hmt. simpl. fold event.
    rewrite Hpub. simpl. eexists. by rewrite <- app_assoc.
  - unfold WebSocketService._handle_message. simpl.
    destruct (String.eqb_spec t "") as [|_]; [done|]. simpl.
    apply (broadcast_reaches_live_subscribers send_text_raises t _
             subscribed ({[ws]} ∪ default ∅
                (ConnectionManager.active_connections st !! t)) ws);
      [|set_solver|done].
    subst subscribed. unfold ConnectionManager.handle_message.
    rewrite Htt. simpl.
    unfold ConnectionManager._subscribe. rewrite Hsubs. cbv zeta.
    destruct (send_message_maps send_text_raises ws
      (JObj [("type", JStr "subscribed"); ("task_id", JStr t);
             ("message", JStr ("Successfully subscribed to task " +:+ t))])
      (ConnectionManager.State
         (<[t := match ConnectionManager.active_connections st !! t with
                 | Some conns => conns
                 | None => ∅
                 end ∪ {[ws]}]> (ConnectionManager.active_connections st))
         (<[ws := subs ∪ {[t]}]>
            (ConnectionManager.connection_subscriptions st))
         (ConnectionManager.delivered st))) as (_ & Hac & _).
    rewrite Hac. simpl. rewrite lookup_insert_eq. f_equal.
    destruct (ConnectionManager.active_connections st !! t); simpl;
      set_solver.
Qed.



(** ** The websocket endpoint and the manager's dictionaries *)

Section EndpointFacts.

Import ConnectionManager WebSocketService.

Variable send_text_raises : WebSocket -> json -> option exn.

Lemma send_message_subscriptions ws m st :
  connection_subscriptions (snd (send_message send_text_raises ws m st))
  = connection_subscriptions st.
Proof. by destruct (send_message_maps send_text_raises ws m st) as (_ & _ & ?). Qed.

Lemma subscribe_dom ws t st :
  is_Some (connection_subscriptions st !! ws) ->
  dom (connection_subscriptions (snd (_subscribe ws t st)))
  = dom (connection_subscriptions st).
Proof.
  intros [subs Hs]. unfold _subscribe. rewrite Hs. simpl.
  rewrite dom_insert_L. apply elem_of_dom_2 in Hs. set_solver.
Qed.

Lemma unsubscribe_dom ws t st :
  dom (connection_subscriptions (_unsubscribe ws t st))
  = dom (connection_subscriptions st).
Proof.
  unfold _unsubscribe. simpl.
  destruct (connection_subscriptions st !! ws) as [subs|] eqn:Hs; [|done].
  rewrite dom_insert_L. apply elem_of_dom_2 in Hs. set_solver.
Qed.

Lemma unsubscribe_all_dom ws l : forall st,
  dom (connection_subscriptions (unsubscribe_all ws l st))
  = dom (connection_subscriptions st).
Proof.
  induction l as [|x l IH]; intros st; [done|].
  change (unsubscribe_all ws (x :: l) st)
    with (unsubscribe_all ws l (_unsubscribe ws x st)).
  by rewrite IH, unsubscribe_dom.
Qed.

Lemma disconnect_dom ws st :
  dom (connection_subscriptions (disconnect ws st))
  = dom (connection_subscriptions st) ∖ {[ws]}.
Proof.
  unfold disconnect.
  destruct (connection_subscriptions st !! ws) as [subs|] eqn:Hs; simpl.
  - by rewrite dom_delete_L, unsubscribe_all_dom.
  - apply not_elem_of_dom in Hs. set_solver.
Qed.

Lemma handle_message_dom ws f st :
  is_Some (connection_subscriptions st !! ws) ->
  dom (connection_subscriptions (handle_message send_text_raises ws f st))
  = dom (connection_subscriptions st).
Proof.
  intros Hs. unfold handle_message, send_error.
  destruct f as [|[ty|] [tid|]];
    rewrite ?send_message_subscriptions; try done.
  destruct (negb _ || negb _); [by rewrite send_message_subscriptions|].
  destruct (String.eqb ty "subscribe").
  { pose proof (subscribe_dom ws tid st Hs) as Hd.
    destruct (_subscribe ws tid st) as [[[]|e] st']; simpl in Hd;
      by rewrite send_message_subscriptions. }
  destruct (String.eqb ty "unsubscribe");
    rewrite send_message_subscriptions; [apply unsubscribe_dom|done].
Qed.

Lemma step_dom o st opened closed :
  dom (connection_subscriptions st) = opened ->
  endpoint_order opened closed [o] ->
  allowed o st
  /\ dom (connection_subscriptions (step send_text_raises o st))
     = open_after opened [o].
Proof.
  intros Hd Ho. destruct o as [ws|ws f|ws|t d]; simpl in *.
  - destruct Ho as (Hn & _). split.
    + apply not_elem_of_dom. by rewrite Hd.
    + by rewrite dom_insert_L, Hd.
  - destruct Ho as (Hin & _).
    assert (Hs : is_Some (connection_subscriptions st !! ws))
      by (apply elem_of_dom; by rewrite Hd).
    split; [done|]. by rewrite handle_message_dom.
  - split; [done|]. by rewrite disconnect_dom, Hd.
  - split; [done|].
    by destruct (broadcast_maps send_text_raises t d st) as [_ ->].
Qed.

Lemma endpoint_order_run ops : forall opened closed st,
  dom (connection_subscriptions st) = opened ->
  endpoint_order opened closed ops ->
  well_ordered send_text_raises ops st
  /\ dom (connection_subscriptions (run send_text_raises ops st))
     = open_after opened ops.
Proof.
  induction ops as [|o ops IH]; intros opened closed st Hd Ho; [done|].
  assert (Hone : endpoint_order opened closed [o]).
  { destruct o; simpl in *; [destruct Ho as (? & ? & _)|destruct Ho as (? & _)
                            |destruct Ho as (? & _)|]; done. }
  destruct (step_dom o st opened closed Hd Hone) as [Ha Hd'].
  assert (Hrest : exists closed',
             endpoint_order (open_after opened [o]) closed' ops).
  { destruct o; simpl in *;
      [destruct Ho as (_ & _ & ?)|destruct Ho as (_ & ?)
      |destruct Ho as (_ & ?)|]; eauto. }
  destruct Hrest as [closed' Hrest].
  destruct (IH _ closed' _ Hd' Hrest) as [Hw Hdom].
  split; [by split|].
  change (run send_text_raises (o :: ops) st)
    with (run send_text_raises ops (step send_text_raises o st)).
  rewrite Hdom. by destruct o.
Qed.

(** *** One session *)

Section Session.

Variable ws : WebSocket.
Variable before : state.

Hypothesis before_consistent : consistent before.
Hypothesis ws_fresh : connection_subscriptions before !! ws = None.

Lemma before_sets t c :
  active_connections before !! t = Some c -> (ws ∉ c) /\ c <> ∅.
Proof.
  intros Hc. destruct before_consistent as [Hi Hp]. split; [|by eapply Hp].
  intros Hin. destruct (proj1 (Hi t ws)) as (s & Hs & _); [eauto|].
  rewrite ws_fresh in Hs. discriminate.
Qed.

Lemma during_lookup subs st :
  during ws subs before st ->
  connection_subscriptions st !! ws = Some subs.
Proof. intros [-> _]. by rewrite lookup_insert_eq. Qed.

Lemma during_connect : during ws ∅ before (connect ws before).
Proof.
  split; [done|]. intros t. simpl.
  destruct (decide (t ∈ (∅ : gset string))); [set_solver|done].
Qed.

Lemma during_maps subs st st' :
  active_connections st' = active_connections st ->
  connection_subscriptions st' = connection_subscriptions st ->
  during ws subs before st -> during ws subs before st'.
Proof. intros Ha Hc [H1 H2]. split; [by rewrite Hc|]. by rewrite Ha. Qed.

Lemma during_send subs m st :
  during ws subs before st ->
  during ws subs before (snd (send_message send_text_raises ws m st)).
Proof.
  destruct (send_message_maps send_text_raises ws m st) as (_ & Ha & Hc).
  by apply during_maps.
Qed.

Lemma during_subscribe subs t st :
  during ws subs before st ->
  during ws (subs ∪ {[t]}) before (snd (_subscribe ws t st)).
Proof.
  intros Hd. pose proof (during_lookup _ _ Hd) as Hl.
  destruct Hd as [Hcs Hac].
  unfold _subscribe. rewrite Hl. simpl. split.
  - by rewrite Hcs, insert_insert_eq.
  - intros t'. cbn [active_connections].
    destruct (decide (t' = t)) as [->|Hne].
    + rewrite lookup_insert_eq, Hac.
      destruct (decide (t ∈ subs ∪ {[t]})); [|set_solver].
      f_equal.
      destruct (decide (t ∈ subs)); simpl.
      * set_solver.
      * by destruct (active_connections before !! t).
    + rewrite lookup_insert_ne by done. rewrite Hac.
      destruct (decide (t' ∈ subs)), (decide (t' ∈ subs ∪ {[t]}));
        try done; set_solver.
Qed.

Lemma during_unsubscribe subs t st :
  during ws subs before st ->
  during ws (subs ∖ {[t]}) before (_unsubscribe ws t st).
Proof.
  intros Hd. pose proof (during_lookup _ _ Hd) as Hl.
  destruct Hd as [Hcs Hac].
  unfold _unsubscribe. rewrite Hl. simpl. split.
  - by rewrite Hcs, insert_insert_eq.
  - intros t'. cbn [active_connections].
    assert (Hgoal : forall ac' : gmap string (gset positive),
              ac' !! t = (if decide (t ∈ subs ∖ {[t]})
                          then Some (default ∅
                                       (active_connections before !! t)
                                     ∪ {[ws]})
                          else active_connections before !! t) ->
              (t' <> t -> ac' !! t' = active_connections st !! t') ->
              ac' !! t'
              = if decide (t' ∈ subs ∖ {[t]})
                then Some (default ∅ (active_connections before !! t')
                           ∪ {[ws]})
                else active_connections before !! t').
    { intros ac' Ht Hother. destruct (decide (t' = t)) as [->|Hne]; [done|].
      rewrite (Hother Hne), Hac.
      destruct (decide (t' ∈ subs)), (decide (t' ∈ subs ∖ {[t]}));
        try done; set_solver. }
    pose proof (Hac t) as Hact.
    destruct (active_connections st !! t) as [c|] eqn:Hc.
    + assert (Hc' : c ∖ {[ws]}
                    = default ∅ (active_connections before !! t)
                      /\ (c ∖ {[ws]} <> ∅ ->
                          active_connections before !! t
                          = Some (c ∖ {[ws]}))
                      /\ (c ∖ {[ws]} = ∅ ->
                          active_connections before !! t = None)).
      { destruct (decide (t ∈ subs)).
        - injection Hact as ->.
          destruct (active_connections before !! t) as [c0|] eqn:Hb; simpl.
          + destruct (before_sets t c0 Hb) as [Hn1 Hn2].
            assert (Heq : (c0 ∪ {[ws]}) ∖ {[ws]} = c0) by set_solver.
            rewrite Heq. split; [done|]. split; [done|]. done.
          + assert (Heq : ((∅ : gset positive) ∪ {[ws]}) ∖ {[ws]} = ∅)
              by set_solver.
            rewrite Heq. done.
        - symmetry in Hact. destruct (before_sets t c Hact) as [Hn1 Hn2].
          assert (Heq : c ∖ {[ws]} = c) by set_solver.
          rewrite Heq, Hact. simpl. done. }
      destruct Hc' as (Hd0 & Hsome & Hnone).
      destruct (decide (c ∖ {[ws]} = ∅)) as [He|Hne].
      * apply Hgoal.
        -- rewrite lookup_delete_eq.
           destruct (decide (t ∈ subs ∖ {[t]})); [set_solver|].
           by rewrite Hnone.
        -- intros Hne. by rewrite lookup_delete_ne.
      * apply Hgoal.
        -- rewrite lookup_insert_eq.
           destruct (decide (t ∈ subs ∖ {[t]})); [set_solver|].
           by rewrite Hsome.
        -- intros Hne'. by rewrite lookup_insert_ne.
    + apply Hgoal; [|done]. rewrite Hc.
      destruct (decide (t ∈ subs ∖ {[t]})); [set_solver|].
      by destruct (decide (t ∈ subs)).
Qed.

Lemma during_unsubscribe_all l : forall subs st,
  during ws subs before st ->
  during ws (subs ∖ list_to_set l) before (unsubscribe_all ws l st).
Proof.
  induction l as [|x l IH]; intros subs st Hd.
  - simpl. by replace (subs ∖ ∅) with subs by set_solver.
  - change (unsubscribe_all ws (x :: l) st)
      with (unsubscribe_all ws l (_unsubscribe ws x st)).
    replace (subs ∖ list_to_set (x :: l))
      with ((subs ∖ {[x]}) ∖ list_to_set l) by set_solver.
    apply IH. by apply during_unsubscribe.
Qed.

Lemma during_handle_message subs f st :
  during ws subs before st ->
  exists subs',
    during ws subs' before (handle_message send_text_raises ws f st).
Proof.
  intros Hd. unfold handle_message, send_error.
  destruct f as [|[ty|] [tid|]];
    try (exists subs; by apply during_send).
  destruct (negb _ || negb _); [exists subs; by apply during_send|].
  destruct (String.eqb ty "subscribe").
  { pose proof (during_subscribe subs tid st Hd) as Hs.
    destruct (_subscribe ws tid st) as [[[]|e] st']; simpl in Hs;
      exists (subs ∪ {[tid]}); by apply during_send. }
  destruct (String.eqb ty "unsubscribe").
  - exists (subs ∖ {[tid]}). by apply during_send, during_unsubscribe.
  - exists subs. by apply during_send.
Qed.

Lemma during_frames frames : forall subs st,
  during ws subs before st ->
  exists subs',
    during ws subs' before
      (run send_text_raises (map (Frame ws) frames) st).
Proof.
  induction frames as [|f frames IH]; intros subs st Hd; [eauto|].
  destruct (during_handle_message subs f st Hd) as [subs1 H1].
  apply (IH subs1). done.
Qed.

Lemma during_disconnect subs st :
  during ws subs before st ->
  active_connections (disconnect ws st) = active_connections before
  /\ connection_subscriptions (disconnect ws st)
     = connection_subscriptions before.
Proof.
  intros Hd. unfold disconnect. rewrite (during_lookup _ _ Hd).
  pose proof (during_unsubscribe_all (elements subs) subs st Hd) as Hu.
  rewrite list_to_set_elements_L in Hu.
  replace (subs ∖ subs) with (∅ : gset string) in Hu by set_solver.
  destruct Hu as [Hcs Hac]. simpl. split.
  - apply map_eq. intros t. rewrite Hac.
    destruct (decide (t ∈ (∅ : gset string))); [set_solver|done].
  - rewrite Hcs. by apply delete_insert_id.
Qed.

End Session.

End EndpointFacts.

(** X21: when the service performs its calls in an order the endpoint
    allows (each socket connected once, frames handled while its endpoint
    runs, disconnected by its endpoint, broadcasts anywhere), the manager
    knows exactly the sockets whose endpoint is still running, every call
    finds the manager in the state it expects, and the two dictionaries
    stay inverse to each other with no empty subscriber set. *)
Theorem endpoint_order_tracks_open_sockets
    (send_text_raises : ConnectionManager.WebSocket -> json -> option exn)
    (ops : list ConnectionManager.op) :
  WebSocketService.endpoint_order ∅ ∅ ops ->
  let st := ConnectionManager.run send_text_raises ops
              ConnectionManager.empty in
  ConnectionManager.well_ordered send_text_raises ops ConnectionManager.empty
  /\ dom (ConnectionManager.connection_subscriptions st)
     = WebSocketService.open_after ∅ ops
  /\ ConnectionManager.consistent st.
Proof.
  intros Ho st.
  destruct (endpoint_order_run send_text_raises ops ∅ ∅
              ConnectionManager.empty) as [Hw Hd];
    [apply dom_empty_L|done|].
  split; [done|]. split; [done|].
  apply run_consistent; [done|apply empty_consistent].
Qed.

(** X22: a client session leaves no residue.  Whatever frames the client
    sends between connecting and going away, once its endpoint has
    disconnected it both dictionaries of the manager are what they were
    before it connected. *)
Theorem session_leaves_no_residue
    (send_text_raises : ConnectionManager.WebSocket -> json -> option exn)
    (ws : ConnectionManager.WebSocket)
    (frames : list ConnectionManager.client_frame)
    (st : ConnectionManager.state) :
  ConnectionManager.consistent st ->
  ConnectionManager.connection_subscriptions st !! ws = None ->
  let st' :=
    ConnectionManager.run send_text_raises
      (WebSocketService.websocket_endpoint ws frames) st in
  ConnectionManager.active_connections st'
  = ConnectionManager.active_connections st
  /\ ConnectionManager.connection_subscriptions st'
     = ConnectionManager.connection_subscriptions st.
Proof.
  intros Hc Hf st'. subst st'.
  unfold WebSocketService.websocket_endpoint, ConnectionManager.run.
  simpl. rewrite foldl_app. simpl.
  destruct (during_frames send_text_raises ws st Hc Hf frames ∅
              (ConnectionManager.connect ws st)
              (during_connect ws st Hc Hf)) as [subs Hd].
  by eapply during_disconnect.
Qed.


(** ** Tasks do not interfere *)

Section PreservesFacts.

Import Footprint.

Context {A B : Type}.

Variable R : world -> world -> Prop.

Hypothesis R_refl : forall w, R w w.
Hypothesis R_trans : forall w1 w2 w3, R w1 w2 -> R w2 w3 -> R w1 w3.

Lemma preserves_ret (a : A) : preserves R (ret a).
Proof. intros w. apply R_refl. Qed.

Lemma preserves_raise e : preserves R (raise (A:=A) e).
Proof. intros w. apply R_refl. Qed.

Lemma preserves_lift (r : result A) : preserves R (lift r).
Proof. intros w. apply R_refl. Qed.

Lemma preserves_bind (m : M A) (k : A -> M B) :
  preserves R m -> (forall a, preserves R (k a)) -> preserves R (bind m k).
Proof.
  intros Hm Hk w. specialize (Hm w). unfold bind.
  destruct (m w) as [[a|e] w1]; simpl in *; [|done].
  eapply R_trans; [exact Hm|apply Hk].
Qed.

Lemma preserves_try_except (m : M A) (h : exn -> M A) :
  preserves R m -> (forall e, preserves R (h e)) ->
  preserves R (try_except m h).
Proof.
  intros Hm Hh w. specialize (Hm w). unfold try_except.
  destruct (m w) as [[a|e] w1]; simpl in *; [done|].
  eapply R_trans; [exact Hm|apply Hh].
Qed.

End PreservesFacts.

Section HandlerIsolation.

Import Footprint Worker.

Variable E : env.
Variable keys : string -> Prop.

Lemma untouched_refl w : untouched keys w w.
Proof. done. Qed.

Lemma untouched_trans w1 w2 w3 :
  untouched keys w1 w2 -> untouched keys w2 w3 -> untouched keys w1 w3.
Proof.
  intros [Hc1 Hs1] [Hc2 Hs2]. split; [congruence|].
  intros key Hk. by rewrite Hs2, Hs1.
Qed.

Lemma untouched_setex key ttl v :
  keys key -> preserves (untouched keys) (redis_setex E key ttl v).
Proof.
  intros Hk w. unfold redis_setex.
  destruct (setex_raises E key ttl v); simpl; [done|].
  split; [done|]. intros key' Hk'. simpl.
  apply lookup_insert_ne. by intros ->.
Qed.

Lemma untouched_publish ch v :
  preserves (untouched keys) (redis_publish E ch v).
Proof. intros w. unfold redis_publish. by destruct (publish_raises E ch v). Qed.

Lemma untouched_send topic v key :
  preserves (untouched keys) (send_and_wait E topic v key).
Proof.
  intros w. unfold send_and_wait. by destruct (send_raises E topic v key).
Qed.

Lemma untouched_update_task_status t s p m :
  keys ("task:status:" +:+ t) ->
  preserves (untouched keys) (update_task_status E t s p m).
Proof.
  intros Hk. unfold update_task_status. cbv zeta.
  apply preserves_bind; [apply untouched_trans|by apply untouched_setex|].
  intros _. apply untouched_publish.
Qed.

Lemma untouched_publish_result t s r err :
  preserves (untouched keys) (publish_risk_analysis_result E t s r err).
Proof.
  unfold publish_risk_analysis_result.
  apply preserves_bind; [apply untouched_trans|done|]. intros now. cbv zeta.
  apply preserves_try_except;
    [apply untouched_trans|apply untouched_send|].
  intros; by apply preserves_raise.
Qed.

Lemma untouched_passport_stage c wal score ra :
  keys ("passport:claim:" +:+ lower wal) ->
  preserves (untouched keys) (passport_stage E c wal score ra).
Proof.
  intros Hk. unfold passport_stage.
  apply preserves_try_except; [apply untouched_trans| |done].
  apply preserves_bind; [apply untouched_trans| |done].
  unfold create_passport. cbv zeta.
  apply preserves_try_except; [apply untouched_trans| |done].
  apply preserves_bind; [apply untouched_trans|done|]. intros block.
  apply preserves_bind; [apply untouched_trans| |done].
  unfold _cache_claim_data. cbv zeta. by apply untouched_setex.
Qed.

Lemma untouched_handle message :
  (forall key, handler_keys message key -> keys key) ->
  preserves (untouched keys) (handle E message).
Proof.
  intros Hk.
  assert (Hst : forall s p m,
            preserves (untouched keys)
              (update_task_status E (task_id message) s p m)).
  { intros. apply untouched_update_task_status, Hk. by left. }
  unfold handle. apply preserves_try_except; [apply untouched_trans| |].
  - unfold pipeline. cbv zeta.
    apply preserves_bind; [apply untouched_trans|apply Hst|intros _].
    apply preserves_bind; [apply untouched_trans|done|intros summary].
    apply preserves_bind; [apply untouched_trans|apply Hst|intros _].
    apply preserves_bind; [apply untouched_trans|done|intros analysis].
    apply preserves_bind; [apply untouched_trans|apply Hst|intros _].
    apply preserves_bind; [apply untouched_trans| |intros analysis'].
    { apply untouched_passport_stage, Hk. right; right; by right. }
    apply preserves_bind; [apply untouched_trans|apply Hst|intros _].
    apply preserves_bind;
      [apply untouched_trans|apply untouched_publish_result|intros _].
    apply preserves_bind; [apply untouched_trans| |intros _].
    { apply untouched_setex, Hk. right; by left. }
    apply preserves_bind; [apply untouched_trans| |intros _; apply Hst].
    apply untouched_setex, Hk. right; right; by left.
  - intros e. unfold on_failure.
    apply preserves_bind;
      [apply untouched_trans|apply untouched_publish_result|].
    intros _. apply Hst.
Qed.

End HandlerIsolation.

(** What a poll answers depends on the clock and on the status and
    result entries of the task only. *)
Lemma poll_depends (B : env) (task : string) (w w' : world) :
  clock w' = clock w ->
  store w' !! ("task:status:" +:+ task) = store w !! ("task:status:" +:+ task) ->
  store w' !! ("task:result:" +:+ task) = store w !! ("task:result:" +:+ task) ->
  fst (RiskApi.get_task_status B task w')
  = fst (RiskApi.get_task_status B task w).
Proof.
  intros Hc Hs Hr.
  assert (Hl : forall key,
            store w' !! key = store w !! key -> live key w' = live key w).
  { intros key Hk. unfold live. by rewrite Hk, Hc. }
  unfold RiskApi.get_task_status, try_except, RiskApi.poll.
  destruct (String.eqb task "cached"); [done|].
  unfold bind, Backend.get_task_status, Backend.get_task_result, redis_get.
  rewrite (Hl _ Hs).
  destruct (get_raises B ("task:status:" +:+ task)); [by destruct e|].
  destruct (live ("task:status:" +:+ task) w) as [sd|]; [|done].
  destruct (truthy sd); [|done]. simpl.
  destruct sd as [| | | | |d]; try done.
  destruct (RiskApi.is_completed d); [|done].
  rewrite (Hl _ Hr).
  destruct (get_raises B ("task:result:" +:+ task)); [by destruct e|].
  destruct (live ("task:result:" +:+ task) w) as [r|]; [|done].
  by destruct (truthy r).
Qed.

(** X23: tasks do not interfere.  Handling the request of one task, to
    whatever end, leaves the clock and every cache entry other than that
    task's status and result, its commitment's analysis and its wallet's
    passport claim as they were; so what polling any other task answers
    is the same before and after. *)
Theorem handle_leaves_other_tasks_alone
    (E B : env) (message : Worker.RiskMessage) (w : world) (other : string) :
  other <> Worker.task_id message ->
  let w' := snd (Worker.handle E message w) in
  Footprint.untouched (Footprint.handler_keys message) w w'
  /\ fst (RiskApi.get_task_status B other w')
     = fst (RiskApi.get_task_status B other w).
Proof.
  intros Hne w'.
  assert (Hu : Footprint.untouched (Footprint.handler_keys message) w w').
  { by apply untouched_handle. }
  split; [done|]. destruct Hu as [Hc Hs].
  apply poll_depends; [done| |]; apply Hs.
  - intros [H|[H|[H|H]]].
    + apply append_inj in H. done.
    + discriminate H.
    + discriminate H.
    + discriminate H.
  - intros [H|[H|[H|H]]].
    + discriminate H.
    + apply append_inj in H. done.
    + discriminate H.
    + discriminate H.
Qed.

(** ** Risk factors *)

(** X24: the rule-based factor scores for account age, transaction
    count and token diversity lie between 0 and 10000, never go up when
    the account gets older, has more transactions or holds more tokens,
    and the label returned with each score is the band
    [calculate_comprehensive_risk] assigns to that score. *)
Theorem factor_scores_monotone (a b : Z) :
  a <= b ->
  let age := RiskCalculator._calculate_age_risk in
  let volume := RiskCalculator._calculate_volume_risk in
  let token := RiskCalculator._calculate_token_risk in
  (0 <= fst (age a) <= 10000 /\ fst (age b) <= fst (age a)
   /\ snd (age a) = RiskCalculator.risk_band (fst (age a)))
  /\ (0 <= fst (volume a) <= 10000 /\ fst (volume b) <= fst (volume a)
      /\ snd (volume a) = RiskCalculator.risk_band (fst (volume a)))
  /\ (0 <= fst (token a) <= 10000
      /\ (0 <= a -> fst (token b) <= fst (token a))
      /\ snd (token a) = RiskCalculator.risk_band (fst (token a))).
Proof.
  intros Hab age volume token. subst age volume token.
  unfold RiskCalculator._calculate_age_risk,
    RiskCalculator._calculate_volume_risk,
    RiskCalculator._calculate_token_risk.
  repeat split;
    repeat match goal with
           | |- context [(?x <? ?y)%Z] => destruct (Z.ltb_spec x y)
           | |- context [(?x =? ?y)%Z] => destruct (Z.eqb_spec x y)
           end; simpl; try lia; try reflexivity.
Qed.


(** X25: the rule-based confidence lies between 40 and 90, so the cap
    of 95 in [_calculate_confidence] never applies, and it never goes
    down when the wallet has more transactions, is older or holds more
    tokens. *)
Theorem confidence_bounded_monotone
    (tx_count age_days tokens tx_count' age_days' tokens' : Z) :
  tx_count <= tx_count' -> age_days <= age_days' -> tokens <= tokens' ->
  40 <= RiskCalculator._calculate_confidence tx_count age_days tokens <= 90
  /\ RiskCalculator._calculate_confidence tx_count age_days tokens
     <= RiskCalculator._calculate_confidence tx_count' age_days' tokens'.
Proof.
  intros Ht Ha Hk. unfold RiskCalculator._calculate_confidence. cbv zeta.
  repeat match goal with
         | |- context [(?x >=? ?y)%Z] =>
             destruct (Z.geb_spec x y); try lia
         end.
Qed.

(** ** The Redis subscriber after a failure *)

Section SubscriberFacts.

Import RedisSubscriber.

Variable send_text_raises : ConnectionManager.WebSocket -> json -> option exn.
Variable from_url_raises : option exn.
Variable subscribe_raises : option exn.

(** A subscriber that believes it runs but has no listener task. *)
Lemma deaf_step o s :
  o <> Stop ->
  _running s = true -> listening s = false ->
  step send_text_raises from_url_raises subscribe_raises o s = s.
Proof.
  intros Ho Hr Hl. destruct o as [| |p]; simpl.
  - unfold start. by rewrite Hr.
  - done.
  - by rewrite Hl.
Qed.

Lemma deaf_run ops : forall s,
  Forall (fun o => o <> Stop) ops ->
  _running s = true -> listening s = false ->
  run send_text_raises from_url_raises subscribe_raises ops s = s.
Proof.
  induction ops as [|o ops IH]; intros s Hops Hr Hl; [done|].
  apply Forall_cons in Hops as [Ho Hops].
  change (run send_text_raises from_url_raises subscribe_raises (o :: ops) s)
    with (run send_text_raises from_url_raises subscribe_raises ops
            (step send_text_raises from_url_raises subscribe_raises o s)).
  rewrite deaf_step by done. by apply IH.
Qed.

End SubscriberFacts.

(** X26: the listener is not revived.  Once [get_message] has raised in
    a running subscriber, the [start()] of the [except] block returns at
    once because [_running] is still set, and the listener task ends.
    From then on, until [stop()] is called, no status event reaches the
    connection manager, calling [start()] again changes nothing, and
    [is_connected()] keeps answering [True].  Only [stop()] followed by
    [start()] brings a listener back. *)
Theorem listener_is_not_revived
    (send_text_raises : ConnectionManager.WebSocket -> json -> option exn)
    (from_url_raises subscribe_raises : option exn)
    (s : RedisSubscriber.subscriber) (e : exn)
    (ops : list RedisSubscriber.op) :
  RedisSubscriber._running s = true ->
  RedisSubscriber._redis s = true ->
  RedisSubscriber.listening s = true ->
  Forall (fun o => o <> RedisSubscriber.Stop) ops ->
  let s' :=
    RedisSubscriber.run send_text_raises from_url_raises subscribe_raises
      (RedisSubscriber.Poll (RedisSubscriber.Fails e) :: ops) s in
  RedisSubscriber.manager s' = RedisSubscriber.manager s
  /\ RedisSubscriber.listening s' = false
  /\ RedisSubscriber.is_connected s' = true
  /\ (from_url_raises = None -> subscribe_raises = None ->
      RedisSubscriber.listening
        (RedisSubscriber.run send_text_raises from_url_raises
           subscribe_raises [RedisSubscriber.Stop; RedisSubscriber.Start] s')
      = true).
Proof.
  intros Hr Hc Hl Hops s'.
  assert (Hs' : s' = RedisSubscriber.Subscriber true true false
                       (RedisSubscriber.manager s)).
  { subst s'.
    change (RedisSubscriber.run send_text_raises from_url_raises
              subscribe_raises
              (RedisSubscriber.Poll (RedisSubscriber.Fails e) :: ops) s)
      with (RedisSubscriber.run send_text_raises from_url_raises
              subscribe_raises ops
              (RedisSubscriber.step send_text_raises from_url_raises
                 subscribe_raises
                 (RedisSubscriber.Poll (RedisSubscriber.Fails e)) s)).
    assert (Hf : RedisSubscriber.step send_text_raises from_url_raises
                   subscribe_raises
                   (RedisSubscriber.Poll (RedisSubscriber.Fails e)) s
                 = RedisSubscriber.Subscriber true true false
                     (RedisSubscriber.manager s)).
    { simpl. rewrite Hl. unfold RedisSubscriber._listen. rewrite Hr. simpl.
      unfold RedisSubscriber.start. simpl. by rewrite Hc. }
    rewrite Hf. by apply deaf_run. }
  rewrite Hs'. simpl. split; [done|]. split; [done|]. split; [done|].
  intros -> ->. reflexivity.
Qed.

(** ** Expiry *)

Lemma get_task_status_not_found (B : env) (task : string) (w : world) :
  task <> "cached" ->
  get_raises B ("task:status:" +:+ task) = None ->
  live ("task:status:" +:+ task) w = None ->
  RiskApi.get_task_status B task w
  = (Raise (HTTPException 404 "Task not found"), w).
Proof.
  intros Hne Hg Hl. apply String.eqb_neq in Hne.
  unfold RiskApi.get_task_status, try_except, RiskApi.poll.
  rewrite Hne. unfold bind, Backend.get_task_status, redis_get.
  by rewrite Hg, Hl.
Qed.

(** X27: an hour after the worker's pipeline has reached its end, the
    status and the result of the task and the analysis of the commitment
    have expired (the passport claim of the wallet, kept for 24 hours,
    is another matter): polling the task answers 404, and a verified
    submission of the same commitment is not answered from the cache any
    more but put on the queue again, under the task id the next
    [uuid4()] gives. *)
Theorem finished_task_expires
    (E B : env) (msg : Worker.RiskMessage) (w w' : world) (later : Z)
    (request : Backend.RiskAnalysisRequest) :
  Worker.pipeline E msg w = (Ok tt, w') ->
  clock w + 3600 <= later ->
  Worker.task_id msg <> "cached" ->
  Backend.commitment request = Worker.commitment msg ->
  fst (Backend.verify_ownership B request (set_clock later w')) = Ok true ->
  (forall key, get_raises B key = None) ->
  (forall topic v key, send_raises B topic v key = None) ->
  (forall key ttl v, setex_raises B key ttl v = None) ->
  live ("task:status:" +:+ Worker.task_id msg) (set_clock later w') = None
  /\ live ("task:result:" +:+ Worker.task_id msg) (set_clock later w') = None
  /\ live ("analysis:commitment:" +:+ Worker.commitment msg)
       (set_clock later w') = None
  /\ RiskApi.get_task_status B (Worker.task_id msg) (set_clock later w')
     = (Raise (HTTPException 404 "Task not found"), set_clock later w')
  /\ exists w'',
       Backend.analyze_wallet B request (set_clock later w')
       = (Ok {| Backend.task_id := uuid B (drawn w');
                Backend.status := Backend.PENDING;
                Backend.progress := 0;
                Backend.result := None;
                Backend.response_message :=
                  Some ("Analysis request submitted successfully. "
                        +:+ "Use task_id to poll for results.") |}, w'')
       /\ sends (trace w'')
          = sends (trace w')
            ++ [(Backend.KAFKA_TOPIC_RISK_REQUESTS,
                 JObj [("task_id", JStr (uuid B (drawn w')));
                       ("commitment", JStr (Backend.commitment request));
                       ("wallet_address",
                        JStr (lower (Backend.wallet_address request)));
                       ("force_refresh",
                        JBool (Backend.force_refresh request));
                       ("timestamp", JStr (isoformat B later));
                       ("correlation_id", JStr (uuid B (drawn w')))],
                 Backend.commitment request)].
Proof.
  intros H Hlater Hnc Hcm Hv Hget Hsend Hsetex.
  destruct (pipeline_ok_inv E msg w w' H)
    as (summary & analysis & entry & _ & _ & _ & Hclock & Hr & Hc & Hs & _).
  assert (Hls : live ("task:status:" +:+ Worker.task_id msg)
                  (set_clock later w') = None).
  { eapply live_expired; [exact Hs|]. simpl. lia. }
  assert (Hlr : live ("task:result:" +:+ Worker.task_id msg)
                  (set_clock later w') = None).
  { eapply live_expired; [exact Hr|]. simpl. lia. }
  assert (Hlc : live ("analysis:commitment:" +:+ Worker.commitment msg)
                  (set_clock later w') = None).
  { eapply live_expired; [exact Hc|]. simpl. lia. }
  split; [done|]. split; [done|]. split; [done|]. split.
  - by apply get_task_status_not_found.
  - assert (Hmiss : Backend.check_cache B request (set_clock later w')
                    = (Ok None, set_clock later w')).
    { apply check_cache_miss; [done|]. by rewrite Hcm. }
    destruct (analyze_wallet_miss_run B request (set_clock later w') Hv Hmiss
                (fun v => Hsend _ v _) (fun key v => Hsetex key _ v))
      as (w'' & Hrun & Hsends & _).
    exists w''. split; [exact Hrun|exact Hsends].
Qed.

(** ** Passport claim data *)

Section ClaimData.

Import Worker.

Lemma from_dict_asdict c :
  PassportService.from_dict (asdict c) = Some (asdict c).
Proof. reflexivity. Qed.

Lemma create_passport_ok_inv E c wal score w cd w' :
  create_passport E c wal score w = (Ok cd, w') ->
  pcd_commitment cd = c /\ pcd_wallet_address cd = wal
  /\ clock w' = clock w
  /\ store w'
     = <["passport:claim:" +:+ lower wal := (clock w + 86400, JObj (asdict cd))]>
         (store w).
Proof.
  unfold create_passport, try_except, bind, lift, _cache_claim_data,
    redis_setex, raise, ret.
  destruct (current_block E); [|discriminate].
  destruct (setex_raises _ _ _ _); [discriminate|].
  intros [= <- <-]. done.
Qed.

End ClaimData.

(** X28: the claim data [create_passport] returns can be read back with
    [get_claim_data] under the same wallet, in any letter case, until 24
    hours have passed, field by field as it was returned; after that
    [get_claim_data] returns [None]. *)
Theorem claim_data_round_trip
    (E B : env) (c wal wal' : string) (score : json) (w w' : world)
    (cd : Worker.PassportClaimData) (later : Z) :
  Worker.create_passport E c wal score w = (Ok cd, w') ->
  lower wal' = lower wal ->
  get_raises B ("passport:claim:" +:+ lower wal) = None ->
  PassportService.get_claim_data B wal' (set_clock later w')
  = (Ok (if (later <? clock w + 86400)%Z then Some (Worker.asdict cd)
         else None),
     set_clock later w')
  /\ Worker.pcd_commitment cd = c
  /\ Worker.pcd_wallet_address cd = wal.
Proof.
  intros H Hw Hget.
  apply create_passport_ok_inv in H as (Hc & Hwal & Hclock & Hstore).
  split; [|done].
  unfold PassportService.get_claim_data, bind, redis_get. cbv zeta.
  rewrite Hw, Hget. unfold live. simpl.
  rewrite Hstore, lookup_insert_eq.
  destruct (later <? clock w + 86400)%Z; [|done].
  by rewrite from_dict_asdict.
Qed.

(** ** Statistics of the connection manager *)

Section Counting.

Context `{Countable K, Countable V}.

Lemma size_set_map_inj (f : V -> positive * string) (X : gset V) :
  (forall x y, f x = f y -> x = y) ->
  size (set_map f X : gset (positive * string)) = size X.
Proof.
  intros Hf. induction X as [|x X Hx IH] using set_ind_L.
  - by rewrite set_map_empty, !size_empty.
  - rewrite set_map_union_L, set_map_singleton_L.
    rewrite !size_union, !size_singleton, IH; [done| |].
    + set_solver.
    + intros p Hp1 Hp2. apply elem_of_singleton in Hp1 as ->.
      apply elem_of_map in Hp2 as (y & Hxy & Hy).
      apply Hf in Hxy as ->. done.
Qed.

(** The entries of a dictionary of sets, as a set of pairs, have as many
    elements as the sizes of the sets add up to. *)
Lemma pairs_of_sets (g : K -> V -> positive * string) (m : gmap K (gset V)) :
  (forall k v k' v', g k v = g k' v' -> k = k' /\ v = v') ->
  exists P : gset (positive * string),
    (forall p, p ∈ P <-> exists k s v, m !! k = Some s /\ v ∈ s /\ p = g k v)
    /\ size P = map_fold (fun _ s n => (size s + n)%nat) 0%nat m.
Proof.
  intros Hg. induction m as [|k s m Hk IH] using map_ind.
  - exists ∅. split; [|by rewrite map_fold_empty, size_empty].
    intros p. split; [set_solver|].
    intros (k & s & v & Hl & _). by rewrite lookup_empty in Hl.
  - destruct IH as (P & HP & Hsize).
    exists (set_map (g k) s ∪ P). split.
    + intros p. rewrite elem_of_union, elem_of_map, HP. split.
      * intros [(v & -> & Hv)|(k' & s' & v & Hl & Hv & ->)].
        -- exists k, s, v. by rewrite lookup_insert_eq.
        -- exists k', s', v. split; [|done].
           rewrite lookup_insert_ne; [done|]. intros <-. congruence.
      * intros (k' & s' & v & Hl & Hv & ->).
        destruct (decide (k' = k)) as [->|Hne].
        -- rewrite lookup_insert_eq in Hl. injection Hl as <-. left. eauto.
        -- rewrite lookup_insert_ne in Hl by done. right. eauto 6.
    + rewrite map_fold_insert_L; [|intros; lia|done].
      rewrite size_union, Hsize.
      * f_equal. apply size_set_map_inj. intros x y Hxy.
        by destruct (Hg _ _ _ _ Hxy).
      * intros p Hp1 Hp2.
        apply elem_of_map in Hp1 as (v & -> & Hv).
        apply HP in Hp2 as (k' & s' & v' & Hl & _ & Heq).
        destruct (Hg _ _ _ _ Heq) as [<- _]. congruence.
Qed.

End Counting.

(** X29: the statistics agree with each other.  On consistent
    dictionaries, [total_subscriptions] is the sum of the counts in
    [connections_per_task], every task listed there has at least one
    connection, and there are at most as many tasks with subscribers as
    subscriptions. *)
Theorem stats_agree (st : ConnectionManager.state) :
  ConnectionManager.consistent st ->
  ConnectionStats.total_subscriptions st
  = ConnectionStats.total (ConnectionStats.connections_per_task st)
  /\ (forall t n,
        ConnectionStats.connections_per_task st !! t = Some n ->
        (1 <= n)%nat)
  /\ (ConnectionStats.tasks_with_subscribers st
      <= ConnectionStats.total_subscriptions st)%nat.
Proof.
  intros [Hi Hp].
  assert (Hsum : ConnectionStats.total_subscriptions st
                 = ConnectionStats.total
                     (ConnectionStats.connections_per_task st)).
  { unfold ConnectionStats.total_subscriptions, ConnectionStats.total,
      ConnectionStats.connections_per_task.
    rewrite map_fold_fmap.
    destruct (pairs_of_sets (fun (ws : positive) (t : string) => (ws, t))
                (ConnectionManager.connection_subscriptions st))
      as (P & HP & <-); [by intros ???? [= -> ->]|].
    destruct (pairs_of_sets (fun (t : string) (ws : positive) => (ws, t))
                (ConnectionManager.active_connections st))
      as (Q & HQ & HsQ); [by intros ???? [= -> ->]|].
    etransitivity; [|exact HsQ]. f_equal.
    apply set_eq. intros [ws t]. rewrite HP, HQ. split.
    - intros (ws' & subs & t' & Hl & Ht & [= -> ->]).
      destruct (proj2 (Hi t' ws')) as (conns & Hc & Hin); [eauto|].
      eauto 6.
    - intros (t' & conns & ws' & Hl & Hw & [= -> ->]).
      destruct (proj1 (Hi t' ws')) as (subs & Hs & Hin); [eauto|].
      eauto 6. }
  assert (Hpos : forall t n,
            ConnectionStats.connections_per_task st !! t = Some n ->
            (1 <= n)%nat).
  { intros t n. unfold ConnectionStats.connections_per_task.
    rewrite lookup_fmap. intros Hl.
    apply fmap_Some in Hl as (conns & Hc & ->).
    apply Hp in Hc.
    assert (size conns <> 0%nat).
    { intros Hz. apply size_empty_inv in Hz. apply Hc.
      by apply leibniz_equiv. }
    lia. }
  split; [done|]. split; [done|].
  rewrite Hsum. unfold ConnectionStats.tasks_with_subscribers.
  rewrite <- (map_size_fmap size (ConnectionManager.active_connections st)).
  fold (ConnectionStats.connections_per_task st).
  generalize dependent (ConnectionStats.connections_per_task st).
  intros counts _ Hcounts. unfold ConnectionStats.total.
  induction counts as [|t n counts Ht IH] using map_ind.
  - by rewrite map_size_empty, map_fold_empty.
  - rewrite map_size_insert_None by done.
    rewrite map_fold_insert_L; [|intros; lia|done].
    assert (1 <= n)%nat by (apply (Hcounts t); by rewrite lookup_insert_eq).
    assert (size counts
            <= map_fold (fun _ n acc => (n + acc)%nat) 0%nat counts)%nat.
    { apply IH. intros t' n' Hl. apply (Hcounts t').
      rewrite lookup_insert_ne; [done|]. intros <-. congruence. }
    lia.
Qed.

(** ** The further properties with hypotheses, at concrete inputs *)

(** X2 for the message of [Scenario.wallet], written in capitals, ten
    seconds after signing. *)
Lemma verify_ownership_accepts_iff_witness :
  SignatureVerifier.verify_ownership (fun _ _ => Ok Scenario.wallet)
    1704070010 (lower Scenario.wallet) "0xsigned"
    ("SILENT RISK ANALYSIS: " +:+ Scenario.wallet +:+ " AT 1704070000")
    1704070000
  = Ok true.
Proof.
  apply (verify_ownership_accepts_iff (fun _ _ => Ok Scenario.wallet)
           1704070010 (lower Scenario.wallet) "0xsigned"
           ("SILENT RISK ANALYSIS: " +:+ Scenario.wallet
            +:+ " AT 1704070000") 1704070000).
  - vm_compute. reflexivity.
  - vm_compute. reflexivity.
  - intros recovered [= <-]. vm_compute. reflexivity.
  - split; [lia|]. split; [vm_compute; reflexivity|].
    exists Scenario.wallet. split; [reflexivity|vm_compute; reflexivity].
Defined.

(** X3 for a wallet written in mixed case and claimed in lower case, ten
    seconds after signing. *)
Lemma generated_message_verifies_witness :
  SignatureVerifier.verify_ownership (fun _ _ => Ok Scenario.wallet)
    1704070010 (lower Scenario.wallet) "0xsigned"
    (Models.generate_message_to_sign Scenario.wallet 1704070000) 1704070000
  = Ok true.
Proof.
  apply (generated_message_verifies (fun _ _ => Ok Scenario.wallet)
           1704070010 Scenario.wallet (lower Scenario.wallet)
           Scenario.wallet "0xsigned" 1704070000).
  - lia.
  - vm_compute. reflexivity.
  - reflexivity.
  - reflexivity.
Defined.

(** X4 for a commitment spelled in upper-case hex digits. *)
Lemma validate_commitment_normal_form_witness :
  Models.validate_commitment Cases.shouted = Ok (lower Cases.shouted)
  /\ Models.validate_commitment (lower Cases.shouted)
     = Ok (lower Cases.shouted).
Proof.
  assert (H : Models.validate_commitment Cases.shouted
              = Ok (lower Cases.shouted)) by (vm_compute; reflexivity).
  split; [exact H|].
  exact (proj1 (proj2 (proj2 (proj2
           (validate_commitment_normal_form Cases.shouted
              (lower Cases.shouted) H))))).
Defined.

(** X5 for the same wallet. *)
Lemma generated_message_validates_witness :
  Models.validate_message_format
    (Models.generate_message_to_sign Scenario.wallet 1704070000)
    (Some (lower Scenario.wallet)) (Some 1704070000)
  = Ok (Models.generate_message_to_sign Scenario.wallet 1704070000).
Proof.
  apply (generated_message_validates Scenario.wallet (lower Scenario.wallet)
           1704070000).
  vm_compute. reflexivity.
Defined.

(** X7 for a task id nobody was given. *)
Lemma polling_unknown_task_witness :
  RiskApi.get_task_status Scenario.quiet "task-9" initial_world
  = (Raise (HTTPException 404 "Task not found"), initial_world).
Proof.
  assert (Hne : "task-9" <> "cached") by discriminate.
  apply (proj1 (polling_unknown_task Scenario.quiet "task-9" initial_world
                  Hne)).
  - reflexivity.
  - left. vm_compute. reflexivity.
Defined.

(** X8 for a signature presented two hours and a half after signing. *)
Lemma analyze_wallet_rejects_unverified_witness :
  exists detail,
    Backend.analyze_wallet Scenario.quiet (Scenario.request 1704070000)
      Cases.much_later
    = (Raise (HTTPException 401 detail), Cases.much_later).
Proof.
  apply (analyze_wallet_rejects_unverified Scenario.quiet
           (Scenario.request 1704070000) Cases.much_later).
  vm_compute. discriminate.
Defined.

(** X9 for a first submission. *)
Lemma analyze_wallet_submits_witness :
  exists w',
    Backend.analyze_wallet Scenario.quiet (Scenario.request 1704070000)
      Cases.at_signing
    = (Ok {| Backend.task_id := "task-0";
             Backend.status := Backend.PENDING;
             Backend.progress := 0;
             Backend.result := None;
             Backend.response_message :=
               Some ("Analysis request submitted successfully. "
                     +:+ "Use task_id to poll for results.") |}, w')
    /\ live ("commitment:task:" +:+ Scenario.commitment) w'
       = Some (JStr "task-0").
Proof.
  destruct (analyze_wallet_submits Scenario.quiet
              (Scenario.request 1704070000) Cases.at_signing)
    as (w' & H1 & _ & _ & H4 & _).
  - vm_compute. reflexivity.
  - right. split; vm_compute; reflexivity.
  - intros v. reflexivity.
  - intros key v. reflexivity.
  - exists w'. split; [exact H1|exact H4].
Defined.

(** X11 for a first submission while Redis refuses status writes. *)
Lemma analyze_wallet_queues_before_recording_witness :
  exists w',
    Backend.analyze_wallet Cases.status_down (Scenario.request 1704070000)
      Cases.at_signing
    = (Raise (HTTPException 500
                ("Internal server error: "
                 +:+ "READONLY You can't write against a read only replica.")),
       w')
    /\ length (sends (trace w')) = 1%nat.
Proof.
  destruct (analyze_wallet_queues_before_recording Cases.status_down
              (Scenario.request 1704070000) Cases.at_signing
              (Exception "READONLY You can't write against a read only replica."))
    as (w' & H1 & _ & H3).
  - vm_compute. reflexivity.
  - right. split; vm_compute; reflexivity.
  - intros v. reflexivity.
  - intros v. reflexivity.
  - intros code detail. discriminate.
  - exists w'. split; [exact H1|]. rewrite H3. reflexivity.
Defined.

(** X13 for a run in which every collaborator answers. *)
Lemma pipeline_success_writes_one_payload_witness :
  exists payload,
    store (snd (Worker.pipeline Scenario.quiet Scenario.message initial_world))
      !! ("task:result:" +:+ "task-0") = Some (3600, payload)
    /\ store (snd (Worker.pipeline Scenario.quiet Scenario.message
                     initial_world))
         !! ("analysis:commitment:" +:+ Scenario.commitment)
       = Some (3600, payload).
Proof.
  destruct (pipeline_success_writes_one_payload Scenario.quiet
              Scenario.message initial_world
              (snd (Worker.pipeline Scenario.quiet Scenario.message
                      initial_world)))
    as (summary & analysis & entry & _ & _ & _ & Hr & Hc & _).
  - vm_compute. reflexivity.
  - eexists. split; [exact Hr|exact Hc].
Defined.


(** X15 for a run in which the indexer is down, polled 100 seconds
    later. *)
Lemma failed_task_polls_failed_witness :
  RiskApi.get_task_status Scenario.quiet "task-0"
    (set_clock 100
       (snd (Worker.handle (Scenario.scenario false true true)
               Scenario.message initial_world)))
  = (Ok [("task_id", JStr "task-0"); ("status", JStr "failed");
         ("progress", JInt 0)],
     set_clock 100
       (snd (Worker.handle (Scenario.scenario false true true)
               Scenario.message initial_world))).
Proof.
  apply (failed_task_polls_failed (Scenario.scenario false true true)
           Scenario.quiet Scenario.message initial_world
           (snd (Worker.pipeline (Scenario.scenario false true true)
                   Scenario.message initial_world))
           (Exception "RPC timeout") 100).
  - vm_compute. reflexivity.
  - vm_compute. reflexivity.
  - simpl. lia.
  - discriminate.
  - reflexivity.
Defined.

(** X17 for a batch of a risk-analysis request and a record on a topic
    without handler. *)
Lemma consume_loop_commits_every_record_witness :
  commits
    (trace (snd (Worker._consume_loop Scenario.quiet Worker.RiskMessage
                   Cases.handlers [Scenario.record; Cases.stray_record]
                   initial_world)))
  = [("risk-analysis-requests", 0, 7);
     ("strategy-validation-requests", 0, 3)].
Proof.
  apply (consume_loop_commits_every_record Scenario.quiet Worker.RiskMessage
           Cases.handlers [Scenario.record; Cases.stray_record]
           initial_world).
  - reflexivity.
  - intros topic partition offset. reflexivity.
  - intros topic h v Hl.
    unfold Cases.handlers in Hl.
    apply lookup_singleton_Some in Hl as [_ <-].
    split; [|split].
    + apply only_handle; intros; exact I.
    + apply steady_handle.
    + intros w0. apply handle_returns; intros; reflexivity.
Defined.

(** X19 for the "Fetching blockchain data" write of the handler and a
    client that has just connected. *)
Lemma worker_status_reaches_subscriber_witness :
  In (1%positive,
      JObj [("type", JStr "status_update"); ("task_id", JStr "task-0");
            ("data", JObj [("status", JStr "processing");
                           ("progress", JInt 40);
                           ("message", JStr "Fetching blockchain data")])])
    (ConnectionManager.delivered
       (WebSocketService._handle_message Scenario.all_sockets_up
          (Some (JObj [("task_id", JStr "task-0");
                       ("status", JStr "processing");
                       ("progress", JInt 40);
                       ("message", JStr "Fetching blockchain data")]))
          (ConnectionManager.handle_message Scenario.all_sockets_up
             1%positive
             (ConnectionManager.Data (Some "subscribe") (Some "task-0"))
             (ConnectionManager.connect 1%positive
                ConnectionManager.empty)))).
Proof.
  apply (worker_status_reaches_subscriber Scenario.quiet
           Scenario.all_sockets_up "task-0" "processing" 40
           "Fetching blockchain data" initial_world
           (ConnectionManager.connect 1%positive ConnectionManager.empty)
           1%positive).
  - discriminate.
  - discriminate.
  - exists ∅. vm_compute. reflexivity.
  - intros v. reflexivity.
  - reflexivity.
  - reflexivity.
Defined.

(** The manager with two subscribers of task-0 is consistent. *)
Lemma two_subscribers_consistent :
  ConnectionManager.consistent Scenario.two_subscribers.
Proof.
  apply run_consistent; [|apply empty_consistent].
  vm_compute. repeat split; eauto.
Defined.


(** X21 for the session of two clients. *)
Lemma endpoint_order_tracks_open_sockets_witness :
  dom (ConnectionManager.connection_subscriptions
         (ConnectionManager.run Scenario.all_sockets_up Scenario.session
            ConnectionManager.empty))
  = WebSocketService.open_after ∅ Scenario.session.
Proof.
  assert (Ho : WebSocketService.endpoint_order ∅ ∅ Scenario.session).
  { simpl. repeat split; set_solver. }
  exact (proj1 (proj2 (endpoint_order_tracks_open_sockets
                         Scenario.all_sockets_up Scenario.session Ho))).
Defined.

(** X22 for a third client that comes and goes while two others stay
    subscribed. *)
Lemma session_leaves_no_residue_witness :
  ConnectionManager.active_connections
    (ConnectionManager.run Scenario.socket_1_broken
       (WebSocketService.websocket_endpoint 3%positive Cases.frames)
       Scenario.two_subscribers)
  = ConnectionManager.active_connections Scenario.two_subscribers.
Proof.
  assert (Hf : ConnectionManager.connection_subscriptions
                 Scenario.two_subscribers !! 3%positive = None)
    by (vm_compute; reflexivity).
  exact (proj1 (session_leaves_no_residue Scenario.socket_1_broken
                  3%positive Cases.frames Scenario.two_subscribers
                  two_subscribers_consistent Hf)).
Defined.

(** X23 for task-1 while task-0 is handled. *)
Lemma handle_leaves_other_tasks_alone_witness :
  fst (RiskApi.get_task_status Scenario.quiet "task-1"
         (snd (Worker.handle Scenario.quiet Scenario.message initial_world)))
  = fst (RiskApi.get_task_status Scenario.quiet "task-1" initial_world).
Proof.
  assert (Hne : "task-1" <> Worker.task_id Scenario.message)
    by discriminate.
  exact (proj2 (handle_leaves_other_tasks_alone Scenario.quiet Scenario.quiet
                  Scenario.message initial_world "task-1" Hne)).
Defined.

(** X24 for an account of five days against one of a hundred days. *)
Lemma factor_scores_monotone_witness :
  fst (RiskCalculator._calculate_age_risk 100)
  <= fst (RiskCalculator._calculate_age_risk 5).
Proof.
  assert (H : 5 <= 100) by lia.
  exact (proj1 (proj2 (proj1 (factor_scores_monotone 5 100 H)))).
Defined.

(** X25 for a new wallet against an established one. *)
Lemma confidence_bounded_monotone_witness :
  RiskCalculator._calculate_confidence 2 3 0
  <= RiskCalculator._calculate_confidence 150 400 6.
Proof.
  assert (H1 : 2 <= 150) by lia.
  assert (H2 : 3 <= 400) by lia.
  assert (H3 : 0 <= 6) by lia.
  exact (proj2 (confidence_bounded_monotone 2 3 0 150 400 6 H1 H2 H3)).
Defined.

(** X26 for a subscriber with two clients, whose listener fails and is
    then sent an event and started again. *)
Lemma listener_is_not_revived_witness :
  RedisSubscriber.manager
    (RedisSubscriber.run Scenario.all_sockets_up None None
       [RedisSubscriber.Poll (RedisSubscriber.Fails (Exception "Connection reset"));
        RedisSubscriber.Poll
          (RedisSubscriber.Message "message"
             (Some (JObj [("task_id", JStr "task-0");
                          ("status", JStr "completed");
                          ("progress", JInt 100)])));
        RedisSubscriber.Start;
        RedisSubscriber.Poll RedisSubscriber.Timeout]
       (RedisSubscriber.Subscriber true true true Scenario.two_subscribers))
  = Scenario.two_subscribers.
Proof.
  apply (listener_is_not_revived Scenario.all_sockets_up None None
           (RedisSubscriber.Subscriber true true true Scenario.two_subscribers)
           (Exception "Connection reset")
           [RedisSubscriber.Poll
              (RedisSubscriber.Message "message"
                 (Some (JObj [("task_id", JStr "task-0");
                              ("status", JStr "completed");
                              ("progress", JInt 100)])));
            RedisSubscriber.Start;
            RedisSubscriber.Poll RedisSubscriber.Timeout]).
  - reflexivity.
  - reflexivity.
  - reflexivity.
  - repeat constructor; discriminate.
Defined.

(** X27 for the run in which every collaborator answers, an hour
    later. *)
Lemma finished_task_expires_witness :
  RiskApi.get_task_status Scenario.quiet "task-0"
    (set_clock 3600
       (snd (Worker.pipeline Scenario.quiet Scenario.message initial_world)))
  = (Raise (HTTPException 404 "Task not found"),
     set_clock 3600
       (snd (Worker.pipeline Scenario.quiet Scenario.message initial_world))).
Proof.
  apply (finished_task_expires Scenario.quiet Scenario.quiet Scenario.message
           initial_world
           (snd (Worker.pipeline Scenario.quiet Scenario.message
                   initial_world))
           3600 (Scenario.request 3600)).
  - vm_compute. reflexivity.
  - simpl. lia.
  - discriminate.
  - reflexivity.
  - vm_compute. reflexivity.
  - intros key. reflexivity.
  - intros topic v key. reflexivity.
  - intros key ttl v. reflexivity.
Defined.

(** X28 for the passport of [Scenario.wallet], read back 100 seconds
    later under the wallet in mixed case. *)
Lemma claim_data_round_trip_witness :
  PassportService.get_claim_data Scenario.quiet Scenario.wallet
    (set_clock 100
       (snd (Worker.create_passport Scenario.quiet Scenario.commitment
               (lower Scenario.wallet) (JInt 2500) initial_world)))
  = (Ok (Some [("commitment", JStr Scenario.commitment);
               ("secret", JStr "");
               ("nullifier", JStr "00ff");
               ("wallet_address", JStr (lower Scenario.wallet));
               ("encrypted_score", JStr "");
               ("vault_address", JStr "0xvault");
               ("block_height", JInt 19000000);
               ("tx_hash", JNull)]),
     set_clock 100
       (snd (Worker.create_passport Scenario.quiet Scenario.commitment
               (lower Scenario.wallet) (JInt 2500) initial_world))).
Proof.
  assert (Hc : Worker.create_passport Scenario.quiet Scenario.commitment
                 (lower Scenario.wallet) (JInt 2500) initial_world
               = (Ok {| Worker.pcd_commitment := Scenario.commitment;
                        Worker.pcd_secret := "";
                        Worker.pcd_nullifier := "00ff";
                        Worker.pcd_wallet_address := lower Scenario.wallet;
                        Worker.pcd_encrypted_score := "";
                        Worker.pcd_vault_address := "0xvault";
                        Worker.pcd_block_height := 19000000;
                        Worker.pcd_tx_hash := None |},
                  snd (Worker.create_passport Scenario.quiet
                         Scenario.commitment (lower Scenario.wallet)
                         (JInt 2500) initial_world)))
    by (vm_compute; reflexivity).
  assert (Hw : lower Scenario.wallet = lower (lower Scenario.wallet))
    by (vm_compute; reflexivity).
  exact (proj1 (claim_data_round_trip Scenario.quiet Scenario.quiet
                  Scenario.commitment (lower Scenario.wallet) Scenario.wallet
                  (JInt 2500) initial_world _ _ 100 Hc Hw eq_refl)).
Defined.

(** X29 for the manager with two subscribers of task-0. *)
Lemma stats_agree_witness :
  ConnectionStats.total_subscriptions Scenario.two_subscribers
  = ConnectionStats.total
      (ConnectionStats.connections_per_task Scenario.two_subscribers).
Proof.
  exact (proj1 (stats_agree Scenario.two_subscribers
                  two_subscribers_consistent)).
Defined.
